(** * Checkout-to-order reconciliation of the storefront

    A shallow embedding of the two route handlers that make up the
    workflow,

      - [src/app/api/stripe/checkout/route.ts]  ([Checkout.POST]),
      - [src/app/api/stripe/webhook/route.ts]   ([Webhook.POST]),

    over a model of the tables of
    [src/supabase/migrations/001_initial_schema.sql] and of the
    validation schema of [src/types/index.ts].

    Modelling conventions.
      - A table is the list of its rows, in table order.  Only the columns
        the two handlers read or write are kept.
      - A number of a request body or of a catalogue row is given by its
        value, an integer ([Z]); the arithmetic on such numbers is that of
        IEEE-754 doubles ([number], [js_add], [js_mul]).  The [INTEGER]
        columns of the schema accept the 32-bit range only, which the
        inserts check.
      - The managed data store, the payment processor and the session
        lookup are external: what they answer is taken from an
        environment ([Env]).  Every call to the data store is appended to a
        log, so that "no store access" is a statement about the log.
      - A handler is a function from the world before the request to the
        response and the world after it. *)

From Stdlib Require Import String List ZArith Lia Bool.
Import ListNotations.
Local Open Scope string_scope.
Local Open Scope list_scope.
Local Open Scope Z_scope.

Set Implicit Arguments.

(* ===================================================================== *)
(** ** Data model: [src/types/index.ts] and the schema                    *)
(* ===================================================================== *)

(** [status TEXT ... CHECK (status IN ('pending', 'processing',
    'completed', 'cancelled'))]. *)
Inductive OrderStatus : Type :=
| pending
| processing
| completed
| cancelled.

Definition OrderStatus_eqb (a b : OrderStatus) : bool :=
  match a, b with
  | pending, pending | processing, processing
  | completed, completed | cancelled, cancelled => true
  | _, _ => false
  end.

Module Product.
Record t : Type := mk
  { id : string;
    name : string;
    description : string;
    price : Z;                      (* in cents *)
    image_url : string }.
End Product.

(** The validated shipping address, [z.infer<typeof shippingAddressSchema>]. *)
Module ShippingAddress.
Record t : Type := mk
  { full_name : string;
    address_line1 : string;
    address_line2 : option string;
    city : string;
    state : string;
    postal_code : string;
    country : string;
    phone : option string }.
End ShippingAddress.

Module Order.
Record t : Type := mk
  { id : string;
    user_id : option string;
    email : string;
    total_amount : Z;
    status : OrderStatus;
    stripe_session_id : option string;
    stripe_payment_intent : option string;
    shipping_address : ShippingAddress.t;
    updated_at : Z }.
End Order.

Module OrderItem.
Record t : Type := mk
  { order_id : string;
    product_id : string;
    product_name : string;
    product_price : Z;
    quantity : Z }.
End OrderItem.

Module CartItem.
Record t : Type := mk
  { user_id : option string;
    session_id : option string;
    product_id : string;
    quantity : Z }.
End CartItem.

(* ===================================================================== *)
(** ** JavaScript numbers                                                 *)
(* ===================================================================== *)

(** A JavaScript number that arises in these handlers: a double whose
    value is an integer, or one of [Infinity], [-Infinity], [NaN].  The
    sums and products of integer-valued doubles are of this kind again. *)
Inductive number : Type :=
| Int (z : Z)
| NonFinite.

(** Rounding of a natural number to the nearest one with 53 significant
    bits, ties to the even significand: [e] is the exponent of the unit
    in the last place, [q] the significand before rounding and [r] what
    is cut off. *)
Definition round_even (a : Z) : Z :=
  let e := Z.log2 a - 52 in
  if e <=? 0 then a
  else
    let q := Z.shiftr a e in
    let r := a - Z.shiftl q e in
    let half := Z.shiftl 1 (e - 1) in
    if (r <? half) || ((r =? half) && Z.even q)
    then Z.shiftl q e
    else Z.shiftl (q + 1) e.

(** The double nearest to an integer, which is the integer itself when
    it is a double; beyond the largest double the result is an
    infinity. *)
Definition to_double (z : Z) : number :=
  let m := round_even (Z.abs z) in
  if m <? 2 ^ 1024 then Int (Z.sgn z * m) else NonFinite.

(** [x + y]: the exact sum, rounded.  A sum with an infinity or a
    [NaN] is an infinity or a [NaN]. *)
Definition js_add (x y : number) : number :=
  match x, y with
  | Int a, Int b => to_double (a + b)
  | _, _ => NonFinite
  end.

(** [x * y]: the exact product, rounded. *)
Definition js_mul (x y : number) : number :=
  match x, y with
  | Int a, Int b => to_double (a * b)
  | _, _ => NonFinite
  end.

(* ===================================================================== *)
(** ** JavaScript values of the request bodies                            *)
(* ===================================================================== *)

(** A JSON field that the schema expects to be a string: absent, a
    string, or a value of any other type. *)
Inductive JsField : Type :=
| JUndefined
| JString (s : string)
| JOther.

(** [if (!x)] on an optional string: [undefined], [null] and the empty
    string are falsy. *)
Definition truthy (x : option string) : option string :=
  match x with
  | Some s => if String.eqb s EmptyString then None else Some s
  | None => None
  end.

(** What a [catch] clause can receive. *)
Inductive Exn : Type :=
| ZodError (issues : list string)     (* shippingAddressSchema.parse *)
| PostgrestError (message : string)   (* the [error] of a store answer *)
| Error (message : string)            (* new Error(...) *)
| TypeError                           (* property access on undefined *)
| StripeError (message : string).     (* stripe.checkout.sessions.create *)

(* ===================================================================== *)
(** ** [shippingAddressSchema]                                            *)
(* ===================================================================== *)

Module RawAddress.
Record t : Type := mk
  { full_name : JsField;
    address_line1 : JsField;
    address_line2 : JsField;
    city : JsField;
    state : JsField;
    postal_code : JsField;
    country : JsField;
    phone : JsField }.
End RawAddress.

(** [z.string().min(1, msg)]: a string of length at least one. *)
Definition z_string_min1 (path : string) (v : JsField) : list string + string :=
  match v with
  | JString s => if String.eqb s EmptyString then inl [path] else inr s
  | JUndefined | JOther => inl [path]
  end.

(** [z.string().optional()]: absent, or a string. *)
Definition z_string_optional (path : string) (v : JsField)
  : list string + option string :=
  match v with
  | JUndefined => inr None
  | JString s => inr (Some s)
  | JOther => inl [path]
  end.

Definition issues_of {A : Type} (r : list string + A) : list string :=
  match r with inl i => i | inr _ => [] end.

(** [shippingAddressSchema.parse(x)]: the validated address, or a thrown
    [ZodError] listing every field that failed.  [None] stands for an [x]
    that is not an object. *)
Definition shippingAddressSchema_parse (x : option RawAddress.t)
  : Exn + ShippingAddress.t :=
  match x with
  | None => inl (ZodError [EmptyString])
  | Some a =>
      let f1 := z_string_min1 "full_name" (RawAddress.full_name a) in
      let f2 := z_string_min1 "address_line1" (RawAddress.address_line1 a) in
      let f3 := z_string_optional "address_line2" (RawAddress.address_line2 a) in
      let f4 := z_string_min1 "city" (RawAddress.city a) in
      let f5 := z_string_min1 "state" (RawAddress.state a) in
      let f6 := z_string_min1 "postal_code" (RawAddress.postal_code a) in
      let f7 := z_string_min1 "country" (RawAddress.country a) in
      let f8 := z_string_optional "phone" (RawAddress.phone a) in
      match f1, f2, f3, f4, f5, f6, f7, f8 with
      | inr v1, inr v2, inr v3, inr v4, inr v5, inr v6, inr v7, inr v8 =>
          inr (ShippingAddress.mk v1 v2 v3 v4 v5 v6 v7 v8)
      | _, _, _, _, _, _, _, _ =>
          inl (ZodError (issues_of f1 ++ issues_of f2 ++ issues_of f3
                         ++ issues_of f4 ++ issues_of f5 ++ issues_of f6
                         ++ issues_of f7 ++ issues_of f8))
      end
  end.

(* ===================================================================== *)
(** ** The data store and its calls                                       *)
(* ===================================================================== *)

Record Store : Type := mkStore
  { products : list Product.t;
    orders : list Order.t;
    order_items : list OrderItem.t;
    cart_items : list CartItem.t }.

(** The object given to [.update(...)] on [orders]: the columns to set. *)
Record OrderPatch : Type := mkPatch
  { set_status : option OrderStatus;
    set_stripe_session_id : option string;
    set_stripe_payment_intent : option (option string) }.

(** One call through the store client. *)
Inductive StoreOp : Type :=
| products_select_in (ids : list string)
| orders_insert (user_id : string) (total_amount : number)
| order_items_insert (rows : list OrderItem.t)
| orders_update_eq_id (patch : OrderPatch) (id : string)
| orders_select_eq_stripe_payment_intent (payment_intent : string)
| cart_items_delete_eq_user_id (user_id : string).

Definition is_write (op : StoreOp) : bool :=
  match op with
  | products_select_in _ | orders_select_eq_stripe_payment_intent _ => false
  | orders_insert _ _ | order_items_insert _
  | orders_update_eq_id _ _ | cart_items_delete_eq_user_id _ => true
  end.

Record World : Type := mkWorld
  { store : Store;
    log : list StoreOp }.

Module User.
Record t : Type := mk
  { id : string;
    email : option string }.
End User.

(** One element of [line_items] of the hosted checkout session. *)
Module LineItem.
Record t : Type := mk
  { currency : string;
    name : string;
    description : string;
    images : list string;
    unit_amount : Z;
    quantity : Z }.
End LineItem.

Module SessionParams.
Record t : Type := mk
  { line_items : list LineItem.t;
    customer_email : option string;
    metadata_order_id : string;
    metadata_user_id : string }.
End SessionParams.

Module Session.
Record t : Type := mk
  { id : string;
    url : string }.
End Session.

(** [session.metadata] of a webhook event. *)
Module Metadata.
Record t : Type := mk
  { order_id : option string;
    user_id : option string }.
End Metadata.

(** [event.data.object]: the fields the handler reads, of a checkout
    session ([metadata], [payment_intent]) or of a payment intent ([id]). *)
Module EventObject.
Record t : Type := mk
  { id : string;
    metadata : option Metadata.t;
    payment_intent : option string }.
End EventObject.

Module Event.
Record t : Type := mk
  { type : string;
    object : EventObject.t }.
End Event.

(** The external collaborators of one request. *)
Record Env : Type := mkEnv
  { (* the error, if any, with which the data store answers a call for a
       reason of its own (unreachable, malformed identifier, ...) *)
    db_error : StoreOp -> option string;
    (* TIMEZONE('utc', NOW()) *)
    now : Z;
    (* uuid_generate_v4() for the order inserted by this request *)
    uuid_generate_v4 : string;
    (* supabase.auth.getUser(): the user, unless userError || !user *)
    getUser : option User.t;
    (* stripe.checkout.sessions.create: the session, or a thrown error *)
    sessions_create : SessionParams.t -> string + Session.t;
    (* stripe.webhooks.constructEvent(body, signature, secret) *)
    constructEvent : string -> string -> string -> string + Event.t;
    (* process.env.STRIPE_WEBHOOK_SECRET *)
    STRIPE_WEBHOOK_SECRET : string }.

(** *** The monad of a handler body: a world, and a value or a throw.
    The world is kept when something is thrown: what was written before
    stays written. *)
Definition M (A : Type) : Type := World -> (Exn + A) * World.

Definition ret {A : Type} (a : A) : M A := fun w => (inr a, w).

Definition throw {A : Type} (e : Exn) : M A := fun w => (inl e, w).

Definition bind {A B : Type} (m : M A) (k : A -> M B) : M B :=
  fun w =>
    match m w with
    | (inr a, w') => k a w'
    | (inl e, w') => (inl e, w')
    end.

Notation "x <- m ;; k" := (bind m (fun x => k))
  (at level 61, m at next level, right associativity).
Notation "m ;;; k" := (bind m (fun _ => k))
  (at level 61, right associativity).

(** [xs.map(f)] where [f] may throw: left to right, stops at the first
    throw. *)
Fixpoint mapM {A B : Type} (f : A -> M B) (xs : list A) : M (list B) :=
  match xs with
  | [] => ret []
  | x :: xs' => y <- f x ;; ys <- mapM f xs' ;; ret (y :: ys)
  end.

(** [xs.reduce(f, init)] where [f] may throw. *)
Fixpoint reduceM {A B : Type} (f : B -> A -> M B) (xs : list A) (init : B)
  : M B :=
  match xs with
  | [] => ret init
  | x :: xs' => acc <- f init x ;; reduceM f xs' acc
  end.

Definition of_sum {A : Type} (r : Exn + A) : M A :=
  match r with
  | inl e => throw e
  | inr a => ret a
  end.

(** *** The store client.  Every call answers with [{ data, error }] and
    never throws; a call that fails changes nothing. *)
Module Supabase.

Record Answer (A : Type) : Type := mkAnswer
  { data : option A;
    error : option string }.

Definition succeeded {A : Type} (a : A) : Answer A := mkAnswer (Some a) None.
Definition failed {A : Type} (message : string) : Answer A :=
  mkAnswer None (Some message).

Definition logged (op : StoreOp) (w : World) : World :=
  mkWorld (store w) (log w ++ [op]).

Definition with_orders (os : list Order.t) (s : Store) : Store :=
  mkStore (products s) os (order_items s) (cart_items s).

Definition with_order_items (rows : list OrderItem.t) (s : Store) : Store :=
  mkStore (products s) (orders s) rows (cart_items s).

Definition with_cart_items (cs : list CartItem.t) (s : Store) : Store :=
  mkStore (products s) (orders s) (order_items s) cs.

(** The range of an [INTEGER] column. *)
Definition fits_int4 (z : Z) : bool :=
  (-2147483648 <=? z) && (z <=? 2147483647).

Definition eq_opt (x : option string) (v : string) : bool :=
  match x with
  | Some s => String.eqb s v
  | None => false                   (* NULL = v is never true *)
  end.

(** [.from('products').select('*').in('id', ids)] *)
Definition products_in (env : Env) (ids : list string)
  : M (Answer (list Product.t)) :=
  fun w =>
    let op := products_select_in ids in
    match db_error env op with
    | Some message => (inr (failed message), logged op w)
    | None =>
        (inr (succeeded
                (filter (fun p => existsb (String.eqb (Product.id p)) ids)
                        (products (store w)))),
         logged op w)
    end.

(** The constraints of table [orders] on an inserted row:
    [total_amount INTEGER NOT NULL], [id UUID PRIMARY KEY]. *)
Definition orders_violation (env : Env) (total_amount : Z) (s : Store)
  : option string :=
  if negb (fits_int4 total_amount)
  then Some "value out of range for type integer"
  else if existsb (fun o => String.eqb (Order.id o) (uuid_generate_v4 env))
                  (orders s)
       then Some "duplicate key value violates unique constraint"
       else None.

(** The row that [insert] stores: [id] and [updated_at] take their
    column defaults, the two [stripe_*] columns are NULL. *)
Definition new_order (env : Env) (user_id : string) (email : string)
           (total_amount : Z) (status : OrderStatus)
           (shipping_address : ShippingAddress.t) : Order.t :=
  Order.mk (uuid_generate_v4 env) (Some user_id) email total_amount status
           None None shipping_address (now env).

(** [.from('orders').insert({...}).select().single()]; an absent
    [email] leaves the [email TEXT NOT NULL] column without a value, and
    a total that is not finite is sent as [null]. *)
Definition orders_insert_single (env : Env) (user_id : string)
           (email : option string) (total_amount : number)
           (status : OrderStatus) (shipping_address : ShippingAddress.t)
  : M (Answer Order.t) :=
  fun w =>
    let op := orders_insert user_id total_amount in
    match db_error env op with
    | Some message => (inr (failed message), logged op w)
    | None =>
        match email with
        | None =>
            (inr (failed "null value in column email violates not-null constraint"),
             logged op w)
        | Some e =>
            match total_amount with
            | NonFinite =>
                (inr (failed "null value in column total_amount violates not-null constraint"),
                 logged op w)
            | Int z =>
                match orders_violation env z (store w) with
                | Some message => (inr (failed message), logged op w)
                | None =>
                    let row := new_order env user_id e z status
                                         shipping_address in
                    (inr (succeeded row),
                     logged op (mkWorld (with_orders (orders (store w) ++ [row])
                                                     (store w))
                                        (log w)))
                end
            end
        end
    end.

(** The constraints of table [order_items] on one inserted row:
    [quantity INTEGER NOT NULL CHECK (quantity > 0)],
    [product_price INTEGER NOT NULL]. *)
Definition order_item_ok (r : OrderItem.t) : bool :=
  (0 <? OrderItem.quantity r) && fits_int4 (OrderItem.quantity r)
  && fits_int4 (OrderItem.product_price r).

(** [.from('order_items').insert(rows)]: one statement, all rows or
    none. *)
Definition order_items_insert_all (env : Env) (rows : list OrderItem.t)
  : M (Answer unit) :=
  fun w =>
    let op := order_items_insert rows in
    match db_error env op with
    | Some message => (inr (failed message), logged op w)
    | None =>
        if forallb order_item_ok rows
        then (inr (succeeded tt),
              logged op (mkWorld (with_order_items
                                    (order_items (store w) ++ rows) (store w))
                                 (log w)))
        else (inr (failed "violates check constraint"), logged op w)
    end.

Definition or_else {A : Type} (x : option A) (d : A) : A :=
  match x with Some a => a | None => d end.

(** The row after [UPDATE orders SET ...]; the trigger
    [update_orders_updated_at] stamps every updated row. *)
Definition apply_patch (env : Env) (p : OrderPatch) (o : Order.t) : Order.t :=
  Order.mk (Order.id o) (Order.user_id o) (Order.email o)
           (Order.total_amount o)
           (or_else (set_status p) (Order.status o))
           (match set_stripe_session_id p with
            | Some v => Some v
            | None => Order.stripe_session_id o
            end)
           (or_else (set_stripe_payment_intent p)
                    (Order.stripe_payment_intent o))
           (Order.shipping_address o)
           (now env).

Definition update_where_id (env : Env) (p : OrderPatch) (id : string)
           (os : list Order.t) : list Order.t :=
  map (fun o => if String.eqb (Order.id o) id then apply_patch env p o else o)
      os.

(** [.from('orders').update(patch).eq('id', id)] *)
Definition orders_update (env : Env) (patch : OrderPatch) (id : string)
  : M (Answer unit) :=
  fun w =>
    let op := orders_update_eq_id patch id in
    match db_error env op with
    | Some message => (inr (failed message), logged op w)
    | None =>
        (inr (succeeded tt),
         logged op (mkWorld (with_orders
                               (update_where_id env patch id (orders (store w)))
                               (store w))
                            (log w)))
    end.

(** [.from('orders').select('id').eq('stripe_payment_intent', v)]: the
    ids of the matching rows, in table order. *)
Definition orders_ids_by_payment_intent (env : Env) (v : string)
  : M (Answer (list string)) :=
  fun w =>
    let op := orders_select_eq_stripe_payment_intent v in
    match db_error env op with
    | Some message => (inr (failed message), logged op w)
    | None =>
        (inr (succeeded
                (map Order.id
                     (filter (fun o => eq_opt (Order.stripe_payment_intent o) v)
                             (orders (store w))))),
         logged op w)
    end.

(** [.from('cart_items').delete().eq('user_id', v)] *)
Definition cart_items_delete (env : Env) (v : string) : M (Answer unit) :=
  fun w =>
    let op := cart_items_delete_eq_user_id v in
    match db_error env op with
    | Some message => (inr (failed message), logged op w)
    | None =>
        (inr (succeeded tt),
         logged op (mkWorld (with_cart_items
                               (filter (fun c => negb (eq_opt (CartItem.user_id c) v))
                                       (cart_items (store w)))
                               (store w))
                            (log w)))
    end.

End Supabase.

(** *** Responses *)

Inductive Json : Type :=
| json_error (error : string)               (* { error: '...' } *)
| json_caught (e : Exn)                     (* { error: error.message || '...' } *)
| json_checkout (session_id url : string)   (* { success: true, data: {...} } *)
| json_received.                            (* { received: true } *)

Module NextResponse.
Record t : Type := mk
  { body : Json;
    status : Z }.
Definition json (body : Json) (status : Z) : t := mk body status.
End NextResponse.

(* ===================================================================== *)
(** ** [src/app/api/stripe/checkout/route.ts]                             *)
(* ===================================================================== *)

(** One element of [cart_items] of the request body.  The handler reads
    [product_id] and [quantity]; [price] stands for whatever else a client
    puts in the object. *)
Module CartLine.
Record t : Type := mk
  { product_id : string;
    quantity : Z;
    price : option Z }.
End CartLine.

(** The parsed JSON body of the request: an object whose
    [shipping_address] is an object or not, and whose [cart_items] is
    absent or an array of such lines. *)
Module CheckoutRequest.
Record t : Type := mk
  { shipping_address : option RawAddress.t;
    cart_items : option (list CartLine.t) }.
End CheckoutRequest.

Module Checkout.

(** [products?.find(p => p.id === product_id)] *)
Definition find_product (products : option (list Product.t))
           (product_id : string) : option Product.t :=
  match products with
  | None => None
  | Some ps => find (fun p => String.eqb (Product.id p) product_id) ps
  end.

(** The callback of [const lineItems = cart_items.map(...)]. *)
Definition lineItem (products : option (list Product.t)) (item : CartLine.t)
  : M LineItem.t :=
  match find_product products (CartLine.product_id item) with
  | None =>
      throw (Error ("Product " ++ CartLine.product_id item ++ " not found")%string)
  | Some product =>
      ret (LineItem.mk "usd" (Product.name product)
                       (Product.description product)
                       [Product.image_url product]
                       (Product.price product)
                       (CartLine.quantity item))
  end.

(** The callback of [const totalAmount = cart_items.reduce(..., 0)]:
    [sum + (product!.price * item.quantity)] on doubles;
    [product!.price] on [undefined] is a [TypeError]. *)
Definition addLine (products : option (list Product.t)) (sum : number)
           (item : CartLine.t) : M number :=
  match find_product products (CartLine.product_id item) with
  | None => throw TypeError
  | Some product =>
      ret (js_add sum (js_mul (to_double (Product.price product))
                              (to_double (CartLine.quantity item))))
  end.

(** The callback of [const orderItems = cart_items.map(...)]. *)
Definition orderItem (products : option (list Product.t)) (order : Order.t)
           (item : CartLine.t) : M OrderItem.t :=
  match find_product products (CartLine.product_id item) with
  | None => throw TypeError
  | Some product =>
      ret (OrderItem.mk (Order.id order) (CartLine.product_id item)
                        (Product.name product) (Product.price product)
                        (CartLine.quantity item))
  end.

(** [if (error) throw error] *)
Definition throw_if {A : Type} (a : Supabase.Answer A) : M unit :=
  match Supabase.error a with
  | Some message => throw (PostgrestError message)
  | None => ret tt
  end.

(** The priced part of the [try] block, from the catalogue lookup on. *)
Definition place_order (env : Env) (user : User.t)
           (validatedAddress : ShippingAddress.t) (cart_items : list CartLine.t)
  : M NextResponse.t :=
  let productIds := map CartLine.product_id cart_items in
  productsAnswer <- Supabase.products_in env productIds ;;
  throw_if productsAnswer ;;;
  let products := Supabase.data productsAnswer in
  lineItems <- mapM (lineItem products) cart_items ;;
  totalAmount <- reduceM (addLine products) cart_items (Int 0) ;;
  orderAnswer <- Supabase.orders_insert_single env (User.id user)
                   (User.email user) totalAmount pending validatedAddress ;;
  throw_if orderAnswer ;;;
  match Supabase.data orderAnswer with
  | None => throw TypeError            (* order.id on null *)
  | Some order =>
      orderItems <- mapM (orderItem products order) cart_items ;;
      orderItemsAnswer <- Supabase.order_items_insert_all env orderItems ;;
      throw_if orderItemsAnswer ;;;
      session <- of_sum
                   (match sessions_create env
                            (SessionParams.mk lineItems (User.email user)
                                              (Order.id order) (User.id user))
                    with
                    | inl message => inl (StripeError message)
                    | inr s => inr s
                    end) ;;
      Supabase.orders_update env
        (mkPatch None (Some (Session.id session)) None) (Order.id order) ;;;
      ret (NextResponse.json
             (json_checkout (Session.id session) (Session.url session)) 200)
  end.

(** The body of the [try] block. *)
Definition try_block (env : Env) (request : CheckoutRequest.t)
  : M NextResponse.t :=
  match getUser env with
  | None => ret (NextResponse.json (json_error "Unauthorized") 401)
  | Some user =>
      validatedAddress <-
        of_sum (shippingAddressSchema_parse
                  (CheckoutRequest.shipping_address request)) ;;
      match CheckoutRequest.cart_items request with
      | None | Some [] =>
          ret (NextResponse.json (json_error "Cart is empty") 400)
      | Some cart_items => place_order env user validatedAddress cart_items
      end
  end.

(** [export async function POST(request)] *)
Definition POST (env : Env) (request : CheckoutRequest.t) (w : World)
  : NextResponse.t * World :=
  match try_block env request w with
  | (inr response, w') => (response, w')
  | (inl error, w') => (NextResponse.json (json_caught error) 500, w')
  end.

End Checkout.

(* ===================================================================== *)
(** ** [src/app/api/stripe/webhook/route.ts]                              *)
(* ===================================================================== *)

Module WebhookRequest.
Record t : Type := mk
  { body : string;                       (* request.text() *)
    stripe_signature : option string }.  (* headers().get('stripe-signature') *)
End WebhookRequest.

Module Webhook.

(** [session.metadata?.order_id] *)
Definition metadata_order_id (session : EventObject.t) : option string :=
  match EventObject.metadata session with
  | Some m => Metadata.order_id m
  | None => None
  end.

(** [session.metadata?.user_id] *)
Definition metadata_user_id (session : EventObject.t) : option string :=
  match EventObject.metadata session with
  | Some m => Metadata.user_id m
  | None => None
  end.

(** [{ status: 'completed', stripe_payment_intent: session.payment_intent }] *)
Definition completed_patch (session : EventObject.t) : OrderPatch :=
  mkPatch (Some completed) None (Some (EventObject.payment_intent session)).

(** [{ status: 'cancelled' }] *)
Definition cancelled_patch : OrderPatch := mkPatch (Some cancelled) None None.

(** [case 'checkout.session.completed'] *)
Definition checkout_session_completed (env : Env) (session : EventObject.t)
  : M unit :=
  let orderId := metadata_order_id session in
  let userId := metadata_user_id session in
  match truthy orderId with
  | None => ret tt                                      (* break *)
  | Some orderId =>
      Supabase.orders_update env (completed_patch session) orderId ;;;
      match truthy userId with
      | Some userId => Supabase.cart_items_delete env userId ;;; ret tt
      | None => ret tt
      end
  end.

(** [case 'payment_intent.payment_failed'] *)
Definition payment_intent_payment_failed (env : Env)
           (paymentIntent : EventObject.t) : M unit :=
  ordersAnswer <- Supabase.orders_ids_by_payment_intent env
                    (EventObject.id paymentIntent) ;;
  match Supabase.data ordersAnswer with
  | Some (id0 :: _) =>
      Supabase.orders_update env cancelled_patch id0 ;;;
      ret tt
  | Some [] | None => ret tt
  end.

(** [switch (event.type)] *)
Definition dispatch (env : Env) (event : Event.t) : M unit :=
  if String.eqb (Event.type event) "checkout.session.completed"
  then checkout_session_completed env (Event.object event)
  else if String.eqb (Event.type event) "payment_intent.payment_failed"
  then payment_intent_payment_failed env (Event.object event)
  else ret tt.

(** [export async function POST(request)] *)
Definition POST (env : Env) (request : WebhookRequest.t) (w : World)
  : NextResponse.t * World :=
  match truthy (WebhookRequest.stripe_signature request) with
  | None => (NextResponse.json (json_error "No signature") 400, w)
  | Some signature =>
      match constructEvent env (WebhookRequest.body request) signature
                           (STRIPE_WEBHOOK_SECRET env) with
      | inl message =>
          (NextResponse.json (json_error ("Webhook Error: " ++ message)%string) 400, w)
      | inr event =>
          match dispatch env event w with
          | (inr _, w') => (NextResponse.json json_received 200, w')
          | (inl _, w') =>
              (NextResponse.json (json_error "Webhook handler failed") 500, w')
          end
      end
  end.

End Webhook.

(* ===================================================================== *)
(** ** Summaries used in the statements                                   *)
(* ===================================================================== *)

(** The store calls that one delivery of "checkout.session.completed"
    makes, as a function of the event alone. *)
Definition completed_calls (session : EventObject.t) : list StoreOp :=
  match truthy (Webhook.metadata_order_id session) with
  | None => []
  | Some orderId =>
      orders_update_eq_id (Webhook.completed_patch session) orderId
      :: match truthy (Webhook.metadata_user_id session) with
         | Some userId => [cart_items_delete_eq_user_id userId]
         | None => []
         end
  end.

(** How a delivery may move one order row: the row keeps its identifier,
    and its status is kept or becomes [completed] or [cancelled]. *)
Definition status_step (o o' : Order.t) : Prop :=
  Order.id o' = Order.id o /\
  (Order.status o' = Order.status o \/
   Order.status o' = completed \/
   Order.status o' = cancelled).

(** The metadata of the event object has the field and its value is the
    non-empty string [v]. *)
Definition carries (field : Metadata.t -> option string)
           (object : EventObject.t) (v : string) : Prop :=
  exists m,
    EventObject.metadata object = Some m /\
    field m = Some v /\
    v <> EmptyString.

(** The event object has no metadata, or its metadata has no such
    field, or an empty one. *)
Definition lacks (field : Metadata.t -> option string)
           (object : EventObject.t) : Prop :=
  EventObject.metadata object = None \/
  exists m,
    EventObject.metadata object = Some m /\
    (field m = None \/ field m = Some EmptyString).

(** The order [o] of the table [os] is the first, in table order, that
    records the payment intent [payment_intent], or has the identifier of
    that first one. *)
Definition first_with_payment_intent (payment_intent : string)
           (os : list Order.t) (o : Order.t) : Prop :=
  exists earlier first later,
    os = earlier ++ first :: later /\
    Forall (fun x => Order.stripe_payment_intent x <> Some payment_intent)
           earlier /\
    Order.stripe_payment_intent first = Some payment_intent /\
    Order.id o = Order.id first.

(** How an accepted event may move the row [o] of the order table [os]
    to [o']: the row is as it was; or the event is
    "checkout.session.completed", its metadata names the order, and the
    row is completed; or the event is "payment_intent.payment_failed",
    the order is the first that records the payment intent, and the row is
    cancelled. *)
Definition moved_by (event : Event.t) (os : list Order.t) (o o' : Order.t)
  : Prop :=
  o' = o \/
  (Event.type event = "checkout.session.completed" /\
   carries Metadata.order_id (Event.object event) (Order.id o) /\
   Order.status o' = completed) \/
  (Event.type event = "payment_intent.payment_failed" /\
   first_with_payment_intent (EventObject.id (Event.object event)) os o /\
   Order.status o' = cancelled).

(** How the update of order [orderId] to [completed] moves a row. *)
Definition completed_if_named (orderId : string) (o o' : Order.t) : Prop :=
  if String.eqb (Order.id o) orderId
  then Order.id o' = Order.id o /\ Order.status o' = completed
  else o' = o.

Definition ack : NextResponse.t := NextResponse.json json_received 200.

Definition no_db_error (env : Env) : Prop := forall op, db_error env op = None.

(** The store after a call, as a function of the store before it. *)
Definition update_effect (env : Env) (patch : OrderPatch) (id : string)
           (s : Store) : Store :=
  match db_error env (orders_update_eq_id patch id) with
  | Some _ => s
  | None =>
      Supabase.with_orders
        (Supabase.update_where_id env patch id (orders s)) s
  end.

Definition delete_effect (env : Env) (user_id : string) (s : Store) : Store :=
  match db_error env (cart_items_delete_eq_user_id user_id) with
  | Some _ => s
  | None =>
      Supabase.with_cart_items
        (filter (fun c => negb (Supabase.eq_opt (CartItem.user_id c) user_id))
                (cart_items s)) s
  end.

(** The store after one delivery of "checkout.session.completed". *)
Definition completed_effect (env : Env) (session : EventObject.t) (s : Store)
  : Store :=
  match truthy (Webhook.metadata_order_id session) with
  | None => s
  | Some orderId =>
      let s1 := update_effect env (Webhook.completed_patch session) orderId s in
      match truthy (Webhook.metadata_user_id session) with
      | Some userId => delete_effect env userId s1
      | None => s1
      end
  end.

(** The rows that the lookup of "payment_intent.payment_failed" returns. *)
Definition failed_matches (env : Env) (paymentIntent : EventObject.t)
           (s : Store) : list string :=
  match db_error env (orders_select_eq_stripe_payment_intent
                        (EventObject.id paymentIntent)) with
  | Some _ => []
  | None =>
      map Order.id
          (filter (fun o => Supabase.eq_opt (Order.stripe_payment_intent o)
                                            (EventObject.id paymentIntent))
                  (orders s))
  end.

Definition failed_calls (env : Env) (paymentIntent : EventObject.t) (s : Store)
  : list StoreOp :=
  orders_select_eq_stripe_payment_intent (EventObject.id paymentIntent)
  :: match failed_matches env paymentIntent s with
     | id0 :: _ => [orders_update_eq_id Webhook.cancelled_patch id0]
     | [] => []
     end.

Definition failed_effect (env : Env) (paymentIntent : EventObject.t) (s : Store)
  : Store :=
  match failed_matches env paymentIntent s with
  | id0 :: _ => update_effect env Webhook.cancelled_patch id0 s
  | [] => s
  end.

(** The store after, and the calls of, one accepted webhook event. *)
Definition dispatch_effect (env : Env) (event : Event.t) (s : Store) : Store :=
  if String.eqb (Event.type event) "checkout.session.completed"
  then completed_effect env (Event.object event) s
  else if String.eqb (Event.type event) "payment_intent.payment_failed"
  then failed_effect env (Event.object event) s
  else s.

Definition dispatch_calls (env : Env) (event : Event.t) (s : Store)
  : list StoreOp :=
  if String.eqb (Event.type event) "checkout.session.completed"
  then completed_calls (Event.object event)
  else if String.eqb (Event.type event) "payment_intent.payment_failed"
  then failed_calls env (Event.object event) s
  else [].

(** The request carries a signature that [constructEvent] accepts as
    [event]. *)
Definition signed_as (env : Env) (request : WebhookRequest.t) (event : Event.t)
  : Prop :=
  exists signature,
    truthy (WebhookRequest.stripe_signature request) = Some signature /\
    constructEvent env (WebhookRequest.body request) signature
                   (STRIPE_WEBHOOK_SECRET env) = inr event.

(** The signature header is missing, or verification throws. *)
Definition bad_signature (env : Env) (request : WebhookRequest.t) : Prop :=
  truthy (WebhookRequest.stripe_signature request) = None \/
  exists signature message,
    truthy (WebhookRequest.stripe_signature request) = Some signature /\
    constructEvent env (WebhookRequest.body request) signature
                   (STRIPE_WEBHOOK_SECRET env) = inl message.

(** *** Checkout *)

(** The catalogue row that a cart line refers to: the first row of the
    table with that identifier. *)
Definition resolve (catalog : list Product.t) (item : CartLine.t)
  : option Product.t :=
  find (fun p => String.eqb (Product.id p) (CartLine.product_id item)) catalog.

(** [row] is the order-item row of [item] under order [order_id]: product
    reference and quantity of the cart line, name and price of the
    catalogue row. *)
Definition row_for (catalog : list Product.t) (order_id : string)
           (item : CartLine.t) (row : OrderItem.t) : Prop :=
  exists product,
    resolve catalog item = Some product /\
    row = OrderItem.mk order_id (CartLine.product_id item)
                       (Product.name product) (Product.price product)
                       (CartLine.quantity item).

(** The sum over rows of [product_price * quantity]. *)
Definition rows_total (rows : list OrderItem.t) : Z :=
  fold_right (fun r acc => OrderItem.product_price r * OrderItem.quantity r + acc)
             0 rows.

(** The looked-up rows [ps] answer for the lines of a cart as the
    catalogue does. *)
Definition agree (catalog : list Product.t) (ps : option (list Product.t))
           (cart : list CartLine.t) : Prop :=
  Forall (fun i => Checkout.find_product ps (CartLine.product_id i)
                   = resolve catalog i) cart.


Definition select_call (cart : list CartLine.t) : StoreOp :=
  products_select_in (map CartLine.product_id cart).

(** The total as the handler computes it for the lines that [rows]
    stand for: the left-to-right sum of the products, each operation
    rounded to a double. *)
Definition add_rows (rows : list OrderItem.t) (sum : number) : number :=
  fold_left (fun sum r =>
               js_add sum (js_mul (to_double (OrderItem.product_price r))
                                  (to_double (OrderItem.quantity r))))
            rows sum.

Definition double_total (rows : list OrderItem.t) : number :=
  add_rows rows (Int 0).

Definition insert_call (user : User.t) (rows : list OrderItem.t) : StoreOp :=
  orders_insert (User.id user) (double_total rows).

(** The bound up to which every integer is a double: [2 ^ 53]. *)
Definition exact_limit : Z := 9007199254740992.

(** [x] stands for the non-negative integer [s] as far as doubles can:
    it is [s] while [s] is at most [exact_limit], and it is at least
    [exact_limit], or not finite, beyond. *)
Definition tracks (s : Z) (x : number) : Prop :=
  match x with
  | Int f => (s <= exact_limit -> f = s) /\ (exact_limit < s -> exact_limit <= f)
  | NonFinite => exact_limit < s
  end.

(** A row whose price and quantity are non-negative and exact as
    doubles. *)
Definition plain_row (r : OrderItem.t) : Prop :=
  0 <= OrderItem.product_price r <= exact_limit /\
  0 <= OrderItem.quantity r <= exact_limit.

(** No price of the catalogue is negative. *)
Definition prices_non_negative (catalog : list Product.t) : Prop :=
  Forall (fun p => 0 <= Product.price p) catalog.

Definition session_patch (session : Session.t) : OrderPatch :=
  mkPatch None (Some (Session.id session)) None.

(** The store with one more order and its item rows. *)
Definition with_order (o : Order.t) (rows : list OrderItem.t) (s : Store)
  : Store :=
  mkStore (products s) (orders s ++ [o]) (order_items s ++ rows) (cart_items s).

(** The ways in which [Checkout.place_order] ends, with the response (or
    the thrown error) and the world it leaves. *)
Inductive Placed (env : Env) (user : User.t) (addr : ShippingAddress.t)
          (cart : list CartLine.t) (w : World)
  : Exn + NextResponse.t -> World -> Prop :=
| lookup_failed (message : string) :
    db_error env (select_call cart) = Some message ->
    Placed env user addr cart w
           (inl (PostgrestError message))
           (mkWorld (store w) (log w ++ [select_call cart]))
| unknown_product (earlier later : list CartLine.t) (item : CartLine.t) :
    db_error env (select_call cart) = None ->
    cart = earlier ++ item :: later ->
    Forall (fun i => resolve (products (store w)) i <> None) earlier ->
    resolve (products (store w)) item = None ->
    Placed env user addr cart w
           (inl (Error ("Product " ++ CartLine.product_id item
                        ++ " not found")%string))
           (mkWorld (store w) (log w ++ [select_call cart]))
| order_refused (rows : list OrderItem.t) (message : string) :
    db_error env (select_call cart) = None ->
    Forall2 (row_for (products (store w)) (uuid_generate_v4 env)) cart rows ->
    Placed env user addr cart w
           (inl (PostgrestError message))
           (mkWorld (store w)
                    (log w ++ [select_call cart; insert_call user rows]))
| items_refused (rows : list OrderItem.t) (total : Z)
                (email message : string) :
    db_error env (select_call cart) = None ->
    Forall2 (row_for (products (store w)) (uuid_generate_v4 env)) cart rows ->
    User.email user = Some email ->
    double_total rows = Int total ->
    Supabase.fits_int4 total = true ->
    Placed env user addr cart w
           (inl (PostgrestError message))
           (mkWorld (Supabase.with_orders
                       (orders (store w)
                        ++ [Supabase.new_order env (User.id user) email
                                               total pending addr])
                       (store w))
                    (log w ++ [select_call cart; insert_call user rows;
                               order_items_insert rows]))
| session_failed (rows : list OrderItem.t) (total : Z)
                 (email message : string) :
    db_error env (select_call cart) = None ->
    Forall2 (row_for (products (store w)) (uuid_generate_v4 env)) cart rows ->
    User.email user = Some email ->
    double_total rows = Int total ->
    Supabase.fits_int4 total = true ->
    forallb Supabase.order_item_ok rows = true ->
    Placed env user addr cart w
           (inl (StripeError message))
           (mkWorld (with_order (Supabase.new_order env (User.id user) email
                                                    total pending addr)
                                rows (store w))
                    (log w ++ [select_call cart; insert_call user rows;
                               order_items_insert rows]))
| session_opened (rows : list OrderItem.t) (total : Z) (email : string)
                 (session : Session.t) (o : Order.t) :
    db_error env (select_call cart) = None ->
    Forall2 (row_for (products (store w)) (uuid_generate_v4 env)) cart rows ->
    User.email user = Some email ->
    double_total rows = Int total ->
    Supabase.fits_int4 total = true ->
    forallb Supabase.order_item_ok rows = true ->
    (let inserted := Supabase.new_order env (User.id user) email
                                        total pending addr in
     o = inserted \/
     o = Supabase.apply_patch env (session_patch session) inserted) ->
    Placed env user addr cart w
           (inr (NextResponse.json
                   (json_checkout (Session.id session) (Session.url session))
                   200))
           (mkWorld (with_order o rows (store w))
                    (log w ++ [select_call cart; insert_call user rows;
                               order_items_insert rows;
                               orders_update_eq_id (session_patch session)
                                                   (uuid_generate_v4 env)])).

(** The ways in which [Checkout.POST] ends. *)
Inductive Checked (env : Env) (request : CheckoutRequest.t) (w : World)
  : NextResponse.t -> World -> Prop :=
| unauthorized :
    getUser env = None ->
    Checked env request w (NextResponse.json (json_error "Unauthorized") 401) w
| address_invalid (user : User.t) (issues : list string) :
    getUser env = Some user ->
    shippingAddressSchema_parse (CheckoutRequest.shipping_address request)
    = inl (ZodError issues) ->
    Checked env request w
            (NextResponse.json (json_caught (ZodError issues)) 500) w
| cart_empty (user : User.t) (addr : ShippingAddress.t) :
    getUser env = Some user ->
    shippingAddressSchema_parse (CheckoutRequest.shipping_address request)
    = inr addr ->
    CheckoutRequest.cart_items request = None \/
    CheckoutRequest.cart_items request = Some [] ->
    Checked env request w (NextResponse.json (json_error "Cart is empty") 400) w
| order_thrown (user : User.t) (addr : ShippingAddress.t)
               (cart : list CartLine.t) (e : Exn) (w' : World) :
    getUser env = Some user ->
    shippingAddressSchema_parse (CheckoutRequest.shipping_address request)
    = inr addr ->
    CheckoutRequest.cart_items request = Some cart ->
    cart <> [] ->
    Placed env user addr cart w (inl e) w' ->
    Checked env request w (NextResponse.json (json_caught e) 500) w'
| order_placed (user : User.t) (addr : ShippingAddress.t)
               (cart : list CartLine.t) (response : NextResponse.t) (w' : World) :
    getUser env = Some user ->
    shippingAddressSchema_parse (CheckoutRequest.shipping_address request)
    = inr addr ->
    CheckoutRequest.cart_items request = Some cart ->
    cart <> [] ->
    Placed env user addr cart w (inr response) w' ->
    Checked env request w response w'.


(** Every row of [os] with identifier [orderId] has status [completed]. *)
Definition all_completed (orderId : string) (os : list Order.t) : bool :=
  forallb (fun o => if String.eqb (Order.id o) orderId
                    then OrderStatus_eqb (Order.status o) completed
                    else true)
          os.

(* ===================================================================== *)
(** ** Sample data                                                        *)
(* ===================================================================== *)

Module Sample.

Definition raw_address : RawAddress.t :=
  RawAddress.mk (JString "Ada Park") (JString "1 Rose Lane") JUndefined
                (JString "Grasse") (JString "PACA") (JString "06130")
                (JString "FR") JUndefined.

Definition address : ShippingAddress.t :=
  ShippingAddress.mk "Ada Park" "1 Rose Lane" None "Grasse" "PACA" "06130"
                     "FR" None.

Definition productA : Product.t :=
  Product.mk "prod-a" "Midnight Oud" "A rich, woody fragrance" 1000 "a.png".

Definition productB : Product.t :=
  Product.mk "prod-b" "Citrus Dawn" "Fresh and invigorating" 2500 "b.png".

Definition user : User.t := User.mk "user-1" (Some "ada@example.org").

(** An environment at time [t] whose store calls all succeed, whose
    payment processor opens session [cs_1], and whose signature check
    accepts the header [sig-ok] as [event]. *)
Definition env_at (t : Z) (event : Event.t) : Env :=
  mkEnv (fun _ => None) t "order-2" (Some user)
        (fun _ => inr (Session.mk "cs_1" "https://pay.example/cs_1"))
        (fun _ signature _ =>
           if String.eqb signature "sig-ok" then inr event
           else inl "No signatures found matching the expected signature")
        "whsec_1".

Definition completed_event : Event.t :=
  Event.mk "checkout.session.completed"
           (EventObject.mk "cs_1"
                           (Some (Metadata.mk (Some "order-1") (Some "user-1")))
                           (Some "pi_1")).

(** The same event with no [order_id] in its metadata. *)
Definition completed_event_no_order : Event.t :=
  Event.mk "checkout.session.completed"
           (EventObject.mk "cs_1" (Some (Metadata.mk None (Some "user-1")))
                           (Some "pi_1")).

(** The same event with no [user_id] in its metadata. *)
Definition completed_event_no_user : Event.t :=
  Event.mk "checkout.session.completed"
           (EventObject.mk "cs_1" (Some (Metadata.mk (Some "order-1") None))
                           (Some "pi_1")).

Definition failed_event : Event.t :=
  Event.mk "payment_intent.payment_failed" (EventObject.mk "pi_1" None None).

Definition other_event : Event.t :=
  Event.mk "charge.refunded" (EventObject.mk "ch_1" None None).

Definition signed_request : WebhookRequest.t :=
  WebhookRequest.mk "{}" (Some "sig-ok").

Definition unsigned_request : WebhookRequest.t := WebhookRequest.mk "{}" None.

Definition forged_request : WebhookRequest.t :=
  WebhookRequest.mk "{}" (Some "sig-forged").

Definition order1 (status : OrderStatus) (payment_intent : option string)
  : Order.t :=
  Order.mk "order-1" (Some "user-1") "ada@example.org" 4500 status
           (Some "cs_1") payment_intent address 50.

Definition cart_row (product_id : string) : CartItem.t :=
  CartItem.mk (Some "user-1") None product_id 1.

Definition world_with (o : Order.t) (cart : list CartItem.t) : World :=
  mkWorld (mkStore [productA; productB] [o] [] cart) [].

(** Before the first delivery: the order is pending, the cart holds
    what was bought. *)
Definition before_delivery : World :=
  world_with (order1 pending None) [cart_row "prod-a"].

(** After the first delivery at time 100, the customer puts another
    product in the cart. *)
Definition after_first_delivery : World :=
  snd (Webhook.POST (env_at 100 completed_event) signed_request
                    before_delivery).

Definition shopping_again : World :=
  mkWorld (Supabase.with_cart_items [cart_row "prod-b"]
                                    (store after_first_delivery))
          [].

(** The second delivery of the same event, at time 200. *)
Definition after_second_delivery : World :=
  snd (Webhook.POST (env_at 200 completed_event) signed_request
                    shopping_again).

(** Checkout: the session lookup finds [user], the store calls succeed,
    the new order gets the identifier [order-2]. *)
Definition checkout_env : Env := env_at 100 other_event.

(** The same, except that the store refuses the insert of order items
    for a reason of its own. *)
Definition checkout_env_items_down : Env :=
  mkEnv (fun op => match op with
                   | order_items_insert _ => Some "connection refused"
                   | _ => None
                   end)
        100 "order-2" (Some user)
        (fun _ => inr (Session.mk "cs_1" "https://pay.example/cs_1"))
        (fun _ _ _ => inl "unused") "whsec_1".

Definition shop : World :=
  world_with (order1 completed (Some "pi_1")) [cart_row "prod-a"].

(** Two of product A at 1000 and one of product B at 2500; the client
    also sends a price of 1 for A. *)
Definition cart_request : CheckoutRequest.t :=
  CheckoutRequest.mk (Some raw_address)
                     (Some [CartLine.mk "prod-a" 2 (Some 1);
                            CartLine.mk "prod-b" 1 None]).

Definition zero_quantity_request : CheckoutRequest.t :=
  CheckoutRequest.mk (Some raw_address) (Some [CartLine.mk "prod-a" 0 None]).

Definition unknown_product_request : CheckoutRequest.t :=
  CheckoutRequest.mk (Some raw_address)
                     (Some [CartLine.mk "prod-a" 1 None;
                            CartLine.mk "prod-z" 1 None]).

(** No shipping address and an empty cart. *)
Definition empty_request : CheckoutRequest.t :=
  CheckoutRequest.mk None (Some []).

(** The cancelled order of another customer. *)
Definition order9 : Order.t :=
  Order.mk "order-9" (Some "user-9") "bob@example.org" 2500 cancelled
           (Some "cs_9") (Some "pi_9") address 40.

(** Order [order-1], pending, and the cancelled [order-9]. *)
Definition two_orders : World :=
  mkWorld (mkStore [productA; productB] [order1 pending None; order9] []
                   [cart_row "prod-a"])
          [].

End Sample.

(* ===================================================================== *)
(** ** Further summaries                                                  *)
(* ===================================================================== *)

(** The columns of an order row that no webhook delivery writes. *)
Definition same_fixed_columns (a b : Order.t) : Prop :=
  Order.id b = Order.id a /\
  Order.user_id b = Order.user_id a /\
  Order.email b = Order.email a /\
  Order.total_amount b = Order.total_amount a /\
  Order.stripe_session_id b = Order.stripe_session_id a /\
  Order.shipping_address b = Order.shipping_address a.

(** [o] is the order that a payment-intent reference selects. *)
Definition has_payment_intent (payment_intent : string) (o : Order.t) : bool :=
  Supabase.eq_opt (Order.stripe_payment_intent o) payment_intent.

(** How "payment_intent.payment_failed" moves an order row when the
    order [target] is the one selected: the fixed columns and the payment
    intent are kept; a row of [target] becomes cancelled and is stamped,
    any other row is as it was. *)
Definition cancelled_from (env : Env) (target : string) (a b : Order.t) : Prop :=
  same_fixed_columns a b /\
  Order.stripe_payment_intent b = Order.stripe_payment_intent a /\
  if String.eqb (Order.id a) target
  then Order.status b = cancelled /\ Order.updated_at b = now env
  else b = a.

(** How "checkout.session.completed" moves an order row when its
    metadata names [target]: a row of [target] becomes completed, takes the
    session's payment intent and is stamped, any other row is as it was. *)
Definition completed_from (env : Env) (session : EventObject.t)
           (target : string) (a b : Order.t) : Prop :=
  same_fixed_columns a b /\
  if String.eqb (Order.id a) target
  then Order.status b = completed /\
       Order.stripe_payment_intent b = EventObject.payment_intent session /\
       Order.updated_at b = now env
  else b = a.

(** [line] is the payment line of [item]: currency [usd]; name,
    description, image and unit amount of the catalogue row; the quantity
    of the cart line. *)
Definition line_for (catalog : list Product.t) (item : CartLine.t)
           (line : LineItem.t) : Prop :=
  exists product,
    resolve catalog item = Some product /\
    line = LineItem.mk "usd" (Product.name product)
                       (Product.description product)
                       [Product.image_url product] (Product.price product)
                       (CartLine.quantity item).

(** The amount the payment processor is asked to collect: the sum over
    lines of [unit_amount * quantity]. *)
Definition lines_total (lines : list LineItem.t) : Z :=
  fold_right (fun l acc => LineItem.unit_amount l * LineItem.quantity l + acc)
             0 lines.

(** The order row after the last step of a checkout whose session was
    opened: the inserted row, with the session reference when the update
    succeeded. *)
Definition final_order (env : Env) (user : User.t) (email : string)
           (addr : ShippingAddress.t) (total : Z)
           (session : Session.t) : Order.t :=
  let inserted := Supabase.new_order env (User.id user) email
                                     total pending addr in
  match db_error env (orders_update_eq_id (session_patch session)
                                          (uuid_generate_v4 env)) with
  | Some _ => inserted
  | None => Supabase.apply_patch env (session_patch session) inserted
  end.

(** The calls of a checkout that reaches the payment processor and gets
    a session. *)
Definition checkout_calls (env : Env) (user : User.t) (cart : list CartLine.t)
           (rows : list OrderItem.t) (session : Session.t) : list StoreOp :=
  [select_call cart; insert_call user rows; order_items_insert rows;
   orders_update_eq_id (session_patch session) (uuid_generate_v4 env)].

(** More sample data. *)
Module Further.

(** The payment processor is unreachable. *)
Definition env_processor_down : Env :=
  mkEnv (fun _ => None) 100 "order-2" (Some Sample.user)
        (fun _ => inl "connection to the payment processor failed")
        (fun _ _ _ => inl "unused") "whsec_1".

(** The session lookup finds a user without email. *)
Definition env_user_without_email : Env :=
  mkEnv (fun _ => None) 100 "order-2" (Some (User.mk "user-2" None))
        (fun _ => inr (Session.mk "cs_1" "https://pay.example/cs_1"))
        (fun _ _ _ => inl "unused") "whsec_1".

(** Three million of product A: 3 000 000 000 cents. *)
Definition huge_request : CheckoutRequest.t :=
  CheckoutRequest.mk (Some Sample.raw_address)
                     (Some [CartLine.mk "prod-a" 3000000 None]).

(** The completion event of the session that [Sample.checkout_env]
    opens for [Sample.cart_request]: the metadata is what the checkout
    attached. *)
Definition completion_of_checkout : Event.t :=
  Event.mk "checkout.session.completed"
           (EventObject.mk "cs_1"
                           (Some (Metadata.mk (Some "order-2") (Some "user-1")))
                           (Some "pi_2")).

(** A completion event whose metadata names an order that the store
    does not have. *)
Definition completion_of_unknown_order : Event.t :=
  Event.mk "checkout.session.completed"
           (EventObject.mk "cs_7"
                           (Some (Metadata.mk (Some "order-7") (Some "user-1")))
                           (Some "pi_7")).

End Further.

(** Sample data on which doubles round: a catalogue with a product at
    the largest price of an [INTEGER] column, one at a cent, and one with
    that largest price negated. *)
Module Rounded.

Definition productC : Product.t :=
  Product.mk "prod-c" "Grand Reserve" "The largest price" 2147483647 "c.png".

Definition productD : Product.t :=
  Product.mk "prod-d" "Sample Vial" "One cent" 1 "d.png".

Definition productE : Product.t :=
  Product.mk "prod-e" "Store Credit" "A negative price" (-2147483647) "e.png".

Definition shop : World :=
  mkWorld (mkStore [productC; productD; productE] [] [] []) [].

(** 2147483647 of product C, one of product D, 2147483647 of product E:
    the exact total is one cent. *)
Definition request : CheckoutRequest.t :=
  CheckoutRequest.mk (Some Sample.raw_address)
                     (Some [CartLine.mk "prod-c" 2147483647 None;
                            CartLine.mk "prod-d" 1 None;
                            CartLine.mk "prod-e" 2147483647 None]).

End Rounded.

(** *** Validated addresses as JSON *)

Definition optional_field (o : option string) : JsField :=
  match o with
  | Some s => JString s
  | None => JUndefined
  end.

(** The JSON object whose fields are those of a validated address. *)
Definition raw_of (a : ShippingAddress.t) : RawAddress.t :=
  RawAddress.mk (JString (ShippingAddress.full_name a))
                (JString (ShippingAddress.address_line1 a))
                (optional_field (ShippingAddress.address_line2 a))
                (JString (ShippingAddress.city a))
                (JString (ShippingAddress.state a))
                (JString (ShippingAddress.postal_code a))
                (JString (ShippingAddress.country a))
                (optional_field (ShippingAddress.phone a)).

Definition nonempty (s : string) : bool := negb (String.eqb s EmptyString).

(** The six required fields are not empty. *)
Definition required_present (a : ShippingAddress.t) : bool :=
  nonempty (ShippingAddress.full_name a)
  && nonempty (ShippingAddress.address_line1 a)
  && nonempty (ShippingAddress.city a)
  && nonempty (ShippingAddress.state a)
  && nonempty (ShippingAddress.postal_code a)
  && nonempty (ShippingAddress.country a).

(* ===================================================================== *)
(** ** [lib/utils.ts]: the guest session identifier                       *)
(* ===================================================================== *)

Module Utils.

(** The browser as these functions see it: whether [window] is defined,
    and the content of [localStorage]. *)
Record Browser : Type := mkBrowser
  { window : bool;
    localStorage : string -> option string }.

(** The two sources of [generateSessionId], as the template string
    renders them: [Date.now()] and
    [Math.random().toString(36).substr(2, 9)]. *)
Record Entropy : Type := mkEntropy
  { Date_now : string;
    Math_random : string }.

(** [localStorage.setItem(key, value)] *)
Definition setItem (key value : string) (storage : string -> option string)
  : string -> option string :=
  fun k => if String.eqb k key then Some value else storage k.


(** [export function generateSessionId()] *)
Definition generateSessionId (e : Entropy) (b : Browser) : string :=
  if negb (window b) then EmptyString
  else ("session_" ++ Date_now e ++ "_" ++ Math_random e)%string.

(** [export function getSessionId()]: the identifier, and the browser
    after the call. *)
Definition getSessionId (e : Entropy) (b : Browser) : string * Browser :=
  if negb (window b) then (EmptyString, b)
  else
    match truthy (localStorage b "guest_session_id") with
    | Some sessionId => (sessionId, b)
    | None =>
        let sessionId := generateSessionId e b in
        (sessionId,
         mkBrowser (window b)
                   (setItem "guest_session_id" sessionId (localStorage b)))
    end.


End Utils.

(* ===================================================================== *)
(** ** The cart badge of [Navbar]                                         *)
(* ===================================================================== *)

Module Navbar.

(** The row-level policy "Users can view their own cart items":
    [auth.uid() = user_id OR (user_id IS NULL AND session_id IS NOT NULL)]. *)
Definition may_view (uid : option string) (c : CartItem.t) : bool :=
  match CartItem.user_id c with
  | Some owner =>
      match uid with
      | Some u => String.eqb u owner
      | None => false
      end
  | None =>
      match CartItem.session_id c with
      | Some _ => true
      | None => false
      end
  end.

(** The [queryFn] of the cart query: the rows of the signed-in user, or
    of the guest session, that the policy lets through; [failed] tells
    whether the store answered with an error ([data || []]). *)
Definition queryFn (user : option User.t) (sessionId : string) (failed : bool)
           (s : Store) : list CartItem.t :=
  if failed then []
  else
    filter (fun c =>
              may_view (option_map User.id user) c
              && match user with
                 | Some u => Supabase.eq_opt (CartItem.user_id c) (User.id u)
                 | None => Supabase.eq_opt (CartItem.session_id c) sessionId
                 end)
           (cart_items s).

(** [cartItems?.reduce((sum, item) => sum + item.quantity, 0) || 0] *)
Definition cartCount (cartItems : option (list CartItem.t)) : Z :=
  match cartItems with
  | None => 0
  | Some items => fold_left (fun sum item => sum + CartItem.quantity item) items 0
  end.

End Navbar.

(* ===================================================================== *)
(** ** [lib/stripe.ts]: [createCheckoutSession]                           *)
(* ===================================================================== *)

Module Lib.

(** A cart item with its joined product, [item.product]. *)
Record JoinedItem : Type := mkJoined
  { quantity : Z;
    product : option Product.t }.

(** The argument of [stripe.checkout.sessions.create]: the metadata is
    the user id and the serialised shipping address. *)
Record Params : Type := mkParams
  { line_items : list LineItem.t;
    customer_email : string;
    metadata_user_id : string;
    metadata_shipping_address : string }.

(** The callback of [cartItems.map]; [item.product.name] on a missing
    product is a [TypeError]. *)
Definition lineItem (item : JoinedItem) : Exn + LineItem.t :=
  match product item with
  | None => inl TypeError
  | Some p =>
      inr (LineItem.mk "usd" (Product.name p) (Product.description p)
                       [Product.image_url p] (Product.price p) (quantity item))
  end.

Fixpoint lineItems (cartItems : list JoinedItem) : Exn + list LineItem.t :=
  match cartItems with
  | [] => inr []
  | item :: rest =>
      match lineItem item with
      | inl e => inl e
      | inr l =>
          match lineItems rest with
          | inl e => inl e
          | inr ls => inr (l :: ls)
          end
      end
  end.

(** [export async function createCheckoutSession(userId, email,
    cartItems, shippingAddress)]; [create] is
    [stripe.checkout.sessions.create] and [shippingAddress] is given as
    [JSON.stringify] renders it. *)
Definition createCheckoutSession (create : Params -> string + Session.t)
           (userId email : string) (cartItems : list JoinedItem)
           (shippingAddress : string) : Exn + Session.t :=
  match lineItems cartItems with
  | inl e => inl e
  | inr ls =>
      match create (mkParams ls email userId shippingAddress) with
      | inl message => inl (StripeError message)
      | inr session => inr session
      end
  end.

End Lib.

(** More sample data for these. *)
Module Furthermore.

Definition browser : Utils.Browser := Utils.mkBrowser true (fun _ => None).

Definition entropy : Utils.Entropy := Utils.mkEntropy "1700000000000" "k3j9x0q1z".

Definition guest_row : CartItem.t :=
  CartItem.mk None (Some "session_1700000000000_k3j9x0q1z") "prod-a" 2.

Definition joined_cart : list Lib.JoinedItem :=
  [Lib.mkJoined 2 (Some Sample.productA); Lib.mkJoined 1 (Some Sample.productB)].

End Furthermore.

(** The sum over joined cart items of price times quantity; an item
    without product counts for nothing. *)
Definition joined_total (items : list Lib.JoinedItem) : Z :=
  fold_right (fun i acc =>
                match Lib.product i with
                | Some p => Product.price p * Lib.quantity i + acc
                | None => acc
                end) 0 items.

(* ===================================================================== *)
(** ** Facts about JavaScript numbers                                     *)
(* ===================================================================== *)

(** Up to [2 ^ 53] rounding changes nothing. *)
Lemma round_even_exact (a : Z) :
  0 <= a <= exact_limit -> round_even a = a.
Proof.
  unfold exact_limit. intros [H0 H1].
  destruct (Z.eq_dec a 9007199254740992) as [->|Hne]; [reflexivity|].
  unfold round_even.
  assert (Z.log2 a < 53) as Hlog.
  { destruct (Z.eq_dec a 0) as [->|Hz]; [cbn; lia|].
    apply Z.log2_lt_pow2; [lia|]. change (2 ^ 53) with 9007199254740992. lia. }
  destruct (Z.leb_spec (Z.log2 a - 52) 0); [reflexivity | lia].
Qed.

(** Rounding never takes a number from above [2 ^ 53] to below it. *)
Lemma round_even_large (a : Z) :
  exact_limit <= a -> exact_limit <= round_even a.
Proof.
  unfold exact_limit. intros H.
  assert (0 < a) as Hpos by lia.
  destruct (Z.log2_spec a Hpos) as [Hlo Hhi].
  assert (53 <= Z.log2 a) as Hlog.
  { apply Z.log2_le_pow2; [lia|]. change (2 ^ 53) with 9007199254740992. lia. }
  unfold round_even.
  set (e := Z.log2 a - 52) in *.
  assert (1 <= e) as He by (unfold e; lia).
  destruct (Z.leb_spec e 0); [lia|].
  assert (Z.log2 a = 52 + e) as HL by (unfold e; lia).
  assert (0 < 2 ^ e) as Hpe by (apply Z.pow_pos_nonneg; lia).
  assert (2 ^ Z.log2 a = 2 ^ 52 * 2 ^ e) as Hsplit.
  { rewrite HL. apply Z.pow_add_r; lia. }
  assert (2 ^ 52 <= Z.shiftr a e) as Hq.
  { rewrite Z.shiftr_div_pow2 by lia.
    apply Z.div_le_lower_bound; [lia|]. rewrite Z.mul_comm. lia. }
  assert (2 <= 2 ^ e) as H2e.
  { change 2 with (2 ^ 1) at 1. apply Z.pow_le_mono_r; lia. }
  change (2 ^ 52) with 4503599627370496 in *.
  destruct (_ || _); rewrite Z.shiftl_mul_pow2 by lia; nia.
Qed.

Lemma to_double_exact (z : Z) :
  - exact_limit <= z <= exact_limit -> to_double z = Int z.
Proof.
  intros H. unfold to_double.
  rewrite round_even_exact by (unfold exact_limit in *; lia).
  assert (Z.abs z < 2 ^ 1024) as Hlt.
  { apply Z.le_lt_trans with (2 ^ 53).
    - change (2 ^ 53) with 9007199254740992. unfold exact_limit in *. lia.
    - apply Z.pow_lt_mono_r; lia. }
  apply Z.ltb_lt in Hlt. rewrite Hlt. f_equal. lia.
Qed.

(** The double of a non-negative integer stands for it. *)
Lemma to_double_tracks (z : Z) : 0 <= z -> tracks z (to_double z).
Proof.
  intros H0. destruct (Z.le_gt_cases z exact_limit) as [Hle|Hgt].
  - rewrite to_double_exact by (unfold exact_limit in *; lia).
    cbn. split; [reflexivity | lia].
  - unfold to_double. rewrite Z.abs_eq by lia.
    assert (exact_limit <= round_even z) by (apply round_even_large; lia).
    destruct (_ <? _); cbn; [|exact Hgt].
    rewrite Z.sgn_pos by (unfold exact_limit in *; lia).
    split; lia.
Qed.

Lemma tracks_add (s p : Z) (x y : number) :
  0 <= s -> 0 <= p -> tracks s x -> tracks p y ->
  tracks (s + p) (js_add x y).
Proof.
  intros Hs Hp Hx Hy.
  destruct x as [f|]; [|cbn in *; lia].
  destruct y as [g|]; [|cbn in *; lia].
  cbn [js_add]. cbn [tracks] in Hx, Hy.
  assert (0 <= f + g) as Hfg by (unfold exact_limit in *; lia).
  pose proof (to_double_tracks Hfg) as Ht.
  destruct (to_double (f + g)) as [h|]; cbn [tracks] in *;
    unfold exact_limit in *; lia.
Qed.

Lemma tracks_mul (p q : Z) :
  0 <= p <= exact_limit -> 0 <= q <= exact_limit ->
  tracks (p * q) (js_mul (to_double p) (to_double q)).
Proof.
  intros Hp Hq.
  rewrite !to_double_exact by (unfold exact_limit in *; lia).
  cbn [js_mul]. apply to_double_tracks. nia.
Qed.

(** What fits a 32-bit column and stands for [s] is [s]. *)
Lemma tracks_small (s f : Z) :
  tracks s (Int f) -> f < exact_limit -> f = s.
Proof. cbn. unfold exact_limit. lia. Qed.

(** The handler's sum stands for the exact sum of the rows. *)
Lemma add_rows_tracks (rows : list OrderItem.t) :
  Forall plain_row rows ->
  forall (s : Z) (x : number),
    0 <= s -> tracks s x ->
    0 <= rows_total rows /\ tracks (s + rows_total rows) (add_rows rows x).
Proof.
  induction 1 as [|r rows [Hp Hq] _ IH]; intros s x Hs Hx.
  - cbn. split; [lia|]. now rewrite Z.add_0_r.
  - cbn [add_rows fold_left rows_total fold_right].
    fold (rows_total rows).
    assert (0 <= OrderItem.product_price r * OrderItem.quantity r) as Hpq
        by nia.
    destruct (IH (s + OrderItem.product_price r * OrderItem.quantity r)
                 (js_add x (js_mul (to_double (OrderItem.product_price r))
                                   (to_double (OrderItem.quantity r)))))
      as [Hrest Htr].
    + lia.
    + apply tracks_add; [lia | lia | exact Hx | now apply tracks_mul].
    + split; [lia|]. unfold add_rows in Htr. now rewrite Z.add_assoc.
Qed.

Lemma double_total_tracks (rows : list OrderItem.t) :
  Forall plain_row rows ->
  0 <= rows_total rows /\ tracks (rows_total rows) (double_total rows).
Proof.
  intros H. unfold double_total.
  destruct (@add_rows_tracks rows H 0 (Int 0)) as [H0 Ht].
  - lia.
  - cbn. unfold exact_limit. lia.
  - split; [exact H0 | exact Ht].
Qed.

(** Rounding at work: [2 ^ 53 + 1] is not a double and a tie goes to
    the even significand; and a cart of 7232349493927449 and of
    -7232349493927447 pieces at 1000, whose exact total is 2000, is
    totalled to 2048. *)
Example to_double_ties_to_even :
  to_double 9007199254740993 = Int 9007199254740992 /\
  to_double 9007199254740995 = Int 9007199254740996 /\
  to_double (- 9007199254740993) = Int (- 9007199254740992) /\
  to_double (2 ^ 1024) = NonFinite.
Proof. repeat split; vm_compute; reflexivity. Qed.

Example double_total_rounds :
  rows_total [OrderItem.mk "order-2" "prod-a" "Midnight Oud" 1000
                           7232349493927449;
              OrderItem.mk "order-2" "prod-a" "Midnight Oud" 1000
                           (-7232349493927447)]
  = 2000 /\
  double_total [OrderItem.mk "order-2" "prod-a" "Midnight Oud" 1000
                             7232349493927449;
                OrderItem.mk "order-2" "prod-a" "Midnight Oud" 1000
                             (-7232349493927447)]
  = Int 2048.
Proof. split; vm_compute; reflexivity. Qed.

(** The rows of a cart carry catalogue prices. *)
Lemma rows_prices_non_negative (catalog : list Product.t) (order_id : string)
      (cart : list CartLine.t) (rows : list OrderItem.t) :
  prices_non_negative catalog ->
  Forall2 (row_for catalog order_id) cart rows ->
  Forall (fun r => 0 <= OrderItem.product_price r) rows.
Proof.
  intros Hcat Hrows.
  induction Hrows as [|item row cart rows (product & R & ->) _ IH];
    constructor; [|exact IH].
  cbn [OrderItem.product_price].
  unfold resolve in R. apply find_some in R as [Hin _].
  unfold prices_non_negative in Hcat. rewrite Forall_forall in Hcat.
  now apply Hcat.
Qed.

Lemma fits_int4_bounds (z : Z) :
  Supabase.fits_int4 z = true <-> -2147483648 <= z <= 2147483647.
Proof.
  unfold Supabase.fits_int4. rewrite andb_true_iff, !Z.leb_le. tauto.
Qed.

(** Rows that the [order_items] table accepts, at non-negative prices,
    have prices and quantities that doubles hold exactly. *)
Lemma accepted_rows_plain (rows : list OrderItem.t) :
  Forall (fun r => 0 <= OrderItem.product_price r) rows ->
  forallb Supabase.order_item_ok rows = true ->
  Forall plain_row rows.
Proof.
  intros Hpos Hok. rewrite forallb_forall in Hok.
  rewrite Forall_forall in *. intros r Hin.
  specialize (Hpos r Hin). specialize (Hok r Hin).
  unfold Supabase.order_item_ok in Hok.
  apply andb_true_iff in Hok as [Hok Hp].
  apply andb_true_iff in Hok as [Hq0 Hq].
  apply fits_int4_bounds in Hp, Hq. apply Z.ltb_lt in Hq0.
  unfold plain_row, exact_limit. lia.
Qed.

(** A rounded total that fits the column is the exact total. *)
Lemma accepted_total_exact (rows : list OrderItem.t) (total : Z) :
  Forall plain_row rows ->
  double_total rows = Int total ->
  Supabase.fits_int4 total = true ->
  total = rows_total rows.
Proof.
  intros Hrows Htotal Hfits.
  destruct (double_total_tracks Hrows) as [_ Ht]. rewrite Htotal in Ht.
  apply fits_int4_bounds in Hfits.
  apply (tracks_small Ht). unfold exact_limit. lia.
Qed.

(** An exact total that fits the column is computed exactly. *)
Lemma exact_total_computed (rows : list OrderItem.t) :
  Forall plain_row rows ->
  Supabase.fits_int4 (rows_total rows) = true ->
  double_total rows = Int (rows_total rows).
Proof.
  intros Hrows Hfits.
  destruct (double_total_tracks Hrows) as [_ Ht].
  apply fits_int4_bounds in Hfits.
  destruct (double_total rows) as [f|]; cbn [tracks] in Ht;
    unfold exact_limit in Ht; [f_equal|]; lia.
Qed.

(** An exact total beyond the column is computed beyond the column. *)
Lemma large_total_computed (rows : list OrderItem.t) (total : Z) :
  Forall plain_row rows ->
  Supabase.fits_int4 (rows_total rows) = false ->
  double_total rows = Int total ->
  Supabase.fits_int4 total = false.
Proof.
  intros Hrows Hlarge Htotal.
  destruct (double_total_tracks Hrows) as [H0 Ht]. rewrite Htotal in Ht.
  destruct (Supabase.fits_int4 total) eqn:Hfits; [|reflexivity].
  rewrite <- Hlarge. symmetry.
  apply fits_int4_bounds. apply fits_int4_bounds in Hfits.
  cbn [tracks] in Ht. unfold exact_limit in Ht. lia.
Qed.

(* ===================================================================== *)
(** ** Facts about the webhook handler                                    *)
(* ===================================================================== *)

Lemma world_eta (w : World) : mkWorld (store w) (log w) = w.
Proof. destruct w; reflexivity. Qed.

Lemma logged_nil (w : World) : mkWorld (store w) (log w ++ []) = w.
Proof. rewrite app_nil_r. apply world_eta. Qed.

Section WebhookRuns.

Variable env : Env.

Lemma orders_update_run (patch : OrderPatch) (id : string) (w : World) :
  exists a,
    Supabase.orders_update env patch id w =
    (inr a, mkWorld (update_effect env patch id (store w))
                    (log w ++ [orders_update_eq_id patch id])).
Proof.
  unfold Supabase.orders_update, update_effect.
  destruct (db_error env _); eexists; reflexivity.
Qed.

Lemma cart_items_delete_run (user_id : string) (w : World) :
  exists a,
    Supabase.cart_items_delete env user_id w =
    (inr a, mkWorld (delete_effect env user_id (store w))
                    (log w ++ [cart_items_delete_eq_user_id user_id])).
Proof.
  unfold Supabase.cart_items_delete, delete_effect.
  destruct (db_error env _); eexists; reflexivity.
Qed.

Lemma completed_run (session : EventObject.t) (w : World) :
  Webhook.checkout_session_completed env session w =
  (inr tt, mkWorld (completed_effect env session (store w))
                   (log w ++ completed_calls session)).
Proof.
  unfold Webhook.checkout_session_completed, completed_effect, completed_calls.
  destruct (truthy (Webhook.metadata_order_id session)) as [orderId|].
  - unfold bind.
    destruct (orders_update_run (Webhook.completed_patch session) orderId w)
      as [a ->].
    destruct (truthy (Webhook.metadata_user_id session)) as [userId|].
    + destruct (cart_items_delete_run userId
                  (mkWorld (update_effect env (Webhook.completed_patch session)
                                          orderId (store w))
                           (log w ++ [orders_update_eq_id
                                        (Webhook.completed_patch session)
                                        orderId]))) as [b ->].
      cbn. now rewrite <- app_assoc.
    + reflexivity.
  - unfold ret. now rewrite logged_nil.
Qed.

Lemma failed_run (paymentIntent : EventObject.t) (w : World) :
  Webhook.payment_intent_payment_failed env paymentIntent w =
  (inr tt, mkWorld (failed_effect env paymentIntent (store w))
                   (log w ++ failed_calls env paymentIntent (store w))).
Proof.
  unfold Webhook.payment_intent_payment_failed, failed_effect, failed_calls,
    failed_matches, bind, Supabase.orders_ids_by_payment_intent.
  destruct (db_error env _); cbn; [reflexivity|].
  destruct (map Order.id _) as [|id0 ids]; cbn; [reflexivity|].
  destruct (orders_update_run Webhook.cancelled_patch id0
              (Supabase.logged
                 (orders_select_eq_stripe_payment_intent
                    (EventObject.id paymentIntent)) w)) as [a ->].
  cbn. now rewrite <- app_assoc.
Qed.

End WebhookRuns.

Lemma dispatch_run (env : Env) (event : Event.t) (w : World) :
  Webhook.dispatch env event w =
  (inr tt, mkWorld (dispatch_effect env event (store w))
                   (log w ++ dispatch_calls env event (store w))).
Proof.
  unfold Webhook.dispatch, dispatch_effect, dispatch_calls.
  destruct (String.eqb (Event.type event) "checkout.session.completed").
  - apply completed_run.
  - destruct (String.eqb (Event.type event) "payment_intent.payment_failed").
    + apply failed_run.
    + unfold ret. now rewrite logged_nil.
Qed.

Lemma POST_accepted (env : Env) (request : WebhookRequest.t) (event : Event.t)
      (w : World) :
  signed_as env request event ->
  Webhook.POST env request w =
  (ack, mkWorld (dispatch_effect env event (store w))
                (log w ++ dispatch_calls env event (store w))).
Proof.
  intros (signature & Hsig & Hev).
  unfold Webhook.POST. rewrite Hsig, Hev, dispatch_run. reflexivity.
Qed.

Lemma POST_rejected (env : Env) (request : WebhookRequest.t) (w : World) :
  bad_signature env request ->
  exists message,
    Webhook.POST env request w = (NextResponse.json (json_error message) 400, w).
Proof.
  intros [Hnone | (signature & message & Hsig & Hev)]; unfold Webhook.POST.
  - rewrite Hnone. eexists; reflexivity.
  - rewrite Hsig, Hev. eexists; reflexivity.
Qed.

(** Every request is either rejected for its signature or accepted as
    some event. *)
Lemma signature_cases (env : Env) (request : WebhookRequest.t) :
  bad_signature env request \/ exists event, signed_as env request event.
Proof.
  unfold bad_signature, signed_as.
  destruct (truthy (WebhookRequest.stripe_signature request)) as [signature|].
  - destruct (constructEvent env (WebhookRequest.body request) signature
                             (STRIPE_WEBHOOK_SECRET env)) as [message|event] eqn:E.
    + left; right. now exists signature, message.
    + right. exists event, signature. now split.
  - now left; left.
Qed.

Lemma dispatch_effect_completed (env : Env) (event : Event.t) (s : Store) :
  Event.type event = "checkout.session.completed" ->
  dispatch_effect env event s = completed_effect env (Event.object event) s.
Proof. intros H. unfold dispatch_effect. now rewrite H, String.eqb_refl. Qed.

Lemma dispatch_calls_completed (env : Env) (event : Event.t) (s : Store) :
  Event.type event = "checkout.session.completed" ->
  dispatch_calls env event s = completed_calls (Event.object event).
Proof. intros H. unfold dispatch_calls. now rewrite H, String.eqb_refl. Qed.

(** *** Status moves *)

Lemma status_step_refl (o : Order.t) : status_step o o.
Proof. split; [reflexivity | now left]. Qed.

Lemma Forall2_same {A : Type} (R : A -> A -> Prop) (l : list A) :
  (forall x, R x x) -> Forall2 R l l.
Proof. intros HR; induction l; constructor; auto. Qed.

Lemma Forall2_map_right {A : Type} (R : A -> A -> Prop) (f : A -> A)
      (l : list A) :
  (forall x, R x (f x)) -> Forall2 R l (map f l).
Proof. intros HR; induction l; cbn; constructor; auto. Qed.

Lemma update_where_id_steps (env : Env) (patch : OrderPatch) (id : string)
      (os : list Order.t) :
  set_status patch = Some completed \/ set_status patch = Some cancelled ->
  Forall2 status_step os (Supabase.update_where_id env patch id os).
Proof.
  intros Hp. apply Forall2_map_right. intros o.
  destruct (String.eqb (Order.id o) id); [|apply status_step_refl].
  split; [reflexivity|]. cbn. destruct Hp as [-> | ->]; cbn; auto.
Qed.

Lemma update_effect_steps (env : Env) (patch : OrderPatch) (id : string)
      (s : Store) :
  set_status patch = Some completed \/ set_status patch = Some cancelled ->
  Forall2 status_step (orders s) (orders (update_effect env patch id s)).
Proof.
  intros Hp. unfold update_effect.
  destruct (db_error env _); cbn.
  - apply Forall2_same, status_step_refl.
  - now apply update_where_id_steps.
Qed.

Lemma delete_effect_orders (env : Env) (user_id : string) (s : Store) :
  orders (delete_effect env user_id s) = orders s.
Proof. unfold delete_effect. now destruct (db_error env _). Qed.

Lemma dispatch_effect_steps (env : Env) (event : Event.t) (s : Store) :
  Forall2 status_step (orders s) (orders (dispatch_effect env event s)).
Proof.
  unfold dispatch_effect, completed_effect, failed_effect.
  destruct (String.eqb (Event.type event) "checkout.session.completed").
  - destruct (truthy (Webhook.metadata_order_id _)) as [orderId|];
      [|apply Forall2_same, status_step_refl].
    cbv zeta.
    destruct (truthy (Webhook.metadata_user_id _));
      rewrite ?delete_effect_orders; apply update_effect_steps; now left.
  - destruct (String.eqb (Event.type event) "payment_intent.payment_failed");
      [|apply Forall2_same, status_step_refl].
    destruct (failed_matches env _ s); [apply Forall2_same, status_step_refl|].
    apply update_effect_steps; now right.
Qed.

(** *** What the handler reads of the metadata *)

Lemma truthy_Some_iff (x : option string) (v : string) :
  truthy x = Some v <-> x = Some v /\ v <> EmptyString.
Proof.
  unfold truthy. destruct x as [s|].
  - destruct (String.eqb s EmptyString) eqn:E.
    + apply String.eqb_eq in E. subst s. split.
      * discriminate.
      * intros [H Hne]. inversion H; subst. contradiction.
    + apply String.eqb_neq in E. split.
      * intros H. inversion H; subst. now split.
      * now intros [-> _].
  - split; [discriminate | now intros [H _]].
Qed.

Lemma truthy_None_iff (x : option string) :
  truthy x = None <-> x = None \/ x = Some EmptyString.
Proof.
  unfold truthy. destruct x as [s|].
  - destruct (String.eqb s EmptyString) eqn:E.
    + apply String.eqb_eq in E. subst s. split; auto.
    + apply String.eqb_neq in E. split; [discriminate|].
      intros [H | H]; inversion H; subst. contradiction.
  - split; auto.
Qed.

Lemma order_id_carried (object : EventObject.t) (v : string) :
  truthy (Webhook.metadata_order_id object) = Some v <->
  carries Metadata.order_id object v.
Proof.
  rewrite truthy_Some_iff. unfold Webhook.metadata_order_id, carries.
  destruct (EventObject.metadata object) as [m|]; split.
  - intros [H Hne]. now exists m.
  - intros (m' & Hm & H & Hne). inversion Hm; subst. now split.
  - intros [H _]. discriminate.
  - intros (m' & Hm & _). discriminate.
Qed.

Lemma user_id_carried (object : EventObject.t) (v : string) :
  truthy (Webhook.metadata_user_id object) = Some v <->
  carries Metadata.user_id object v.
Proof.
  rewrite truthy_Some_iff. unfold Webhook.metadata_user_id, carries.
  destruct (EventObject.metadata object) as [m|]; split.
  - intros [H Hne]. now exists m.
  - intros (m' & Hm & H & Hne). inversion Hm; subst. now split.
  - intros [H _]. discriminate.
  - intros (m' & Hm & _). discriminate.
Qed.

Lemma order_id_lacking (object : EventObject.t) :
  truthy (Webhook.metadata_order_id object) = None <->
  lacks Metadata.order_id object.
Proof.
  rewrite truthy_None_iff. unfold Webhook.metadata_order_id, lacks.
  destruct (EventObject.metadata object) as [m|]; split.
  - intros H. right. now exists m.
  - intros [H | (m' & Hm & H)]; [discriminate|]. now inversion Hm; subst.
  - now left.
  - now left.
Qed.

Lemma user_id_lacking (object : EventObject.t) :
  truthy (Webhook.metadata_user_id object) = None <->
  lacks Metadata.user_id object.
Proof.
  rewrite truthy_None_iff. unfold Webhook.metadata_user_id, lacks.
  destruct (EventObject.metadata object) as [m|]; split.
  - intros H. right. now exists m.
  - intros [H | (m' & Hm & H)]; [discriminate|]. now inversion Hm; subst.
  - now left.
  - now left.
Qed.

Lemma eq_opt_true (x : option string) (v : string) :
  Supabase.eq_opt x v = true <-> x = Some v.
Proof.
  unfold Supabase.eq_opt. destruct x as [s|].
  - rewrite String.eqb_eq. split; [now intros -> | now intros [= ->]].
  - split; discriminate.
Qed.

Lemma filter_split {A : Type} (f : A -> bool) (l : list A) (a : A)
      (rest : list A) :
  filter f l = a :: rest ->
  exists earlier later,
    l = earlier ++ a :: later /\
    Forall (fun x => f x = false) earlier /\
    f a = true.
Proof.
  induction l as [|x l IH]; cbn; [discriminate|].
  destruct (f x) eqn:E.
  - intros [= -> _]. exists [], l. repeat split; [constructor | exact E].
  - intros H. destruct (IH H) as (earlier & later & -> & He & Ha).
    exists (x :: earlier), later. repeat split; [constructor|]; assumption.
Qed.

(** *** Which rows a delivery moves *)

Lemma update_effect_moves (env : Env) (patch : OrderPatch) (id : string)
      (R : Order.t -> Order.t -> Prop) (s : Store) :
  (forall o, R o o) ->
  (forall o, Order.id o = id -> R o (Supabase.apply_patch env patch o)) ->
  Forall2 R (orders s) (orders (update_effect env patch id s)).
Proof.
  intros Hsame Hhit. unfold update_effect.
  destruct (db_error env _); cbn [orders Supabase.with_orders].
  - now apply Forall2_same.
  - apply Forall2_map_right. intros o.
    destruct (String.eqb (Order.id o) id) eqn:E; [|apply Hsame].
    apply Hhit. now apply String.eqb_eq.
Qed.

Lemma dispatch_effect_moves (env : Env) (event : Event.t) (s : Store) :
  Forall2 (moved_by event (orders s))
          (orders s) (orders (dispatch_effect env event s)).
Proof.
  assert (forall o, moved_by event (orders s) o o) as Hsame
      by (intros o; now left).
  unfold dispatch_effect.
  destruct (String.eqb (Event.type event) "checkout.session.completed") eqn:T1.
  - apply String.eqb_eq in T1. unfold completed_effect.
    destruct (truthy (Webhook.metadata_order_id (Event.object event)))
      as [orderId|] eqn:Hid; [|now apply Forall2_same].
    apply order_id_carried in Hid. cbv zeta.
    assert (Forall2 (moved_by event (orders s)) (orders s)
                    (orders (update_effect
                               env (Webhook.completed_patch (Event.object event))
                               orderId s))) as H.
    { apply update_effect_moves; [exact Hsame|].
      intros o <-. right; left. split; [exact T1|]. split; [exact Hid|].
      reflexivity. }
    destruct (truthy (Webhook.metadata_user_id (Event.object event)));
      now rewrite ?delete_effect_orders.
  - destruct (String.eqb (Event.type event) "payment_intent.payment_failed")
             eqn:T2; [|now apply Forall2_same].
    apply String.eqb_eq in T2. unfold failed_effect.
    destruct (failed_matches env (Event.object event) s) as [|id0 rest] eqn:M;
      [now apply Forall2_same|].
    unfold failed_matches in M.
    destruct (db_error env _) in M; [discriminate|].
    destruct (filter _ (orders s)) as [|first more] eqn:F; [discriminate|].
    inversion M; subst id0 rest.
    apply filter_split in F as (earlier & later & Hos & He & Hf).
    apply update_effect_moves; [exact Hsame|].
    intros o Ho. right; right. split; [exact T2|]. split; [|reflexivity].
    exists earlier, first, later. split; [exact Hos|].
    split; [|split; [now apply eq_opt_true | exact Ho]].
    apply Forall_forall. intros x Hx Hpi.
    rewrite Forall_forall in He. specialize (He x Hx).
    apply eq_opt_true in Hpi. congruence.
Qed.

Lemma nth_error_Forall2 {A : Type} (R : A -> A -> Prop) (l l' : list A) :
  Forall2 R l l' ->
  forall (n : nat) (a : A),
    nth_error l n = Some a ->
    exists b, nth_error l' n = Some b /\ R a b.
Proof.
  induction 1 as [|x y l l' Hxy _ IH]; intros n a Hn.
  - destruct n; discriminate.
  - destruct n as [|n].
    + inversion Hn; subst. exists y. now split.
    + exact (IH n a Hn).
Qed.

Lemma update_where_id_sets (env : Env) (patch : OrderPatch) (id : string)
      (st : OrderStatus) (os : list Order.t) (o : Order.t) :
  set_status patch = Some st ->
  In o (Supabase.update_where_id env patch id os) ->
  Order.id o = id ->
  Order.status o = st.
Proof.
  intros Hp Hin Hid. unfold Supabase.update_where_id in Hin.
  apply in_map_iff in Hin as (o0 & Ho & _).
  destruct (String.eqb (Order.id o0) id) eqn:E.
  - subst o. cbn. now rewrite Hp.
  - subst o0. apply String.eqb_neq in E. contradiction.
Qed.

Lemma update_where_id_all_completed (env : Env) (session : EventObject.t)
      (id orderId : string) (os : list Order.t) :
  all_completed orderId os = true ->
  all_completed orderId
    (Supabase.update_where_id env (Webhook.completed_patch session) id os) = true.
Proof.
  unfold all_completed, Supabase.update_where_id.
  induction os as [|o os IH]; cbn; [reflexivity|].
  intros H. apply andb_true_iff in H as [Ho Hos].
  rewrite (IH Hos), andb_true_r.
  destruct (String.eqb (Order.id o) id); [cbn | exact Ho].
  now destruct (String.eqb (Order.id o) orderId).
Qed.

Lemma completed_effect_all_completed (env : Env) (session : EventObject.t)
      (orderId : string) (s : Store) :
  all_completed orderId (orders s) = true ->
  all_completed orderId (orders (completed_effect env session s)) = true.
Proof.
  intros H. unfold completed_effect.
  destruct (truthy (Webhook.metadata_order_id session)) as [id|]; [|exact H].
  cbv zeta.
  assert (all_completed orderId
            (orders (update_effect env (Webhook.completed_patch session) id s))
          = true) as H1.
  { unfold update_effect. destruct (db_error env _); [exact H|].
    cbn. now apply update_where_id_all_completed. }
  destruct (truthy (Webhook.metadata_user_id session));
    now rewrite ?delete_effect_orders.
Qed.

(** *** Delivering twice *)

Lemma apply_patch_twice (env env' : Env) (patch : OrderPatch) (o : Order.t) :
  Supabase.apply_patch env' patch (Supabase.apply_patch env patch o) =
  Supabase.apply_patch env' patch o.
Proof.
  unfold Supabase.apply_patch; cbn.
  destruct patch as [[st|] [sid|] [pi|]]; reflexivity.
Qed.

Lemma update_where_id_twice (env env' : Env) (patch : OrderPatch) (id : string)
      (os : list Order.t) :
  Supabase.update_where_id env' patch id
    (Supabase.update_where_id env patch id os) =
  Supabase.update_where_id env' patch id os.
Proof.
  unfold Supabase.update_where_id. rewrite map_map. apply map_ext. intros o.
  destruct (String.eqb (Order.id o) id) eqn:E.
  - cbn. rewrite E. apply apply_patch_twice.
  - now rewrite E.
Qed.

Lemma filter_twice {A : Type} (f : A -> bool) (l : list A) :
  filter f (filter f l) = filter f l.
Proof.
  induction l as [|a l IH]; cbn; [reflexivity|].
  destruct (f a) eqn:E; cbn; rewrite ?E, IH; reflexivity.
Qed.

Lemma completed_effect_twice (env env' : Env) (session : EventObject.t)
      (s : Store) :
  no_db_error env -> no_db_error env' ->
  completed_effect env' session (completed_effect env session s) =
  completed_effect env' session s.
Proof.
  intros H H'. unfold completed_effect, update_effect, delete_effect.
  destruct (truthy (Webhook.metadata_order_id session)) as [orderId|];
    [|reflexivity].
  cbv zeta. rewrite !H, !H'.
  destruct (truthy (Webhook.metadata_user_id session)) as [userId|].
  - rewrite !H, !H'.
    unfold Supabase.with_cart_items, Supabase.with_orders.
    cbn [products orders order_items cart_items].
    now rewrite update_where_id_twice, filter_twice.
  - unfold Supabase.with_orders.
    cbn [products orders order_items cart_items].
    now rewrite update_where_id_twice.
Qed.

Lemma delete_effect_clears (env : Env) (userId : string) (s : Store)
      (c : CartItem.t) :
  db_error env (cart_items_delete_eq_user_id userId) = None ->
  In c (cart_items (delete_effect env userId s)) ->
  CartItem.user_id c <> Some userId.
Proof.
  intros H Hin Hc. unfold delete_effect in Hin. rewrite H in Hin. cbn in Hin.
  apply filter_In in Hin as [_ Hf]. rewrite Hc in Hf. cbn in Hf.
  now rewrite String.eqb_refl in Hf.
Qed.

(* ===================================================================== *)
(** ** The webhook claims                                                 *)
(* ===================================================================== *)

(** C1, as stated, fails.  The sample order is completed by a first
    delivery; the customer then puts a product in the cart; the second
    delivery of the same event does not stop at the completed order: it
    issues the order update and the cart deletion again, the new cart row
    is deleted, and the store is no longer what it was. *)
Lemma C1_second_delivery_clears_the_cart_again :
  map Order.status (orders (store Sample.shopping_again)) = [completed] /\
  cart_items (store Sample.shopping_again) = [Sample.cart_row "prod-b"] /\
  log Sample.after_second_delivery =
    [orders_update_eq_id
       (Webhook.completed_patch (Event.object Sample.completed_event)) "order-1";
     cart_items_delete_eq_user_id "user-1"] /\
  cart_items (store Sample.after_second_delivery) = [] /\
  store Sample.after_second_delivery <> store Sample.shopping_again.
Proof.
  repeat split; try reflexivity.
  intros H. apply (f_equal cart_items) in H. discriminate H.
Qed.

(** C1, amended.  A delivery of a validly signed
    "checkout.session.completed" event for an order that is already
    completed is answered with the acknowledgement and never with an
    error, and the order stays completed; but nothing is detected and
    nothing is skipped: the delivery makes the same store calls as any
    other, the order update first and then the deletion of the user's cart
    rows, so that no cart row of that user is left when the calls succeed.
    When the store calls succeed, delivering the event twice leaves the
    store as delivering it once, at the later time, does. *)
Theorem C1_redelivery_repeats_the_writes :
  forall (env env' : Env) (request : WebhookRequest.t) (w : World)
         (signature : string) (event : Event.t) (orderId : string),
    truthy (WebhookRequest.stripe_signature request) = Some signature ->
    constructEvent env (WebhookRequest.body request) signature
                   (STRIPE_WEBHOOK_SECRET env) = inr event ->
    constructEvent env' (WebhookRequest.body request) signature
                   (STRIPE_WEBHOOK_SECRET env') = inr event ->
    Event.type event = "checkout.session.completed" ->
    truthy (Webhook.metadata_order_id (Event.object event)) = Some orderId ->
    all_completed orderId (orders (store w)) = true ->
    fst (Webhook.POST env request w) = ack /\
    log (snd (Webhook.POST env request w)) =
      log w ++ completed_calls (Event.object event) /\
    (exists more,
        completed_calls (Event.object event) =
        orders_update_eq_id (Webhook.completed_patch (Event.object event))
                            orderId :: more) /\
    all_completed orderId (orders (store (snd (Webhook.POST env request w))))
      = true /\
    (forall userId c,
        truthy (Webhook.metadata_user_id (Event.object event)) = Some userId ->
        db_error env (cart_items_delete_eq_user_id userId) = None ->
        In c (cart_items (store (snd (Webhook.POST env request w)))) ->
        CartItem.user_id c <> Some userId) /\
    (no_db_error env -> no_db_error env' ->
     store (snd (Webhook.POST env' request (snd (Webhook.POST env request w)))) =
     store (snd (Webhook.POST env' request w))).
Proof.
  intros env env' request w signature event orderId Hsig Hev Hev' Hty Hid Hdone.
  assert (signed_as env request event) as S by (exists signature; now split).
  assert (signed_as env' request event) as S' by (exists signature; now split).
  rewrite !(POST_accepted _ S), !(POST_accepted _ S').
  cbn [fst snd store log].
  rewrite !dispatch_effect_completed, dispatch_calls_completed by exact Hty.
  split; [reflexivity|]. split; [reflexivity|]. repeat split.
  - unfold completed_calls. rewrite Hid. eexists; reflexivity.
  - now apply completed_effect_all_completed.
  - intros userId c Hu Hdb Hin. unfold completed_effect in Hin.
    rewrite Hid, Hu in Hin. cbv zeta in Hin.
    eapply delete_effect_clears; eauto.
  - intros H H'. now apply completed_effect_twice.
Qed.

Lemma C1_redelivery_repeats_the_writes_witness :
  truthy (WebhookRequest.stripe_signature Sample.signed_request) = Some "sig-ok" /\
  Event.type Sample.completed_event = "checkout.session.completed" /\
  all_completed "order-1" (orders (store Sample.shopping_again)) = true /\
  fst (Webhook.POST (Sample.env_at 200 Sample.completed_event)
                    Sample.signed_request Sample.shopping_again) = ack /\
  log Sample.after_second_delivery =
    log Sample.shopping_again
    ++ completed_calls (Event.object Sample.completed_event).
Proof.
  split; [reflexivity|]. split; [reflexivity|]. split; [reflexivity|].
  destruct (@C1_redelivery_repeats_the_writes
              (Sample.env_at 200 Sample.completed_event)
              (Sample.env_at 300 Sample.completed_event)
              Sample.signed_request Sample.shopping_again
              "sig-ok" Sample.completed_event "order-1"
              eq_refl eq_refl eq_refl eq_refl eq_refl eq_refl)
    as (Hack & Hlog & _).
  split; [exact Hack | exact Hlog].
Defined.

(** C2, as stated, fails in both directions: a cancelled order is set to
    completed by "checkout.session.completed", and a completed order is set
    to cancelled by "payment_intent.payment_failed" for its payment
    intent. *)
Lemma C2_terminal_orders_change_status :
  map Order.status
      (orders (store (snd (Webhook.POST
                             (Sample.env_at 100 Sample.completed_event)
                             Sample.signed_request
                             (Sample.world_with (Sample.order1 cancelled None) [])))))
  = [completed] /\
  map Order.status
      (orders (store (snd (Webhook.POST
                             (Sample.env_at 100 Sample.failed_event)
                             Sample.signed_request
                             (Sample.world_with
                                (Sample.order1 completed (Some "pi_1")) [])))))
  = [cancelled].
Proof. split; reflexivity. Qed.

(** C2, amended.  No webhook delivery moves an order to pending or
    processing, nor adds, removes or renames an order row: after any
    delivery each order has the status it had, or completed, or cancelled.
    A delivery whose signature is rejected changes no order row.  An
    accepted event changes only the rows of the order it addresses: for
    "checkout.session.completed" the order that its metadata names, which
    becomes completed, and for "payment_intent.payment_failed" the first
    order that records its payment intent, which becomes cancelled; every
    other row, whatever its status, is exactly as it was.  So an order
    that is completed or cancelled keeps its status unless an event
    addresses it, and then it may pass from one of the two to the other. *)
Theorem C2_only_the_addressed_order_moves :
  forall (env : Env) (request : WebhookRequest.t) (w : World),
    Forall2 status_step
            (orders (store w))
            (orders (store (snd (Webhook.POST env request w)))) /\
    (bad_signature env request ->
     orders (store (snd (Webhook.POST env request w))) = orders (store w)) /\
    (forall event,
        signed_as env request event ->
        Forall2 (moved_by event (orders (store w)))
                (orders (store w))
                (orders (store (snd (Webhook.POST env request w))))).
Proof.
  intros env request w. split; [|split].
  - destruct (signature_cases env request) as [Hbad | [event Hok]].
    + destruct (POST_rejected w Hbad) as [message ->]. cbn.
      apply Forall2_same, status_step_refl.
    + rewrite (POST_accepted w Hok). cbn. apply dispatch_effect_steps.
  - intros Hbad. now destruct (POST_rejected w Hbad) as [message ->].
  - intros event Hok. rewrite (POST_accepted w Hok). cbn [snd store].
    apply dispatch_effect_moves.
Qed.

Lemma C2_only_the_addressed_order_moves_witness :
  signed_as (Sample.env_at 100 Sample.completed_event) Sample.signed_request
            Sample.completed_event /\
  nth_error (orders (store Sample.two_orders)) 1 = Some Sample.order9 /\
  nth_error
    (orders (store (snd (Webhook.POST (Sample.env_at 100 Sample.completed_event)
                                      Sample.signed_request
                                      Sample.two_orders))))
    1
  = Some Sample.order9.
Proof.
  assert (signed_as (Sample.env_at 100 Sample.completed_event)
                    Sample.signed_request Sample.completed_event) as S
      by (exists "sig-ok"; split; reflexivity).
  split; [exact S|]. split; [reflexivity|].
  destruct (nth_error_Forall2
              (proj2 (proj2 (@C2_only_the_addressed_order_moves
                               (Sample.env_at 100 Sample.completed_event)
                               Sample.signed_request Sample.two_orders))
                     Sample.completed_event S)
              1 (a := Sample.order9) eq_refl)
    as (o' & Hnth & [-> | [(_ & (m & Hm & Hid & _) & _) | (Hty & _)]]).
  - exact Hnth.
  - inversion Hm; subst m. discriminate Hid.
  - discriminate Hty.
Defined.

(** C6.  A webhook request without a signature header, or whose
    signature fails verification, is answered with status 400 and an error
    body, and leaves the world as it was: the store is unchanged and no
    store call, read or write, is logged. *)
Theorem C6_bad_signature_touches_nothing :
  forall (env : Env) (request : WebhookRequest.t) (w : World),
    bad_signature env request ->
    snd (Webhook.POST env request w) = w /\
    NextResponse.status (fst (Webhook.POST env request w)) = 400 /\
    exists message,
      NextResponse.body (fst (Webhook.POST env request w)) = json_error message.
Proof.
  intros env request w Hbad.
  destruct (POST_rejected w Hbad) as [message ->]. cbn.
  repeat split. now exists message.
Qed.

Lemma C6_bad_signature_touches_nothing_witness :
  (bad_signature (Sample.env_at 100 Sample.completed_event)
                 Sample.unsigned_request /\
   snd (Webhook.POST (Sample.env_at 100 Sample.completed_event)
                     Sample.unsigned_request Sample.before_delivery)
   = Sample.before_delivery) /\
  (bad_signature (Sample.env_at 100 Sample.completed_event)
                 Sample.forged_request /\
   snd (Webhook.POST (Sample.env_at 100 Sample.completed_event)
                     Sample.forged_request Sample.before_delivery)
   = Sample.before_delivery).
Proof.
  assert (bad_signature (Sample.env_at 100 Sample.completed_event)
                        Sample.unsigned_request) as H1
      by (left; reflexivity).
  assert (bad_signature (Sample.env_at 100 Sample.completed_event)
                        Sample.forged_request) as H2.
  { right. exists "sig-forged", "No signatures found matching the expected signature".
    split; reflexivity. }
  split; (split; [assumption|]).
  - exact (proj1 (C6_bad_signature_touches_nothing Sample.before_delivery H1)).
  - exact (proj1 (C6_bad_signature_touches_nothing Sample.before_delivery H2)).
Defined.

(** C7.  A validly signed event whose type is neither
    "checkout.session.completed" nor "payment_intent.payment_failed" is
    acknowledged with success, and the world is left as it was: no store
    call is made. *)
Theorem C7_other_events_are_acknowledged :
  forall (env : Env) (request : WebhookRequest.t) (w : World)
         (signature : string) (event : Event.t),
    truthy (WebhookRequest.stripe_signature request) = Some signature ->
    constructEvent env (WebhookRequest.body request) signature
                   (STRIPE_WEBHOOK_SECRET env) = inr event ->
    Event.type event <> "checkout.session.completed" ->
    Event.type event <> "payment_intent.payment_failed" ->
    Webhook.POST env request w = (ack, w).
Proof.
  intros env request w signature event Hsig Hev H1 H2.
  assert (signed_as env request event) as S by (exists signature; now split).
  rewrite (POST_accepted w S). unfold dispatch_effect, dispatch_calls.
  apply String.eqb_neq in H1, H2. rewrite H1, H2.
  now rewrite logged_nil.
Qed.

Lemma C7_other_events_are_acknowledged_witness :
  truthy (WebhookRequest.stripe_signature Sample.signed_request) = Some "sig-ok" /\
  Event.type Sample.other_event <> "checkout.session.completed" /\
  Event.type Sample.other_event <> "payment_intent.payment_failed" /\
  Webhook.POST (Sample.env_at 100 Sample.other_event) Sample.signed_request
               Sample.before_delivery = (ack, Sample.before_delivery).
Proof.
  assert (Event.type Sample.other_event <> "checkout.session.completed") as H1
      by (cbn; discriminate).
  assert (Event.type Sample.other_event <> "payment_intent.payment_failed") as H2
      by (cbn; discriminate).
  split; [reflexivity|]. split; [exact H1|]. split; [exact H2|].
  exact (@C7_other_events_are_acknowledged
           (Sample.env_at 100 Sample.other_event) Sample.signed_request
           Sample.before_delivery "sig-ok" Sample.other_event
           eq_refl eq_refl H1 H2).
Defined.

(** C9.  For a validly signed "checkout.session.completed" event: when
    the session metadata carries no order_id (there is no metadata, or no
    such field, or an empty one), the handler makes no store call at all,
    whatever the user_id, and acknowledges; when the metadata carries an
    order_id and no user_id, the only store call is the order update,
    which, when it succeeds, sets the rows of that order to completed and
    leaves every other order as it was, the cart is left as it was, and
    the event is acknowledged. *)
Theorem C9_metadata_gates_the_writes :
  forall (env : Env) (request : WebhookRequest.t) (w : World)
         (signature : string) (event : Event.t),
    truthy (WebhookRequest.stripe_signature request) = Some signature ->
    constructEvent env (WebhookRequest.body request) signature
                   (STRIPE_WEBHOOK_SECRET env) = inr event ->
    Event.type event = "checkout.session.completed" ->
    (lacks Metadata.order_id (Event.object event) ->
     Webhook.POST env request w = (ack, w)) /\
    (forall orderId,
        carries Metadata.order_id (Event.object event) orderId ->
        lacks Metadata.user_id (Event.object event) ->
        fst (Webhook.POST env request w) = ack /\
        log (snd (Webhook.POST env request w)) =
          log w ++ [orders_update_eq_id
                      (mkPatch (Some completed) None
                               (Some (EventObject.payment_intent
                                        (Event.object event))))
                      orderId] /\
        cart_items (store (snd (Webhook.POST env request w))) =
          cart_items (store w) /\
        (db_error env (orders_update_eq_id
                         (mkPatch (Some completed) None
                                  (Some (EventObject.payment_intent
                                           (Event.object event))))
                         orderId)
         = None ->
         orders (store (snd (Webhook.POST env request w))) =
           Supabase.update_where_id
             env
             (mkPatch (Some completed) None
                      (Some (EventObject.payment_intent (Event.object event))))
             orderId (orders (store w)) /\
         Forall2 (completed_if_named orderId)
                 (orders (store w))
                 (orders (store (snd (Webhook.POST env request w)))))).
Proof.
  intros env request w signature event Hsig Hev Hty.
  assert (signed_as env request event) as S by (exists signature; now split).
  rewrite (POST_accepted w S). cbn [fst snd store log].
  rewrite dispatch_effect_completed, dispatch_calls_completed by exact Hty.
  unfold completed_effect, completed_calls. split.
  - intros Hno. apply order_id_lacking in Hno. rewrite Hno.
    now rewrite logged_nil.
  - intros orderId Hid Hno.
    apply order_id_carried in Hid. apply user_id_lacking in Hno.
    rewrite Hid, Hno. cbv zeta. unfold update_effect, Webhook.completed_patch.
    split; [reflexivity|]. split; [reflexivity|]. split.
    + now destruct (db_error env _).
    + intros ->. cbn [orders Supabase.with_orders]. split; [reflexivity|].
      apply Forall2_map_right. intros o. unfold completed_if_named.
      destruct (String.eqb (Order.id o) orderId); [now split | reflexivity].
Qed.

Lemma C9_metadata_gates_the_writes_witness :
  (lacks Metadata.order_id (Event.object Sample.completed_event_no_order) /\
   carries Metadata.user_id (Event.object Sample.completed_event_no_order)
           "user-1" /\
   Webhook.POST (Sample.env_at 100 Sample.completed_event_no_order)
                Sample.signed_request Sample.before_delivery
   = (ack, Sample.before_delivery)) /\
  (carries Metadata.order_id (Event.object Sample.completed_event_no_user)
           "order-1" /\
   lacks Metadata.user_id (Event.object Sample.completed_event_no_user) /\
   map Order.status (orders (store Sample.before_delivery)) = [pending] /\
   map Order.status
       (orders (store (snd (Webhook.POST
                              (Sample.env_at 100 Sample.completed_event_no_user)
                              Sample.signed_request Sample.before_delivery))))
   = [completed] /\
   log (snd (Webhook.POST (Sample.env_at 100 Sample.completed_event_no_user)
                          Sample.signed_request Sample.before_delivery))
   = [orders_update_eq_id (mkPatch (Some completed) None (Some (Some "pi_1")))
                          "order-1"] /\
   cart_items (store (snd (Webhook.POST
                             (Sample.env_at 100 Sample.completed_event_no_user)
                             Sample.signed_request Sample.before_delivery)))
   = [Sample.cart_row "prod-a"]).
Proof.
  assert (lacks Metadata.order_id
                (Event.object Sample.completed_event_no_order)) as Hno_order
      by (right; eexists; split; [reflexivity | now left]).
  assert (carries Metadata.user_id
                  (Event.object Sample.completed_event_no_order) "user-1")
    as Huser
      by (eexists; split; [reflexivity | split; [reflexivity | discriminate]]).
  assert (carries Metadata.order_id
                  (Event.object Sample.completed_event_no_user) "order-1")
    as Horder
      by (eexists; split; [reflexivity | split; [reflexivity | discriminate]]).
  assert (lacks Metadata.user_id
                (Event.object Sample.completed_event_no_user)) as Hno_user
      by (right; eexists; split; [reflexivity | now left]).
  split.
  - split; [exact Hno_order|]. split; [exact Huser|].
    exact (proj1 (@C9_metadata_gates_the_writes
                    (Sample.env_at 100 Sample.completed_event_no_order)
                    Sample.signed_request Sample.before_delivery "sig-ok"
                    Sample.completed_event_no_order eq_refl eq_refl eq_refl)
                 Hno_order).
  - split; [exact Horder|]. split; [exact Hno_user|]. split; [reflexivity|].
    destruct (proj2 (@C9_metadata_gates_the_writes
                       (Sample.env_at 100 Sample.completed_event_no_user)
                       Sample.signed_request Sample.before_delivery "sig-ok"
                       Sample.completed_event_no_user eq_refl eq_refl eq_refl)
                    "order-1" Horder Hno_user)
      as (_ & Hlog & Hcart & Hupd).
    destruct (Hupd eq_refl) as [Horders _].
    split; [|split].
    + exact (eq_trans (f_equal (map Order.status) Horders) eq_refl).
    + exact Hlog.
    + exact Hcart.
Defined.

(* ===================================================================== *)
(** ** Facts about the checkout handler                                   *)
(* ===================================================================== *)

(** *** The catalogue lookup and the three passes over the cart *)

Lemma mapM_cons {A B : Type} (f : A -> M B) (x : A) (xs : list A) (w : World) :
  mapM f (x :: xs) w =
  match f x w with
  | (inr y, w') =>
      match mapM f xs w' with
      | (inr ys, w'') => (inr (y :: ys), w'')
      | (inl e, w'') => (inl e, w'')
      end
  | (inl e, w') => (inl e, w')
  end.
Proof.
  cbn [mapM]. unfold bind, ret. destruct (f x w) as [[e|y] w']; [reflexivity|].
  now destruct (mapM f xs w') as [[e|ys] w''].
Qed.

Lemma find_filter {A : Type} (f g : A -> bool) (l : list A) :
  (forall x, f x = true -> g x = true) ->
  find f (filter g l) = find f l.
Proof.
  intros Hfg. induction l as [|a l IH]; cbn; [reflexivity|].
  destruct (g a) eqn:Ga; cbn.
  - now rewrite IH.
  - destruct (f a) eqn:Fa; [|exact IH].
    apply Hfg in Fa. congruence.
Qed.

(** Looking a cart line up in the rows that the batch select returned is
    looking it up in the catalogue. *)
Lemma find_in_selection (catalog : list Product.t) (cart : list CartLine.t)
      (item : CartLine.t) :
  In item cart ->
  Checkout.find_product
    (Some (filter (fun p => existsb (String.eqb (Product.id p))
                                    (map CartLine.product_id cart))
                  catalog))
    (CartLine.product_id item)
  = resolve catalog item.
Proof.
  intros Hin. unfold Checkout.find_product, resolve.
  apply find_filter. intros p Hp. apply String.eqb_eq in Hp.
  apply existsb_exists. exists (CartLine.product_id item). split.
  - now apply in_map.
  - rewrite Hp. apply String.eqb_refl.
Qed.

Section Passes.

Variable catalog : list Product.t.
Variable ps : option (list Product.t).

Lemma lineItems_run (cart : list CartLine.t) (w : World) :
  agree catalog ps cart ->
  (exists earlier item later,
      cart = earlier ++ item :: later /\
      Forall (fun i => resolve catalog i <> None) earlier /\
      resolve catalog item = None /\
      mapM (Checkout.lineItem ps) cart w =
      (inl (Error ("Product " ++ CartLine.product_id item
                   ++ " not found")%string), w))
  \/
  (Forall (fun i => resolve catalog i <> None) cart /\
   exists lineItems, mapM (Checkout.lineItem ps) cart w = (inr lineItems, w)).
Proof.
  induction cart as [|item cart IH]; intros Hag.
  - right. split; [constructor|]. now exists [].
  - inversion Hag as [|? ? Hitem Hrest]; subst.
    rewrite mapM_cons.
    assert (Checkout.lineItem ps item w =
            match resolve catalog item with
            | None =>
                (inl (Error ("Product " ++ CartLine.product_id item
                             ++ " not found")%string), w)
            | Some product =>
                (inr (LineItem.mk "usd" (Product.name product)
                                  (Product.description product)
                                  [Product.image_url product]
                                  (Product.price product)
                                  (CartLine.quantity item)), w)
            end) as ->.
    { unfold Checkout.lineItem. rewrite Hitem.
      now destruct (resolve catalog item). }
    destruct (resolve catalog item) as [product|] eqn:R.
    + destruct (IH Hrest) as [(earlier & bad & later & -> & He & Hb & Hrun)
                             | (Hall & lineItems & Hrun)];
        rewrite Hrun.
      * left. exists (item :: earlier), bad, later.
        split; [reflexivity|]. split; [|split; [exact Hb | reflexivity]].
        constructor; [congruence | exact He].
      * right. split; [constructor; [congruence | exact Hall]|].
        eexists. reflexivity.
    + left. exists [], item, cart. repeat split; auto.
Qed.

Lemma rows_exist (order_id : string) (cart : list CartLine.t) :
  Forall (fun i => resolve catalog i <> None) cart ->
  exists rows, Forall2 (row_for catalog order_id) cart rows.
Proof.
  induction 1 as [|item cart Hitem _ [rows IH]].
  - exists []. constructor.
  - destruct (resolve catalog item) as [product|] eqn:R; [|contradiction].
    eexists (_ :: rows). constructor; [|exact IH].
    exists product. split; [exact R | reflexivity].
Qed.

Lemma total_run (order_id : string) (cart : list CartLine.t)
      (rows : list OrderItem.t) :
  agree catalog ps cart ->
  Forall2 (row_for catalog order_id) cart rows ->
  forall (acc : number) (w : World),
    reduceM (Checkout.addLine ps) cart acc w = (inr (add_rows rows acc), w).
Proof.
  intros Hag Hrows. induction Hrows as [|item row cart rows Hrow _ IH];
    intros acc w.
  - reflexivity.
  - inversion Hag as [|? ? Hitem Hrest]; subst.
    destruct Hrow as (product & R & ->).
    cbn [reduceM]. unfold bind, Checkout.addLine at 1.
    rewrite Hitem, R. unfold ret at 1. rewrite (IH Hrest).
    reflexivity.
Qed.

Lemma orderItems_run (order : Order.t) (cart : list CartLine.t)
      (rows : list OrderItem.t) (w : World) :
  agree catalog ps cart ->
  Forall2 (row_for catalog (Order.id order)) cart rows ->
  mapM (Checkout.orderItem ps order) cart w = (inr rows, w).
Proof.
  intros Hag Hrows. induction Hrows as [|item row cart rows Hrow _ IH].
  - reflexivity.
  - inversion Hag as [|? ? Hitem Hrest]; subst.
    destruct Hrow as (product & R & ->).
    cbn [mapM]. unfold bind, Checkout.orderItem at 1.
    rewrite Hitem, R. unfold ret at 1. now rewrite (IH Hrest).
Qed.

End Passes.

Lemma agree_selection (catalog : list Product.t) (cart : list CartLine.t) :
  agree catalog
        (Some (filter (fun p => existsb (String.eqb (Product.id p))
                                        (map CartLine.product_id cart))
                      catalog))
        cart.
Proof.
  unfold agree. apply Forall_forall. intros item Hin.
  now apply find_in_selection.
Qed.

Lemma update_where_id_fresh (env : Env) (patch : OrderPatch) (id : string)
      (os : list Order.t) :
  existsb (fun o => String.eqb (Order.id o) id) os = false ->
  Supabase.update_where_id env patch id os = os.
Proof.
  unfold Supabase.update_where_id.
  induction os as [|o os IH]; cbn; [reflexivity|].
  intros H. apply orb_false_iff in H as [Ho Hos].
  now rewrite Ho, (IH Hos).
Qed.

Lemma bind_run {A B : Type} (m : M A) (k : A -> M B) (w w' : World) (a : A) :
  m w = (inr a, w') -> bind m k w = k a w'.
Proof. intros H. unfold bind. now rewrite H. Qed.

Lemma bind_throw {A B : Type} (m : M A) (k : A -> M B) (w w' : World) (e : Exn) :
  m w = (inl e, w') -> bind m k w = (inl e, w').
Proof. intros H. unfold bind. now rewrite H. Qed.

Lemma orders_insert_run (env : Env) (user_id : string) (email : option string)
      (total_amount : number) (status : OrderStatus)
      (addr : ShippingAddress.t) (w : World) :
  (exists message,
      Supabase.orders_insert_single env user_id email total_amount status addr w
      = (inr (Supabase.failed message),
         Supabase.logged (orders_insert user_id total_amount) w))
  \/
  (exists e total,
      email = Some e /\
      total_amount = Int total /\
      Supabase.fits_int4 total = true /\
      existsb (fun o => String.eqb (Order.id o) (uuid_generate_v4 env))
              (orders (store w)) = false /\
      Supabase.orders_insert_single env user_id email total_amount status addr w
      = (inr (Supabase.succeeded
                (Supabase.new_order env user_id e total status addr)),
         mkWorld (Supabase.with_orders
                    (orders (store w)
                     ++ [Supabase.new_order env user_id e total status addr])
                    (store w))
                 (log w ++ [orders_insert user_id total_amount]))).
Proof.
  unfold Supabase.orders_insert_single, Supabase.orders_violation.
  destruct (db_error env _) as [message|]; [left; now exists message|].
  destruct email as [e|]; [|left; eexists; reflexivity].
  destruct total_amount as [total|]; [|left; eexists; reflexivity].
  destruct (Supabase.fits_int4 total) eqn:Hfits; cbn [negb];
    [|left; eexists; reflexivity].
  destruct (existsb _ (orders (store w))) eqn:Fresh;
    [left; eexists; reflexivity|].
  right. exists e, total. repeat split; assumption.
Qed.

(** The insert of an order with an email, a new identifier and a total
    that fits the column. *)
Lemma orders_insert_accepts (env : Env) (user_id e : string)
      (total_amount : number) (total : Z) (status : OrderStatus)
      (addr : ShippingAddress.t) (w : World) :
  db_error env (orders_insert user_id total_amount) = None ->
  total_amount = Int total ->
  Supabase.fits_int4 total = true ->
  existsb (fun o => String.eqb (Order.id o) (uuid_generate_v4 env))
          (orders (store w)) = false ->
  Supabase.orders_insert_single env user_id (Some e) total_amount status addr w
  = (inr (Supabase.succeeded
            (Supabase.new_order env user_id e total status addr)),
     Supabase.logged
       (orders_insert user_id total_amount)
       (mkWorld (Supabase.with_orders
                   (orders (store w)
                    ++ [Supabase.new_order env user_id e total status addr])
                   (store w))
                (log w))).
Proof.
  intros D Htotal Hfits Fresh.
  unfold Supabase.orders_insert_single, Supabase.orders_violation.
  rewrite D. subst total_amount. now rewrite Hfits, Fresh.
Qed.

Lemma order_items_insert_run (env : Env) (rows : list OrderItem.t) (w : World) :
  (exists message,
      Supabase.order_items_insert_all env rows w
      = (inr (Supabase.failed message),
         Supabase.logged (order_items_insert rows) w))
  \/
  (forallb Supabase.order_item_ok rows = true /\
   Supabase.order_items_insert_all env rows w
   = (inr (Supabase.succeeded tt),
      mkWorld (Supabase.with_order_items (order_items (store w) ++ rows)
                                         (store w))
              (log w ++ [order_items_insert rows]))).
Proof.
  unfold Supabase.order_items_insert_all.
  destruct (db_error env _) as [message|]; [left; now exists message|].
  destruct (forallb Supabase.order_item_ok rows);
    [now right | left; eexists; reflexivity].
Qed.

Lemma update_where_id_new (env : Env) (patch : OrderPatch) (o : Order.t)
      (os : list Order.t) :
  existsb (fun x => String.eqb (Order.id x) (Order.id o)) os = false ->
  Supabase.update_where_id env patch (Order.id o) (os ++ [o])
  = os ++ [Supabase.apply_patch env patch o].
Proof.
  intros Fresh. unfold Supabase.update_where_id. rewrite map_app.
  fold (Supabase.update_where_id env patch (Order.id o) os).
  rewrite (update_where_id_fresh env patch _ _ Fresh).
  cbn [map]. now rewrite String.eqb_refl.
Qed.

Lemma place_order_placed (env : Env) (user : User.t) (addr : ShippingAddress.t)
      (cart : list CartLine.t) (w : World) :
  Placed env user addr cart w
         (fst (Checkout.place_order env user addr cart w))
         (snd (Checkout.place_order env user addr cart w)).
Proof.
  unfold Checkout.place_order.
  destruct (db_error env (select_call cart)) as [message|] eqn:Dsel.
  - erewrite bind_run
      by (unfold Supabase.products_in; fold (select_call cart);
          rewrite Dsel; reflexivity).
    erewrite bind_throw by reflexivity.
    now apply lookup_failed.
  - erewrite bind_run
      by (unfold Supabase.products_in; fold (select_call cart);
          rewrite Dsel; reflexivity).
    erewrite bind_run by reflexivity.
    cbn [Supabase.data Supabase.succeeded].
    pose proof (agree_selection (products (store w)) cart) as Hag.
    set (ps := Some (filter _ (products (store w)))) in *.
    set (w1 := Supabase.logged (select_call cart) w).
    destruct (lineItems_run w1 Hag)
      as [(earlier & bad & later & Hcart & He & Hb & Hrun)
         | (Hall & lineItems & Hrun)].
    + erewrite bind_throw by exact Hrun.
      eapply unknown_product; eauto.
    + erewrite bind_run by exact Hrun.
      destruct (rows_exist (products (store w)) (uuid_generate_v4 env) Hall)
        as [rows Hrows].
      erewrite bind_run by (apply (total_run Hag Hrows)).
      fold (double_total rows).
      destruct (orders_insert_run env (User.id user) (User.email user)
                                  (double_total rows) pending addr w1)
        as [[message Hins]
           | (email & total & Hemail & Htotal & Hfits & Fresh & Hins)].
      * erewrite bind_run by exact Hins.
        erewrite bind_throw by reflexivity.
        subst w1. unfold Supabase.logged. cbn [fst snd store log].
        rewrite <- app_assoc. now apply order_refused.
      * erewrite bind_run by exact Hins.
        erewrite bind_run by reflexivity.
        cbn [Supabase.data Supabase.succeeded].
        set (o := Supabase.new_order env (User.id user) email total
                                     pending addr) in *.
        erewrite bind_run by (apply (orderItems_run o _ Hag Hrows)).
        match goal with
        | |- context [bind (Supabase.order_items_insert_all _ _) _ ?w2] =>
            destruct (order_items_insert_run env rows w2)
              as [[message Hit] | [Hrange Hit]]
        end.
        -- erewrite bind_run by exact Hit.
           erewrite bind_throw by reflexivity.
           subst w1. unfold Supabase.logged. cbn [fst snd store log].
           rewrite <- !app_assoc. now apply items_refused.
        -- erewrite bind_run by exact Hit.
           erewrite bind_run by reflexivity.
           clear Hins Hit. subst w1.
           unfold Supabase.logged, Supabase.with_order_items,
             Supabase.with_orders in *.
           cbn [store log products orders order_items cart_items] in *.
           rewrite <- !app_assoc. cbn [app].
           change (mkStore (products (store w)) (orders (store w) ++ [o])
                           (order_items (store w) ++ rows)
                           (cart_items (store w)))
             with (with_order o rows (store w)).
           change (Order.id o) with (uuid_generate_v4 env).
           fold (insert_call user rows).
           destruct (sessions_create env _) as [message|session].
           ++ erewrite bind_throw by reflexivity.
              now apply session_failed.
           ++ erewrite bind_run by reflexivity.
              match goal with
              | |- context [bind (Supabase.orders_update ?e ?p ?i) _ ?w3] =>
                  destruct (orders_update_run e p i w3) as [a Hup]
              end.
              erewrite bind_run by exact Hup.
              unfold ret. cbn [fst snd store log].
              rewrite <- !app_assoc. cbn [app].
              fold (session_patch session).
              assert (exists o',
                         update_effect env (session_patch session)
                                       (uuid_generate_v4 env)
                                       (with_order o rows (store w))
                         = with_order o' rows (store w) /\
                         (o' = o \/
                          o' = Supabase.apply_patch env (session_patch session) o))
                as (o' & -> & Ho').
              { unfold update_effect.
                destruct (db_error env (orders_update_eq_id _ _));
                  [exists o; split; auto|].
                exists (Supabase.apply_patch env (session_patch session) o).
                split; [|now right].
                unfold with_order, Supabase.with_orders.
                cbn [products orders order_items cart_items].
                change (uuid_generate_v4 env) with (Order.id o) at 1.
                now rewrite update_where_id_new. }
              now apply session_opened with (total := total) (email := email).
Qed.

(** [shippingAddressSchema.parse] throws nothing but a [ZodError]. *)
Lemma parse_throws_ZodError (x : option RawAddress.t) (e : Exn) :
  shippingAddressSchema_parse x = inl e -> exists issues, e = ZodError issues.
Proof.
  unfold shippingAddressSchema_parse. destruct x as [a|].
  - cbv zeta.
    destruct (z_string_min1 "full_name" _), (z_string_min1 "address_line1" _),
      (z_string_optional "address_line2" _), (z_string_min1 "city" _),
      (z_string_min1 "state" _), (z_string_min1 "postal_code" _),
      (z_string_min1 "country" _), (z_string_optional "phone" _);
      intros H; inversion H; eexists; reflexivity.
  - intros H; inversion H. eexists; reflexivity.
Qed.

Lemma POST_checked (env : Env) (request : CheckoutRequest.t) (w : World) :
  Checked env request w (fst (Checkout.POST env request w))
          (snd (Checkout.POST env request w)).
Proof.
  unfold Checkout.POST, Checkout.try_block.
  destruct (getUser env) as [user|] eqn:U; [|now apply unauthorized].
  destruct (shippingAddressSchema_parse
              (CheckoutRequest.shipping_address request)) as [e|addr] eqn:P.
  - destruct (parse_throws_ZodError _ P) as [issues ->].
    erewrite bind_throw by reflexivity. now apply address_invalid with user.
  - erewrite bind_run by reflexivity.
    destruct (CheckoutRequest.cart_items request) as [[|item cart]|] eqn:C.
    + apply cart_empty with user addr; auto.
    + pose proof (place_order_placed env user addr (item :: cart) w) as H.
      destruct (Checkout.place_order env user addr (item :: cart) w)
        as [[e|response] w'].
      * apply order_thrown with user addr (item :: cart); auto. discriminate.
      * apply order_placed with user addr (item :: cart); auto. discriminate.
    + apply cart_empty with user addr; auto.
Qed.

Lemma row_for_resolved (catalog : list Product.t) (order_id : string)
      (cart : list CartLine.t) (rows : list OrderItem.t) (item : CartLine.t) :
  Forall2 (row_for catalog order_id) cart rows ->
  In item cart ->
  resolve catalog item <> None.
Proof.
  induction 1 as [|i r cart rows (product & R & _) _ IH]; intros Hin.
  - destruct Hin.
  - destruct Hin as [<- | Hin]; [congruence | auto].
Qed.

(** *** The handler reads [product_id] and [quantity] only *)






(* ===================================================================== *)
(** ** The checkout claims                                                *)
(* ===================================================================== *)

(** The scenario of the specification: two of A at 1000 and one of B at
    2500 give an order of 4500 with two items at 1000 and 2500. *)
Example checkout_scenario :
  let w' := snd (Checkout.POST Sample.checkout_env Sample.cart_request
                               Sample.shop) in
  NextResponse.status
    (fst (Checkout.POST Sample.checkout_env Sample.cart_request Sample.shop))
  = 200 /\
  map Order.total_amount (orders (store w')) = [4500; 4500] /\
  map Order.status (orders (store w')) = [completed; pending] /\
  map OrderItem.product_price (order_items (store w')) = [1000; 2500] /\
  map OrderItem.order_id (order_items (store w')) = ["order-2"; "order-2"].
Proof. repeat split. Qed.

(** C3, as stated, fails.  A cart line with quantity 0 passes the
    handler, the order row is inserted, the insert of its items is refused
    by [CHECK (quantity > 0)], and the request ends in the 500 response with
    order [order-2] persisted and no item row; the same happens for a
    well-formed cart when the store refuses the second insert for a reason
    of its own. *)
Lemma C3_order_persisted_without_items :
  (NextResponse.status
     (fst (Checkout.POST Sample.checkout_env Sample.zero_quantity_request
                         Sample.shop)) = 500 /\
   map Order.id
       (orders (store (snd (Checkout.POST Sample.checkout_env
                                          Sample.zero_quantity_request
                                          Sample.shop))))
   = ["order-1"; "order-2"] /\
   order_items (store (snd (Checkout.POST Sample.checkout_env
                                          Sample.zero_quantity_request
                                          Sample.shop))) = []) /\
  (NextResponse.status
     (fst (Checkout.POST Sample.checkout_env_items_down Sample.cart_request
                         Sample.shop)) = 500 /\
   map Order.id
       (orders (store (snd (Checkout.POST Sample.checkout_env_items_down
                                          Sample.cart_request Sample.shop))))
   = ["order-1"; "order-2"] /\
   order_items (store (snd (Checkout.POST Sample.checkout_env_items_down
                                          Sample.cart_request Sample.shop)))
   = []).
Proof. repeat split. Qed.

(** C3, amended.  The order and its items are written by two store
    calls, the second after the first, and nothing undoes the first.  A
    checkout attempt therefore ends in one of three ways: no order row and
    no item row is added, and the response is not the success; or one
    pending order row is added and none of its items, and the response is
    the 500 failure; or one pending order row is added together with
    exactly one item row per cart line of a non-empty cart, each row
    carrying the order's identifier.  Item rows are never written for a
    part of the cart only. *)
Theorem C3_order_then_items :
  forall (env : Env) (request : CheckoutRequest.t) (w : World),
    (orders (store (snd (Checkout.POST env request w))) = orders (store w) /\
     order_items (store (snd (Checkout.POST env request w)))
     = order_items (store w) /\
     NextResponse.status (fst (Checkout.POST env request w)) <> 200)
    \/
    (exists o,
        orders (store (snd (Checkout.POST env request w)))
        = orders (store w) ++ [o] /\
        Order.status o = pending /\
        order_items (store (snd (Checkout.POST env request w)))
        = order_items (store w) /\
        NextResponse.status (fst (Checkout.POST env request w)) = 500)
    \/
    (exists o rows cart,
        CheckoutRequest.cart_items request = Some cart /\
        cart <> [] /\
        orders (store (snd (Checkout.POST env request w)))
        = orders (store w) ++ [o] /\
        Order.status o = pending /\
        order_items (store (snd (Checkout.POST env request w)))
        = order_items (store w) ++ rows /\
        Forall2 (row_for (products (store w)) (Order.id o)) cart rows).
Proof.
  intros env request w.
  pose proof (POST_checked env request w) as H.
  destruct (Checkout.POST env request w) as [r w']. cbn [fst snd] in *.
  inversion H as [ | | | user addr cart e w0 U P C Hne Hp
                   | user addr cart r0 w0 U P C Hne Hp]; subst;
    try (left; repeat split; cbn; discriminate).
  - inversion Hp; subst; cbn [store orders order_items with_order
                               Supabase.with_orders NextResponse.status
                               NextResponse.json].
    + left. repeat split. discriminate.
    + left. repeat split. discriminate.
    + left. repeat split. discriminate.
    + right; left. eexists. repeat split.
    + right; right. eexists _, rows, cart. repeat split; auto.
  - inversion Hp as [ | | | | | rows total email session o D Hrows E Htotal Hfits
                                Hrange Ho];
      subst.
    right; right. exists o, rows, cart.
    cbn [store orders order_items with_order].
    assert (Order.id o = uuid_generate_v4 env /\ Order.status o = pending)
      as [Hid Hst] by (destruct Ho as [-> | ->]; split; reflexivity).
    rewrite Hid. repeat split; auto.
Qed.

(** C4.  For an authenticated checkout request whose cart holds a
    product_id that is not in the catalogue, the request ends in the 500
    failure response, the store is left as it was and no write call is made
    (at most the catalogue lookup is logged); when the request reaches the
    lookup and the lookup answers (the shipping address validates, the
    select returns no error), the failure is the unknown-product error
    [Product <id> not found] for the first cart line that is not in the
    catalogue. *)
Theorem C4_unknown_product_aborts :
  forall (env : Env) (request : CheckoutRequest.t) (w : World)
         (user : User.t) (cart : list CartLine.t) (item : CartLine.t),
    getUser env = Some user ->
    CheckoutRequest.cart_items request = Some cart ->
    In item cart ->
    resolve (products (store w)) item = None ->
    store (snd (Checkout.POST env request w)) = store w /\
    NextResponse.status (fst (Checkout.POST env request w)) = 500 /\
    (exists calls,
        log (snd (Checkout.POST env request w)) = log w ++ calls /\
        existsb is_write calls = false) /\
    (forall addr,
        shippingAddressSchema_parse (CheckoutRequest.shipping_address request)
        = inr addr ->
        db_error env (select_call cart) = None ->
        exists earlier bad later,
          cart = earlier ++ bad :: later /\
          Forall (fun i => resolve (products (store w)) i <> None) earlier /\
          resolve (products (store w)) bad = None /\
          NextResponse.body (fst (Checkout.POST env request w))
          = json_caught (Error ("Product " ++ CartLine.product_id bad
                                ++ " not found")%string)).
Proof.
  intros env request w user cart item U C Hin Hun.
  pose proof (POST_checked env request w) as H.
  destruct (Checkout.POST env request w) as [r w']. cbn [fst snd] in *.
  inversion H as [ U0 | user0 issues U0 P | user0 addr U0 P C0
                 | user0 addr cart0 e w0 U0 P C0 Hne Hp
                 | user0 addr cart0 r0 w0 U0 P C0 Hne Hp]; subst.
  - congruence.
  - repeat split.
    + exists []. split; [now rewrite app_nil_r | reflexivity].
    + intros addr Hp. congruence.
  - destruct C0 as [C0 | C0]; rewrite C in C0; [discriminate|].
    inversion C0; subst. destruct Hin.
  - rewrite C in C0. inversion C0; subst cart0. clear C0.
    assert (forall rows,
               ~ Forall2 (row_for (products (store w)) (uuid_generate_v4 env))
                         cart rows) as Hno.
    { intros rows Hrows. exact (@row_for_resolved _ _ _ _ item Hrows Hin Hun). }
    inversion Hp as [ message D | earlier later bad D Hc He Hb
                    | rows message D Hrows | rows total email message D Hrows
                    | rows total email message D Hrows | ]; subst;
      try (exfalso; now apply (Hno rows)).
    + repeat split.
      * eexists. split; reflexivity.
      * intros addr0 _ D0. cbn [log store] in *. congruence.
    + repeat split.
      * eexists. split; reflexivity.
      * intros addr0 _ _. exists earlier, bad, later. repeat split; auto.
  - rewrite C in C0. inversion C0; subst cart0. clear C0.
    inversion Hp as [ | | | | | rows total email session o D Hrows E Htotal Hfits
                                Hrange Ho];
      subst.
    exact (False_ind _ (@row_for_resolved _ _ _ _ item Hrows Hin Hun)).
Qed.

Lemma C4_unknown_product_aborts_witness :
  getUser Sample.checkout_env = Some Sample.user /\
  resolve (products (store Sample.shop)) (CartLine.mk "prod-z" 1 None) = None /\
  store (snd (Checkout.POST Sample.checkout_env Sample.unknown_product_request
                            Sample.shop)) = store Sample.shop /\
  NextResponse.status
    (fst (Checkout.POST Sample.checkout_env Sample.unknown_product_request
                        Sample.shop)) = 500.
Proof.
  split; [reflexivity|]. split; [reflexivity|].
  destruct (@C4_unknown_product_aborts
              Sample.checkout_env Sample.unknown_product_request Sample.shop
              Sample.user
              [CartLine.mk "prod-a" 1 None; CartLine.mk "prod-z" 1 None]
              (CartLine.mk "prod-z" 1 None)
              eq_refl eq_refl (or_intror (or_introl eq_refl)) eq_refl)
    as (Hstore & Hstatus & _).
  split; [exact Hstore | exact Hstatus].
Defined.

Example unknown_product_message :
  NextResponse.body
    (fst (Checkout.POST Sample.checkout_env Sample.unknown_product_request
                        Sample.shop))
  = json_caught (Error "Product prod-z not found").
Proof. reflexivity. Qed.




(** C8.  The checkout handler never ends on the [TypeError] of a
    property access on an undefined product (or order).  When every cart
    line is found in the looked-up products, the total and the order items
    are computed without a throw; and when some line is not found, the
    line-item mapping, which runs first, throws [Product <id> not found] at
    the first such line, so that the two later passes are not run. *)
Theorem C8_product_is_never_undefined :
  forall (env : Env) (request : CheckoutRequest.t) (w : World),
    NextResponse.body (fst (Checkout.POST env request w))
    <> json_caught TypeError /\
    (forall (ps : option (list Product.t)) (cart : list CartLine.t)
            (order : Order.t) (w1 : World),
        (forall item,
            In item cart ->
            Checkout.find_product ps (CartLine.product_id item) <> None) ->
        (exists lineItems,
            mapM (Checkout.lineItem ps) cart w1 = (inr lineItems, w1)) /\
        (exists totalAmount,
            reduceM (Checkout.addLine ps) cart (Int 0) w1
            = (inr totalAmount, w1)) /\
        (exists orderItems,
            mapM (Checkout.orderItem ps order) cart w1 = (inr orderItems, w1)))
    /\
    (forall (ps : option (list Product.t)) (cart : list CartLine.t)
            (item : CartLine.t) (w1 : World),
        In item cart ->
        Checkout.find_product ps (CartLine.product_id item) = None ->
        exists earlier bad later,
          cart = earlier ++ bad :: later /\
          (forall i, In i earlier ->
                     Checkout.find_product ps (CartLine.product_id i) <> None) /\
          Checkout.find_product ps (CartLine.product_id bad) = None /\
          mapM (Checkout.lineItem ps) cart w1
          = (inl (Error ("Product " ++ CartLine.product_id bad
                         ++ " not found")%string), w1)).
Proof.
  intros env request w.
  assert (forall ps cart,
             agree (match ps with Some l => l | None => [] end) ps cart) as Hag.
  { intros ps cart. apply Forall_forall. intros i _. now destruct ps. }
  assert (forall (ps : option (list Product.t)) i,
             resolve (match ps with Some l => l | None => [] end) i
             = Checkout.find_product ps (CartLine.product_id i)) as Hres
      by (intros ps i; now destruct ps).
  split; [|split].
  - pose proof (POST_checked env request w) as H.
    destruct (Checkout.POST env request w) as [r w']. cbn [fst snd] in *.
    inversion H as [ | | | user addr cart e w0 U P C Hne Hp
                     | user addr cart r0 w0 U P C Hne Hp]; subst;
      try (cbn; discriminate).
    + inversion Hp; subst; cbn; discriminate.
    + inversion Hp; subst; cbn; discriminate.
  - intros ps cart order w1 Hall.
    destruct (lineItems_run w1 (Hag ps cart))
      as [(earlier & bad & later & -> & _ & Hb & _) | (Hres' & lineItems & Hrun)].
    { exfalso. rewrite Hres in Hb. apply (Hall bad); [|exact Hb].
      apply in_or_app. right. now left. }
    destruct (rows_exist _ (Order.id order) Hres') as [rows Hrows].
    split; [now exists lineItems|]. split.
    + eexists. apply (total_run (Hag ps cart) Hrows).
    + exists rows. apply (orderItems_run order w1 (Hag ps cart) Hrows).
  - intros ps cart item w1 Hin Hnone.
    destruct (lineItems_run w1 (Hag ps cart))
      as [(earlier & bad & later & Hc & He & Hb & Hrun) | (Hres' & _)].
    + exists earlier, bad, later. rewrite Hres in Hb. repeat split; auto.
      intros i Hi. rewrite Forall_forall in He. specialize (He i Hi).
      now rewrite Hres in He.
    + exfalso. rewrite Forall_forall in Hres'. apply (Hres' item Hin).
      now rewrite Hres.
Qed.

Lemma C8_product_is_never_undefined_witness :
  (forall item,
      In item [CartLine.mk "prod-a" 2 None; CartLine.mk "prod-b" 1 None] ->
      Checkout.find_product (Some [Sample.productA; Sample.productB])
                            (CartLine.product_id item) <> None) /\
  (exists totalAmount,
      reduceM (Checkout.addLine (Some [Sample.productA; Sample.productB]))
              [CartLine.mk "prod-a" 2 None; CartLine.mk "prod-b" 1 None]
              (Int 0) Sample.shop
      = (inr totalAmount, Sample.shop)).
Proof.
  assert (forall item,
             In item [CartLine.mk "prod-a" 2 None; CartLine.mk "prod-b" 1 None] ->
             Checkout.find_product (Some [Sample.productA; Sample.productB])
                                   (CartLine.product_id item) <> None) as Hall.
  { intros item [<- | [<- | []]]; cbn; discriminate. }
  split; [exact Hall|].
  exact (proj1 (proj2 (proj1 (proj2 (@C8_product_is_never_undefined
                                       Sample.checkout_env Sample.cart_request
                                       Sample.shop))
                             (Some [Sample.productA; Sample.productB])
                             [CartLine.mk "prod-a" 2 None;
                              CartLine.mk "prod-b" 1 None]
                             (Sample.order1 pending None) Sample.shop Hall))).
Defined.

(** Without the earlier throw the assertion would fail: the total of a
    cart with an unknown product is a [TypeError]. *)
Example total_of_unknown_product :
  reduceM (Checkout.addLine (Some [Sample.productA]))
          [CartLine.mk "prod-z" 1 None] (Int 0) Sample.shop
  = (inl TypeError, Sample.shop).
Proof. reflexivity. Qed.

(** C10.  For an authenticated request, the shipping address is
    validated before the cart is looked at: when the address fails the
    schema, the response is the 500 failure carrying the validation error,
    also when the cart is empty; the "Cart is empty" response is given
    when the address validates and the cart is absent or empty, and only
    when the address validates; and on both paths the world is left as it
    was, so that no order or order-item row is written. *)
Theorem C10_address_before_cart :
  forall (env : Env) (request : CheckoutRequest.t) (w : World) (user : User.t),
    getUser env = Some user ->
    (forall e,
        shippingAddressSchema_parse (CheckoutRequest.shipping_address request)
        = inl e ->
        Checkout.POST env request w
        = (NextResponse.json (json_caught e) 500, w)) /\
    (forall addr,
        shippingAddressSchema_parse (CheckoutRequest.shipping_address request)
        = inr addr ->
        CheckoutRequest.cart_items request = None \/
        CheckoutRequest.cart_items request = Some [] ->
        Checkout.POST env request w
        = (NextResponse.json (json_error "Cart is empty") 400, w)) /\
    (fst (Checkout.POST env request w)
     = NextResponse.json (json_error "Cart is empty") 400 ->
     (exists addr,
         shippingAddressSchema_parse (CheckoutRequest.shipping_address request)
         = inr addr) /\
     snd (Checkout.POST env request w) = w).
Proof.
  intros env request w user U. split; [|split].
  - intros e P. unfold Checkout.POST, Checkout.try_block. rewrite U, P.
    reflexivity.
  - intros addr P C. unfold Checkout.POST, Checkout.try_block. rewrite U, P.
    now destruct C as [-> | ->].
  - intros Hr.
    pose proof (POST_checked env request w) as H.
    destruct (Checkout.POST env request w) as [r w']. cbn [fst snd] in *.
    subst r.
    inversion H as [ | | user0 addr U0 P C0 | | user0 addr cart r0 w0 U0 P C0 Hne Hp];
      subst.
    + split; [now exists addr | reflexivity].
    + inversion Hp.
Qed.

Lemma C10_address_before_cart_witness :
  getUser Sample.checkout_env = Some Sample.user /\
  CheckoutRequest.cart_items Sample.empty_request = Some [] /\
  Checkout.POST Sample.checkout_env Sample.empty_request Sample.shop
  = (NextResponse.json (json_caught (ZodError [EmptyString])) 500, Sample.shop).
Proof.
  split; [reflexivity|]. split; [reflexivity|].
  exact (proj1 (@C10_address_before_cart Sample.checkout_env
                  Sample.empty_request Sample.shop Sample.user eq_refl)
               (ZodError [EmptyString]) eq_refl).
Defined.

(* ===================================================================== *)
(** ** More about the webhook handler                                     *)
(* ===================================================================== *)

Lemma dispatch_effect_failed (env : Env) (event : Event.t) (s : Store) :
  Event.type event = "payment_intent.payment_failed" ->
  dispatch_effect env event s = failed_effect env (Event.object event) s.
Proof. intros H. unfold dispatch_effect. now rewrite H. Qed.

Lemma dispatch_calls_failed (env : Env) (event : Event.t) (s : Store) :
  Event.type event = "payment_intent.payment_failed" ->
  dispatch_calls env event s = failed_calls env (Event.object event) s.
Proof. intros H. unfold dispatch_calls. now rewrite H. Qed.

(** X1.  A request whose signature verifies is always answered with the
    acknowledgement, whatever the event and whatever the store answers to
    the calls made for it: the failure response of the [catch] is never
    produced. *)
Theorem signed_event_is_always_acknowledged :
  forall (env : Env) (request : WebhookRequest.t) (w : World)
         (signature : string) (event : Event.t),
    truthy (WebhookRequest.stripe_signature request) = Some signature ->
    constructEvent env (WebhookRequest.body request) signature
                   (STRIPE_WEBHOOK_SECRET env) = inr event ->
    fst (Webhook.POST env request w) = ack.
Proof.
  intros env request w signature event Hsig Hev.
  assert (signed_as env request event) as S by (exists signature; now split).
  now rewrite (POST_accepted w S).
Qed.

Lemma signed_event_is_always_acknowledged_witness :
  truthy (WebhookRequest.stripe_signature Sample.signed_request) = Some "sig-ok" /\
  fst (Webhook.POST (Sample.env_at 100 Sample.failed_event)
                    Sample.signed_request Sample.before_delivery) = ack.
Proof.
  split; [reflexivity|].
  exact (@signed_event_is_always_acknowledged
           (Sample.env_at 100 Sample.failed_event) Sample.signed_request
           Sample.before_delivery "sig-ok" Sample.failed_event
           eq_refl eq_refl).
Defined.

Lemma filter_none {A : Type} (f : A -> bool) (l : list A) :
  (forall x, In x l -> f x = false) -> filter f l = [].
Proof.
  induction l as [|a l IH]; intros H; cbn; [reflexivity|].
  rewrite (H a (or_introl eq_refl)). apply IH. intros x Hx. apply H. now right.
Qed.

Lemma filter_first {A : Type} (f : A -> bool) (earlier later : list A) (a : A) :
  Forall (fun x => f x = false) earlier ->
  f a = true ->
  filter f (earlier ++ a :: later) = a :: filter f later.
Proof.
  intros He Ha. rewrite filter_app.
  rewrite (filter_none f earlier) by (now apply Forall_forall).
  cbn. now rewrite Ha.
Qed.

(** X2.  A "payment_intent.payment_failed" event whose payment intent
    is recorded on no order is acknowledged; the store is left as it was
    and the only store call is the lookup. *)
Theorem payment_failed_without_match_changes_nothing :
  forall (env : Env) (request : WebhookRequest.t) (w : World)
         (signature : string) (event : Event.t),
    truthy (WebhookRequest.stripe_signature request) = Some signature ->
    constructEvent env (WebhookRequest.body request) signature
                   (STRIPE_WEBHOOK_SECRET env) = inr event ->
    Event.type event = "payment_intent.payment_failed" ->
    (forall o, In o (orders (store w)) ->
               has_payment_intent (EventObject.id (Event.object event)) o
               = false) ->
    Webhook.POST env request w =
    (ack,
     mkWorld (store w)
             (log w ++ [orders_select_eq_stripe_payment_intent
                          (EventObject.id (Event.object event))])).
Proof.
  intros env request w signature event Hsig Hev Hty Hno.
  assert (signed_as env request event) as S by (exists signature; now split).
  rewrite (POST_accepted w S).
  rewrite dispatch_effect_failed, dispatch_calls_failed by exact Hty.
  unfold failed_effect, failed_calls, failed_matches.
  destruct (db_error env _); [reflexivity|].
  unfold has_payment_intent in Hno. now rewrite (filter_none _ _ Hno).
Qed.

Lemma payment_failed_without_match_changes_nothing_witness :
  Event.type Sample.failed_event = "payment_intent.payment_failed" /\
  map Order.stripe_payment_intent (orders (store Sample.before_delivery))
  = [None] /\
  store (snd (Webhook.POST (Sample.env_at 100 Sample.failed_event)
                           Sample.signed_request Sample.before_delivery))
  = store Sample.before_delivery.
Proof.
  split; [reflexivity|]. split; [reflexivity|].
  assert (forall o, In o (orders (store Sample.before_delivery)) ->
                    has_payment_intent
                      (EventObject.id (Event.object Sample.failed_event)) o
                    = false) as Hno
      by (intros o [<- | []]; reflexivity).
  exact (f_equal (fun p => store (snd p))
           (@payment_failed_without_match_changes_nothing
              (Sample.env_at 100 Sample.failed_event) Sample.signed_request
              Sample.before_delivery "sig-ok" Sample.failed_event
              eq_refl eq_refl eq_refl Hno)).
Defined.

Lemma same_fixed_columns_refl (o : Order.t) : same_fixed_columns o o.
Proof. repeat split. Qed.

Lemma apply_patch_fixed (env : Env) (patch : OrderPatch) (o : Order.t) :
  set_stripe_session_id patch = None ->
  same_fixed_columns o (Supabase.apply_patch env patch o).
Proof. intros H. unfold same_fixed_columns; cbn. rewrite H. repeat split. Qed.

(** X3.  A "payment_intent.payment_failed" event cancels the first
    order, in table order, that records its payment intent, and nothing
    else: when the lookup and the update succeed, the rows of that order
    become cancelled and are stamped with the time of the update, every
    other order row is as it was, and no column but status and updated_at
    changes; products, order items and carts are untouched; the calls are
    the lookup and one update. *)
Theorem payment_failed_cancels_the_first_match :
  forall (env : Env) (request : WebhookRequest.t) (w : World)
         (signature : string) (event : Event.t)
         (earlier later : list Order.t) (o : Order.t),
    truthy (WebhookRequest.stripe_signature request) = Some signature ->
    constructEvent env (WebhookRequest.body request) signature
                   (STRIPE_WEBHOOK_SECRET env) = inr event ->
    Event.type event = "payment_intent.payment_failed" ->
    db_error env (orders_select_eq_stripe_payment_intent
                    (EventObject.id (Event.object event))) = None ->
    db_error env (orders_update_eq_id Webhook.cancelled_patch (Order.id o))
    = None ->
    orders (store w) = earlier ++ o :: later ->
    Forall (fun x => has_payment_intent (EventObject.id (Event.object event)) x
                     = false) earlier ->
    has_payment_intent (EventObject.id (Event.object event)) o = true ->
    Forall2 (cancelled_from env (Order.id o))
            (orders (store w))
            (orders (store (snd (Webhook.POST env request w)))) /\
    products (store (snd (Webhook.POST env request w))) = products (store w) /\
    order_items (store (snd (Webhook.POST env request w)))
    = order_items (store w) /\
    cart_items (store (snd (Webhook.POST env request w)))
    = cart_items (store w) /\
    log (snd (Webhook.POST env request w)) =
    log w ++ [orders_select_eq_stripe_payment_intent
                (EventObject.id (Event.object event));
              orders_update_eq_id Webhook.cancelled_patch (Order.id o)].
Proof.
  intros env request w signature event earlier later o
         Hsig Hev Hty Dsel Dupd Hos He Ho.
  assert (signed_as env request event) as S by (exists signature; now split).
  rewrite (POST_accepted w S). cbn [fst snd store log].
  rewrite dispatch_effect_failed, dispatch_calls_failed by exact Hty.
  unfold failed_effect, failed_calls, failed_matches. rewrite Dsel, Hos.
  unfold has_payment_intent in He, Ho.
  rewrite (@filter_first _ _ earlier later o He Ho). cbn [map].
  unfold update_effect. rewrite Dupd.
  cbn [orders products order_items cart_items Supabase.with_orders].
  repeat split. rewrite Hos.
  apply Forall2_map_right. intros a. unfold cancelled_from.
  destruct (String.eqb (Order.id a) (Order.id o)).
  - split; [now apply apply_patch_fixed|]. repeat split.
  - split; [apply same_fixed_columns_refl|]. now split.
Qed.

Lemma payment_failed_cancels_the_first_match_witness :
  has_payment_intent (EventObject.id (Event.object Sample.failed_event))
                     (Sample.order1 pending (Some "pi_1")) = true /\
  map Order.status
      (orders (store (snd (Webhook.POST
                             (Sample.env_at 100 Sample.failed_event)
                             Sample.signed_request
                             (Sample.world_with
                                (Sample.order1 pending (Some "pi_1")) [])))))
  = [cancelled] /\
  Forall2 (cancelled_from (Sample.env_at 100 Sample.failed_event) "order-1")
          [Sample.order1 pending (Some "pi_1")]
          (orders (store (snd (Webhook.POST
                                 (Sample.env_at 100 Sample.failed_event)
                                 Sample.signed_request
                                 (Sample.world_with
                                    (Sample.order1 pending (Some "pi_1")) []))))).
Proof.
  split; [reflexivity|]. split; [reflexivity|].
  exact (proj1 (@payment_failed_cancels_the_first_match
                  (Sample.env_at 100 Sample.failed_event) Sample.signed_request
                  (Sample.world_with (Sample.order1 pending (Some "pi_1")) [])
                  "sig-ok" Sample.failed_event [] []
                  (Sample.order1 pending (Some "pi_1"))
                  eq_refl eq_refl eq_refl eq_refl eq_refl eq_refl
                  (Forall_nil _) eq_refl)).
Defined.

Lemma update_effect_frame (env : Env) (patch : OrderPatch) (id : string)
      (s : Store) :
  products (update_effect env patch id s) = products s /\
  order_items (update_effect env patch id s) = order_items s /\
  cart_items (update_effect env patch id s) = cart_items s.
Proof. unfold update_effect. now destruct (db_error env _). Qed.

Lemma delete_effect_frame (env : Env) (user_id : string) (s : Store) :
  products (delete_effect env user_id s) = products s /\
  order_items (delete_effect env user_id s) = order_items s.
Proof. unfold delete_effect. now destruct (db_error env _). Qed.

Lemma update_effect_fixed (env : Env) (patch : OrderPatch) (id : string)
      (s : Store) :
  set_stripe_session_id patch = None ->
  Forall2 same_fixed_columns (orders s) (orders (update_effect env patch id s)).
Proof.
  intros Hp. unfold update_effect. destruct (db_error env _); cbn.
  - apply Forall2_same, same_fixed_columns_refl.
  - apply Forall2_map_right. intros o.
    destruct (String.eqb (Order.id o) id);
      [now apply apply_patch_fixed | apply same_fixed_columns_refl].
Qed.

Lemma dispatch_effect_frame (env : Env) (event : Event.t) (s : Store) :
  products (dispatch_effect env event s) = products s /\
  order_items (dispatch_effect env event s) = order_items s /\
  Forall2 same_fixed_columns (orders s) (orders (dispatch_effect env event s)).
Proof.
  unfold dispatch_effect, completed_effect, failed_effect.
  destruct (String.eqb (Event.type event) "checkout.session.completed").
  - destruct (truthy (Webhook.metadata_order_id _)) as [orderId|];
      [|repeat split; apply Forall2_same, same_fixed_columns_refl].
    cbv zeta.
    destruct (update_effect_frame env (Webhook.completed_patch (Event.object event))
                                  orderId s) as (Hp & Hi & _).
    pose proof (@update_effect_fixed env
                  (Webhook.completed_patch (Event.object event)) orderId s
                  eq_refl) as Ho.
    destruct (truthy (Webhook.metadata_user_id _)) as [userId|]; [|now split].
    destruct (delete_effect_frame env userId
                (update_effect env (Webhook.completed_patch (Event.object event))
                               orderId s)) as (Hp' & Hi').
    rewrite Hp', Hi', delete_effect_orders. now split.
  - destruct (String.eqb (Event.type event) "payment_intent.payment_failed");
      [|repeat split; apply Forall2_same, same_fixed_columns_refl].
    destruct (failed_matches env _ s) as [|id0 ids];
      [repeat split; apply Forall2_same, same_fixed_columns_refl|].
    destruct (update_effect_frame env Webhook.cancelled_patch id0 s)
      as (Hp & Hi & _).
    split; [exact Hp|]. split; [exact Hi|].
    now apply update_effect_fixed.
Qed.

(** X4.  No webhook delivery, accepted or rejected, touches the
    catalogue or the order items, and none changes an order's identifier,
    owner, email, total amount, checkout-session reference or shipping
    address: a total is never recomputed after the order is created. *)
Theorem webhook_keeps_products_items_and_totals :
  forall (env : Env) (request : WebhookRequest.t) (w : World),
    products (store (snd (Webhook.POST env request w))) = products (store w) /\
    order_items (store (snd (Webhook.POST env request w)))
    = order_items (store w) /\
    Forall2 same_fixed_columns
            (orders (store w))
            (orders (store (snd (Webhook.POST env request w)))).
Proof.
  intros env request w.
  destruct (signature_cases env request) as [Hbad | [event Hok]].
  - destruct (POST_rejected w Hbad) as [message ->]. cbn.
    repeat split. apply Forall2_same, same_fixed_columns_refl.
  - rewrite (POST_accepted w Hok). cbn [snd store].
    apply dispatch_effect_frame.
Qed.

Lemma delete_effect_keeps (env : Env) (userId : string) (s : Store)
      (c : CartItem.t) :
  In c (cart_items (delete_effect env userId s)) -> In c (cart_items s).
Proof.
  unfold delete_effect. destruct (db_error env _); [auto|].
  cbn. intros H. now apply filter_In in H.
Qed.

Lemma delete_effect_keeps_others (env : Env) (userId : string) (s : Store)
      (c : CartItem.t) :
  In c (cart_items s) ->
  CartItem.user_id c <> Some userId ->
  In c (cart_items (delete_effect env userId s)).
Proof.
  intros Hin Hne. unfold delete_effect. destruct (db_error env _); [auto|].
  cbn. apply filter_In. split; [exact Hin|].
  destruct (CartItem.user_id c) as [u|] eqn:U; cbn; [|reflexivity].
  destruct (String.eqb u userId) eqn:E; [|reflexivity].
  apply String.eqb_eq in E. subst u. contradiction.
Qed.

Lemma dispatch_effect_cart (env : Env) (event : Event.t) (s : Store) :
  cart_items (dispatch_effect env event s) = cart_items s \/
  exists userId,
    Event.type event = "checkout.session.completed" /\
    truthy (Webhook.metadata_user_id (Event.object event)) = Some userId /\
    cart_items (dispatch_effect env event s)
    = cart_items (delete_effect env userId s).
Proof.
  unfold dispatch_effect, completed_effect, failed_effect.
  destruct (String.eqb (Event.type event) "checkout.session.completed") eqn:E.
  - apply String.eqb_eq in E.
    destruct (truthy (Webhook.metadata_order_id _)) as [orderId|]; [|now left].
    cbv zeta.
    destruct (update_effect_frame env (Webhook.completed_patch (Event.object event))
                                  orderId s) as (_ & _ & Hc).
    destruct (truthy (Webhook.metadata_user_id _)) as [userId|]; [|now left].
    right. exists userId. split; [exact E|]. split; [reflexivity|].
    unfold delete_effect. destruct (db_error env _); [exact Hc|].
    cbn. now rewrite Hc.
  - destruct (String.eqb (Event.type event) "payment_intent.payment_failed");
      [|now left].
    destruct (failed_matches env _ s) as [|id0 ids]; [now left|].
    left. apply update_effect_frame.
Qed.

(** X5.  No webhook delivery adds or alters a cart row, and none removes
    a guest's cart row (a row without a user): every cart row present
    after a delivery was present before, and every row without user_id
    present before is still present. *)
Theorem webhook_never_touches_guest_carts :
  forall (env : Env) (request : WebhookRequest.t) (w : World) (c : CartItem.t),
    (In c (cart_items (store (snd (Webhook.POST env request w)))) ->
     In c (cart_items (store w))) /\
    (In c (cart_items (store w)) ->
     CartItem.user_id c = None ->
     In c (cart_items (store (snd (Webhook.POST env request w))))).
Proof.
  intros env request w c.
  destruct (signature_cases env request) as [Hbad | [event Hok]].
  - destruct (POST_rejected w Hbad) as [message ->]. cbn. now split.
  - rewrite (POST_accepted w Hok). cbn [snd store].
    destruct (dispatch_effect_cart env event (store w))
      as [-> | (userId & _ & _ & ->)]; [now split|].
    split.
    + apply delete_effect_keeps.
    + intros Hin Hnone. apply delete_effect_keeps_others; [exact Hin|].
      rewrite Hnone. discriminate.
Qed.

Lemma webhook_never_touches_guest_carts_witness :
  In (CartItem.mk None (Some "session_1") "prod-a" 1)
     (cart_items (store (snd (Webhook.POST
                                (Sample.env_at 100 Sample.completed_event)
                                Sample.signed_request
                                (Sample.world_with
                                   (Sample.order1 pending None)
                                   [Sample.cart_row "prod-a";
                                    CartItem.mk None (Some "session_1")
                                                "prod-a" 1]))))).
Proof.
  apply (proj2 (@webhook_never_touches_guest_carts
                  (Sample.env_at 100 Sample.completed_event)
                  Sample.signed_request
                  (Sample.world_with (Sample.order1 pending None)
                                     [Sample.cart_row "prod-a";
                                      CartItem.mk None (Some "session_1")
                                                  "prod-a" 1])
                  (CartItem.mk None (Some "session_1") "prod-a" 1))).
  - right. left. reflexivity.
  - reflexivity.
Defined.

(** X6.  A "checkout.session.completed" event whose metadata names an
    order, and whose order update succeeds, makes the rows of that order
    completed, records the session's payment intent on them and stamps
    them; every other order row is as it was, and no other column of the
    order changes. *)
Theorem completed_event_completes_the_order :
  forall (env : Env) (request : WebhookRequest.t) (w : World)
         (signature : string) (event : Event.t) (orderId : string),
    truthy (WebhookRequest.stripe_signature request) = Some signature ->
    constructEvent env (WebhookRequest.body request) signature
                   (STRIPE_WEBHOOK_SECRET env) = inr event ->
    Event.type event = "checkout.session.completed" ->
    truthy (Webhook.metadata_order_id (Event.object event)) = Some orderId ->
    db_error env (orders_update_eq_id
                    (Webhook.completed_patch (Event.object event)) orderId)
    = None ->
    Forall2 (completed_from env (Event.object event) orderId)
            (orders (store w))
            (orders (store (snd (Webhook.POST env request w)))).
Proof.
  intros env request w signature event orderId Hsig Hev Hty Hid Dupd.
  assert (signed_as env request event) as S by (exists signature; now split).
  rewrite (POST_accepted w S). cbn [snd store].
  rewrite dispatch_effect_completed by exact Hty.
  unfold completed_effect. rewrite Hid. cbv zeta.
  assert (Forall2 (completed_from env (Event.object event) orderId)
                  (orders (store w))
                  (orders (update_effect env
                             (Webhook.completed_patch (Event.object event))
                             orderId (store w)))) as H.
  { unfold update_effect. rewrite Dupd. cbn [orders Supabase.with_orders].
    apply Forall2_map_right. intros a. unfold completed_from.
    destruct (String.eqb (Order.id a) orderId).
    - split; [now apply apply_patch_fixed|]. repeat split.
    - split; [apply same_fixed_columns_refl | reflexivity]. }
  destruct (truthy (Webhook.metadata_user_id _)); [|exact H].
  now rewrite delete_effect_orders.
Qed.

Lemma completed_event_completes_the_order_witness :
  map Order.status (orders (store Sample.before_delivery)) = [pending] /\
  map Order.status (orders (store Sample.after_first_delivery)) = [completed] /\
  map Order.stripe_payment_intent (orders (store Sample.after_first_delivery))
  = [Some "pi_1"] /\
  Forall2 (completed_from (Sample.env_at 100 Sample.completed_event)
                          (Event.object Sample.completed_event) "order-1")
          (orders (store Sample.before_delivery))
          (orders (store Sample.after_first_delivery)).
Proof.
  split; [reflexivity|]. split; [reflexivity|]. split; [reflexivity|].
  exact (@completed_event_completes_the_order
           (Sample.env_at 100 Sample.completed_event) Sample.signed_request
           Sample.before_delivery "sig-ok" Sample.completed_event "order-1"
           eq_refl eq_refl eq_refl eq_refl eq_refl).
Defined.

(** X7.  The cart clear of "checkout.session.completed" does not depend
    on the order: when the metadata carries an order_id and a user_id and
    the delete call succeeds, the cart rows after the delivery are exactly
    the rows of the other users and of guests, whether or not the order
    exists and whether or not its update succeeded. *)
Theorem completed_event_clears_exactly_the_users_cart :
  forall (env : Env) (request : WebhookRequest.t) (w : World)
         (signature : string) (event : Event.t) (orderId userId : string)
         (c : CartItem.t),
    truthy (WebhookRequest.stripe_signature request) = Some signature ->
    constructEvent env (WebhookRequest.body request) signature
                   (STRIPE_WEBHOOK_SECRET env) = inr event ->
    Event.type event = "checkout.session.completed" ->
    truthy (Webhook.metadata_order_id (Event.object event)) = Some orderId ->
    truthy (Webhook.metadata_user_id (Event.object event)) = Some userId ->
    db_error env (cart_items_delete_eq_user_id userId) = None ->
    (In c (cart_items (store (snd (Webhook.POST env request w)))) <->
     In c (cart_items (store w)) /\ CartItem.user_id c <> Some userId).
Proof.
  intros env request w signature event orderId userId c
         Hsig Hev Hty Hid Hu Ddel.
  assert (signed_as env request event) as S by (exists signature; now split).
  rewrite (POST_accepted w S). cbn [snd store].
  rewrite dispatch_effect_completed by exact Hty.
  unfold completed_effect. rewrite Hid, Hu. cbv zeta.
  destruct (update_effect_frame env (Webhook.completed_patch (Event.object event))
                                orderId (store w)) as (_ & _ & Hc).
  split.
  - intros Hin. split.
    + rewrite <- Hc. eapply delete_effect_keeps; eauto.
    + eapply delete_effect_clears; eauto.
  - intros [Hin Hne]. apply delete_effect_keeps_others; [|exact Hne].
    now rewrite Hc.
Qed.

Lemma completed_event_clears_exactly_the_users_cart_witness :
  cart_items (store Sample.before_delivery) = [Sample.cart_row "prod-a"] /\
  (In (Sample.cart_row "prod-a") (cart_items (store Sample.after_first_delivery))
   <-> In (Sample.cart_row "prod-a") (cart_items (store Sample.before_delivery))
       /\ CartItem.user_id (Sample.cart_row "prod-a") <> Some "user-1").
Proof.
  split; [reflexivity|].
  exact (@completed_event_clears_exactly_the_users_cart
           (Sample.env_at 100 Sample.completed_event) Sample.signed_request
           Sample.before_delivery "sig-ok" Sample.completed_event
           "order-1" "user-1" (Sample.cart_row "prod-a")
           eq_refl eq_refl eq_refl eq_refl eq_refl eq_refl).
Defined.

(** X8.  A "checkout.session.completed" event whose metadata names
    an order that no row of the order table has changes no order row; it
    is acknowledged all the same, and the order update is still sent to
    the store: it is the first call of the delivery, followed by the
    cart clear when the metadata carries a user_id and by nothing when it
    does not. *)
Theorem completed_event_for_unknown_order :
  forall (env : Env) (request : WebhookRequest.t) (w : World)
         (signature : string) (event : Event.t) (orderId : string),
    truthy (WebhookRequest.stripe_signature request) = Some signature ->
    constructEvent env (WebhookRequest.body request) signature
                   (STRIPE_WEBHOOK_SECRET env) = inr event ->
    Event.type event = "checkout.session.completed" ->
    carries Metadata.order_id (Event.object event) orderId ->
    Forall (fun o => Order.id o <> orderId) (orders (store w)) ->
    fst (Webhook.POST env request w) = ack /\
    orders (store (snd (Webhook.POST env request w))) = orders (store w) /\
    (lacks Metadata.user_id (Event.object event) ->
     log (snd (Webhook.POST env request w))
     = log w ++ [orders_update_eq_id
                   (mkPatch (Some completed) None
                            (Some (EventObject.payment_intent
                                     (Event.object event))))
                   orderId]) /\
    (forall userId,
        carries Metadata.user_id (Event.object event) userId ->
        log (snd (Webhook.POST env request w))
        = log w ++ [orders_update_eq_id
                      (mkPatch (Some completed) None
                               (Some (EventObject.payment_intent
                                        (Event.object event))))
                      orderId;
                    cart_items_delete_eq_user_id userId]).
Proof.
  intros env request w signature event orderId Hsig Hev Hty Hid Hnone.
  assert (signed_as env request event) as S by (exists signature; now split).
  rewrite (POST_accepted w S). cbn [fst snd store log].
  rewrite dispatch_effect_completed, dispatch_calls_completed by exact Hty.
  apply order_id_carried in Hid.
  unfold completed_effect, completed_calls. rewrite Hid. cbv zeta.
  assert (existsb (fun o => String.eqb (Order.id o) orderId) (orders (store w))
          = false) as Hfresh.
  { clear - Hnone. induction Hnone as [|o os Ho _ IH]; [reflexivity|].
    cbn. rewrite IH, orb_false_r. now apply String.eqb_neq. }
  split; [reflexivity|]. split; [|split].
  - assert (orders (update_effect env
                      (Webhook.completed_patch (Event.object event))
                      orderId (store w)) = orders (store w)) as H.
    { unfold update_effect. destruct (db_error env _); [reflexivity|].
      cbn. now apply update_where_id_fresh. }
    destruct (truthy (Webhook.metadata_user_id _));
      now rewrite ?delete_effect_orders.
  - intros Hno. apply user_id_lacking in Hno. now rewrite Hno.
  - intros userId Huid. apply user_id_carried in Huid. now rewrite Huid.
Qed.

Lemma completed_event_for_unknown_order_witness :
  carries Metadata.order_id (Event.object Further.completion_of_unknown_order)
          "order-7" /\
  map Order.id (orders (store Sample.two_orders)) = ["order-1"; "order-9"] /\
  fst (Webhook.POST (Sample.env_at 100 Further.completion_of_unknown_order)
                    Sample.signed_request Sample.two_orders)
  = ack /\
  orders (store (snd (Webhook.POST
                        (Sample.env_at 100 Further.completion_of_unknown_order)
                        Sample.signed_request Sample.two_orders)))
  = [Sample.order1 pending None; Sample.order9] /\
  log (snd (Webhook.POST
              (Sample.env_at 100 Further.completion_of_unknown_order)
              Sample.signed_request Sample.two_orders))
  = [orders_update_eq_id (mkPatch (Some completed) None (Some (Some "pi_7")))
                         "order-7";
     cart_items_delete_eq_user_id "user-1"].
Proof.
  assert (carries Metadata.order_id
                  (Event.object Further.completion_of_unknown_order) "order-7")
    as Horder
      by (eexists; split; [reflexivity | split; [reflexivity | discriminate]]).
  assert (carries Metadata.user_id
                  (Event.object Further.completion_of_unknown_order) "user-1")
    as Huser
      by (eexists; split; [reflexivity | split; [reflexivity | discriminate]]).
  assert (Forall (fun o => Order.id o <> "order-7")
                 (orders (store Sample.two_orders))) as Hnone
      by (repeat constructor; discriminate).
  split; [exact Horder|]. split; [reflexivity|].
  destruct (@completed_event_for_unknown_order
              (Sample.env_at 100 Further.completion_of_unknown_order)
              Sample.signed_request Sample.two_orders
              "sig-ok" Further.completion_of_unknown_order "order-7"
              eq_refl eq_refl eq_refl Horder Hnone)
    as (Hack & Horders & _ & Hlog).
  split; [exact Hack|]. split; [exact Horders|].
  exact (Hlog "user-1" Huser).
Defined.

(* ===================================================================== *)
(** ** More about the checkout handler                                    *)
(* ===================================================================== *)

Lemma lineItems_for (catalog : list Product.t) (ps : option (list Product.t))
      (order_id : string) (cart : list CartLine.t) (rows : list OrderItem.t) :
  agree catalog ps cart ->
  Forall2 (row_for catalog order_id) cart rows ->
  exists lineItems,
    Forall2 (line_for catalog) cart lineItems /\
    forall w, mapM (Checkout.lineItem ps) cart w = (inr lineItems, w).
Proof.
  intros Hag Hrows. induction Hrows as [|item row cart rows Hrow _ IH].
  - exists []. split; [constructor | reflexivity].
  - inversion Hag as [|? ? Hitem Hrest]; subst.
    destruct (IH Hrest) as (lineItems & Hl & Hrun).
    destruct Hrow as (product & R & _).
    eexists (_ :: lineItems). split.
    + constructor; [|exact Hl]. exists product. split; [exact R | reflexivity].
    + intros w. rewrite mapM_cons. unfold Checkout.lineItem at 1.
      rewrite Hitem, R. unfold ret at 1. now rewrite Hrun.
Qed.

Lemma lines_total_rows (catalog : list Product.t) (order_id : string)
      (cart : list CartLine.t) (lines : list LineItem.t)
      (rows : list OrderItem.t) :
  Forall2 (line_for catalog) cart lines ->
  Forall2 (row_for catalog order_id) cart rows ->
  lines_total lines = rows_total rows.
Proof.
  intros Hl. revert rows. unfold lines_total, rows_total.
  induction Hl as [|item line cart lines (p & R & ->) _ IH]; intros rows Hr.
  - inversion Hr. reflexivity.
  - inversion Hr as [|? row ? rows' (p' & R' & ->) Hr']; subst.
    rewrite R in R'. inversion R'; subst p'.
    cbn [fold_right LineItem.unit_amount LineItem.quantity
         OrderItem.product_price OrderItem.quantity].
    now rewrite (IH _ Hr').
Qed.

Lemma row_for_functional (catalog : list Product.t) (order_id : string)
      (cart : list CartLine.t) (rows rows' : list OrderItem.t) :
  Forall2 (row_for catalog order_id) cart rows ->
  Forall2 (row_for catalog order_id) cart rows' ->
  rows = rows'.
Proof.
  intros H. revert rows'.
  induction H as [|item row cart rows (p & R & ->) _ IH]; intros rows' H'.
  - now inversion H'.
  - inversion H' as [|? row' ? rows'' (p' & R' & ->) Hr']; subst.
    rewrite R in R'. inversion R'; subst p'. now rewrite (IH _ Hr').
Qed.

Lemma update_effect_new (env : Env) (patch : OrderPatch) (o : Order.t)
      (rows : list OrderItem.t) (s : Store) :
  existsb (fun x => String.eqb (Order.id x) (Order.id o)) (orders s) = false ->
  update_effect env patch (Order.id o) (with_order o rows s)
  = with_order (match db_error env (orders_update_eq_id patch (Order.id o)) with
                | Some _ => o
                | None => Supabase.apply_patch env patch o
                end) rows s.
Proof.
  intros Fresh. unfold update_effect.
  destruct (db_error env _); [reflexivity|].
  unfold with_order, Supabase.with_orders.
  cbn [products orders order_items cart_items].
  now rewrite update_where_id_new.
Qed.

(** What a checkout that opens a session has done. *)
Lemma place_order_trace (env : Env) (user : User.t) (addr : ShippingAddress.t)
      (cart : list CartLine.t) (w : World) :
  match Checkout.place_order env user addr cart w with
  | (inl _, _) => True
  | (inr response, w') =>
      exists rows lineItems total email session,
        Forall2 (row_for (products (store w)) (uuid_generate_v4 env)) cart rows /\
        Forall2 (line_for (products (store w))) cart lineItems /\
        double_total rows = Int total /\
        Supabase.fits_int4 total = true /\
        forallb Supabase.order_item_ok rows = true /\
        User.email user = Some email /\
        existsb (fun o => String.eqb (Order.id o) (uuid_generate_v4 env))
                (orders (store w)) = false /\
        sessions_create env
          (SessionParams.mk lineItems (User.email user) (uuid_generate_v4 env)
                            (User.id user)) = inr session /\
        response = NextResponse.json
                     (json_checkout (Session.id session) (Session.url session))
                     200 /\
        w' = mkWorld (with_order (final_order env user email addr total session)
                                 rows (store w))
                     (log w ++ checkout_calls env user cart rows session)
  end.
Proof.
  unfold Checkout.place_order.
  destruct (db_error env (select_call cart)) as [message|] eqn:Dsel.
  - erewrite bind_run
      by (unfold Supabase.products_in; fold (select_call cart);
          rewrite Dsel; reflexivity).
    now erewrite bind_throw by reflexivity.
  - erewrite bind_run
      by (unfold Supabase.products_in; fold (select_call cart);
          rewrite Dsel; reflexivity).
    erewrite bind_run by reflexivity.
    cbn [Supabase.data Supabase.succeeded].
    pose proof (agree_selection (products (store w)) cart) as Hag.
    set (ps := Some (filter _ (products (store w)))) in *.
    set (w1 := Supabase.logged (select_call cart) w).
    destruct (lineItems_run w1 Hag)
      as [(earlier & bad & later & Hcart & He & Hb & Hrun)
         | (Hall & lineItems0 & _)].
    { now erewrite bind_throw by exact Hrun. }
    destruct (rows_exist (products (store w)) (uuid_generate_v4 env) Hall)
      as [rows Hrows].
    destruct (lineItems_for Hag Hrows) as (lineItems & Hlines & Hrun).
    erewrite bind_run by apply Hrun.
    erewrite bind_run by (apply (total_run Hag Hrows)).
    fold (double_total rows).
    destruct (orders_insert_run env (User.id user) (User.email user)
                                (double_total rows) pending addr w1)
      as [[message Hins]
         | (email & total & Hemail & Htotal & Hfits & Fresh & Hins)].
    { erewrite bind_run by exact Hins.
      now erewrite bind_throw by reflexivity. }
    erewrite bind_run by exact Hins.
    erewrite bind_run by reflexivity.
    cbn [Supabase.data Supabase.succeeded].
    set (o := Supabase.new_order env (User.id user) email total
                                 pending addr) in *.
    erewrite bind_run by (apply (orderItems_run o _ Hag Hrows)).
    match goal with
    | |- context [bind (Supabase.order_items_insert_all _ _) _ ?w2] =>
        destruct (order_items_insert_run env rows w2)
          as [[message Hit] | [Hrange Hit]]
    end.
    { erewrite bind_run by exact Hit.
      now erewrite bind_throw by reflexivity. }
    erewrite bind_run by exact Hit.
    erewrite bind_run by reflexivity.
    clear Hins Hit. subst w1.
    unfold Supabase.logged, Supabase.with_order_items,
      Supabase.with_orders in *.
    cbn [store log products orders order_items cart_items] in *.
    rewrite <- !app_assoc. cbn [app].
    change (mkStore (products (store w)) (orders (store w) ++ [o])
                    (order_items (store w) ++ rows)
                    (cart_items (store w)))
      with (with_order o rows (store w)).
    change (Order.id o) with (uuid_generate_v4 env).
    fold (insert_call user rows).
    destruct (sessions_create env _) as [message|session] eqn:Hs.
    { now erewrite bind_throw by reflexivity. }
    erewrite bind_run by reflexivity.
    match goal with
    | |- context [bind (Supabase.orders_update ?e ?p ?i) _ ?w3] =>
        destruct (orders_update_run e p i w3) as [a Hup]
    end.
    erewrite bind_run by exact Hup.
    unfold ret. cbn [store log].
    rewrite <- !app_assoc. cbn [app].
    fold (session_patch session).
    exists rows, lineItems, total, email, session.
    repeat split; auto.
    change (uuid_generate_v4 env) with (Order.id o) at 1.
    rewrite update_effect_new by exact Fresh.
    reflexivity.
Qed.

Lemma POST_success (env : Env) (request : CheckoutRequest.t) (w : World) :
  NextResponse.status (fst (Checkout.POST env request w)) = 200 ->
  exists user addr cart rows lineItems total email session,
    getUser env = Some user /\
    shippingAddressSchema_parse (CheckoutRequest.shipping_address request)
    = inr addr /\
    CheckoutRequest.cart_items request = Some cart /\
    cart <> [] /\
    Forall2 (row_for (products (store w)) (uuid_generate_v4 env)) cart rows /\
    Forall2 (line_for (products (store w))) cart lineItems /\
    double_total rows = Int total /\
    Supabase.fits_int4 total = true /\
    forallb Supabase.order_item_ok rows = true /\
    User.email user = Some email /\
    existsb (fun o => String.eqb (Order.id o) (uuid_generate_v4 env))
            (orders (store w)) = false /\
    sessions_create env
      (SessionParams.mk lineItems (User.email user) (uuid_generate_v4 env)
                        (User.id user)) = inr session /\
    Checkout.POST env request w =
    (NextResponse.json
       (json_checkout (Session.id session) (Session.url session)) 200,
     mkWorld (with_order (final_order env user email addr total session)
                         rows (store w))
             (log w ++ checkout_calls env user cart rows session)).
Proof.
  unfold Checkout.POST, Checkout.try_block.
  destruct (getUser env) as [user|]; [|discriminate].
  destruct (shippingAddressSchema_parse
              (CheckoutRequest.shipping_address request)) as [e|addr].
  { erewrite bind_throw by reflexivity. discriminate. }
  erewrite bind_run by reflexivity.
  destruct (CheckoutRequest.cart_items request) as [[|item cart]|];
    try discriminate.
  pose proof (place_order_trace env user addr (item :: cart) w) as H.
  destruct (Checkout.place_order env user addr (item :: cart) w)
    as [[e|response] w']; [discriminate|].
  destruct H as (rows & lineItems & total & email & session
                 & Hrows & Hlines & Htotal & Hfits & Hrange & Hemail & Fresh
                 & Hs & -> & ->).
  intros _.
  exists user, addr, (item :: cart), rows, lineItems, total, email, session.
  repeat split; auto. discriminate.
Qed.

(** X9.  A checkout never touches the catalogue or any cart, and
    never changes or removes an order or order item that exists: the
    order rows and item rows before the request are a prefix of those
    after it.  In particular the checkout itself does not clear the cart;
    only the webhook does. *)
Theorem checkout_only_appends :
  forall (env : Env) (request : CheckoutRequest.t) (w : World),
    products (store (snd (Checkout.POST env request w))) = products (store w) /\
    cart_items (store (snd (Checkout.POST env request w)))
    = cart_items (store w) /\
    (exists new_orders,
        orders (store (snd (Checkout.POST env request w)))
        = orders (store w) ++ new_orders) /\
    (exists new_items,
        order_items (store (snd (Checkout.POST env request w)))
        = order_items (store w) ++ new_items).
Proof.
  intros env request w.
  pose proof (POST_checked env request w) as H.
  destruct (Checkout.POST env request w) as [r w']. cbn [fst snd] in *.
  assert (forall s : Store,
             products s = products s /\ cart_items s = cart_items s /\
             (exists n, orders s = orders s ++ n) /\
             (exists n, order_items s = order_items s ++ n)) as Same.
  { intros s. repeat split; exists []; now rewrite app_nil_r. }
  inversion H as [ | | | user addr cart e w0 U P C Hne Hp
                   | user addr cart r0 w0 U P C Hne Hp]; subst;
    try apply Same.
  - inversion Hp; subst; cbn [store]; try apply Same.
    + cbn. repeat split; [eexists; reflexivity|].
      exists []. now rewrite app_nil_r.
    + cbn. repeat split; eexists; reflexivity.
  - inversion Hp; subst. cbn. repeat split; eexists; reflexivity.
Qed.

(** X10.  When a checkout succeeds, the payment processor has been
    asked for a session with one line per cart line, each in [usd] with
    the name, description, image and price of the catalogue row and the
    quantity of the cart line; the metadata is the identifier of the new
    order and of the user; when no price of the catalogue is negative, the
    amount of these lines is the order's [total_amount]; and the response
    carries the id and url of the session the processor returned. *)
Theorem successful_checkout_asks_for_the_order_total :
  forall (env : Env) (request : CheckoutRequest.t) (w : World),
    NextResponse.status (fst (Checkout.POST env request w)) = 200 ->
    exists user cart lineItems session o,
      getUser env = Some user /\
      CheckoutRequest.cart_items request = Some cart /\
      Forall2 (line_for (products (store w))) cart lineItems /\
      sessions_create env
        (SessionParams.mk lineItems (User.email user) (Order.id o)
                          (User.id user)) = inr session /\
      NextResponse.body (fst (Checkout.POST env request w))
      = json_checkout (Session.id session) (Session.url session) /\
      orders (store (snd (Checkout.POST env request w)))
      = orders (store w) ++ [o] /\
      (prices_non_negative (products (store w)) ->
       lines_total lineItems = Order.total_amount o).
Proof.
  intros env request w Hok.
  destruct (POST_success env request w Hok)
    as (user & addr & cart & rows & lineItems & total & email & session
        & U & P & C & Hne & Hrows & Hlines & Htotal & Hfits & Hrange
        & Hemail & Fresh & Hs & ->).
  exists user, cart, lineItems, session,
    (final_order env user email addr total session).
  assert (Order.id (final_order env user email addr total session)
          = uuid_generate_v4 env /\
          Order.total_amount (final_order env user email addr total session)
          = total) as [Hid Htot]
      by (unfold final_order; cbv zeta; destruct (db_error env _); now split).
  rewrite Hid, Htot. repeat split; auto.
  intros Hcat. rewrite (lines_total_rows Hlines Hrows). symmetry.
  apply accepted_total_exact; [|exact Htotal | exact Hfits].
  apply accepted_rows_plain; [|exact Hrange].
  exact (rows_prices_non_negative Hcat Hrows).
Qed.

Lemma successful_checkout_asks_for_the_order_total_witness :
  NextResponse.status
    (fst (Checkout.POST Sample.checkout_env Sample.cart_request Sample.shop))
  = 200 /\
  prices_non_negative (products (store Sample.shop)) /\
  exists user cart lineItems session o,
    getUser Sample.checkout_env = Some user /\
    CheckoutRequest.cart_items Sample.cart_request = Some cart /\
    Forall2 (line_for (products (store Sample.shop))) cart lineItems /\
    sessions_create Sample.checkout_env
      (SessionParams.mk lineItems (User.email user) (Order.id o) (User.id user))
    = inr session /\
    NextResponse.body
      (fst (Checkout.POST Sample.checkout_env Sample.cart_request Sample.shop))
    = json_checkout (Session.id session) (Session.url session) /\
    orders (store (snd (Checkout.POST Sample.checkout_env Sample.cart_request
                                      Sample.shop)))
    = orders (store Sample.shop) ++ [o] /\
    lines_total lineItems = Order.total_amount o.
Proof.
  assert (prices_non_negative (products (store Sample.shop))) as Hcat
      by (repeat constructor; discriminate).
  split; [reflexivity|]. split; [exact Hcat|].
  destruct (@successful_checkout_asks_for_the_order_total
              Sample.checkout_env Sample.cart_request Sample.shop eq_refl)
    as (user & cart & lineItems & session & o
        & U & C & Hlines & Hs & Hbody & Ho & Hsum).
  exists user, cart, lineItems, session, o.
  split; [exact U|]. split; [exact C|]. split; [exact Hlines|].
  split; [exact Hs|]. split; [exact Hbody|]. split; [exact Ho|].
  exact (Hsum Hcat).
Defined.

(** X11.  The order row that a successful checkout leaves: it has the
    identifier the store generated, belongs to the authenticated user,
    carries the user's email and the validated shipping address, is
    pending, has no payment intent, and has the session id of the response
    as its checkout-session reference when the last update succeeded (and
    none when that update failed, which the response does not show). *)
Theorem successful_checkout_order_row :
  forall (env : Env) (request : CheckoutRequest.t) (w : World),
    NextResponse.status (fst (Checkout.POST env request w)) = 200 ->
    exists user addr o session_id url,
      getUser env = Some user /\
      shippingAddressSchema_parse (CheckoutRequest.shipping_address request)
      = inr addr /\
      NextResponse.body (fst (Checkout.POST env request w))
      = json_checkout session_id url /\
      orders (store (snd (Checkout.POST env request w)))
      = orders (store w) ++ [o] /\
      Order.id o = uuid_generate_v4 env /\
      Order.user_id o = Some (User.id user) /\
      User.email user = Some (Order.email o) /\
      Order.status o = pending /\
      Order.stripe_payment_intent o = None /\
      Order.shipping_address o = addr /\
      Order.stripe_session_id o =
      match db_error env (orders_update_eq_id
                            (mkPatch None (Some session_id) None)
                            (uuid_generate_v4 env)) with
      | None => Some session_id
      | Some _ => None
      end.
Proof.
  intros env request w Hok.
  destruct (POST_success env request w Hok)
    as (user & addr & cart & rows & lineItems & total & email & session
        & U & P & C & Hne & Hrows & Hlines & Htotal & Hfits & Hrange
        & Hemail & Fresh & Hs & ->).
  exists user, addr, (final_order env user email addr total session),
    (Session.id session), (Session.url session).
  cbn [fst snd store orders with_order NextResponse.body NextResponse.json].
  unfold final_order, session_patch. cbv zeta.
  destruct (db_error env _); repeat split; auto.
Qed.

Lemma successful_checkout_order_row_witness :
  NextResponse.status
    (fst (Checkout.POST Sample.checkout_env Sample.cart_request Sample.shop))
  = 200 /\
  map Order.stripe_session_id
      (orders (store (snd (Checkout.POST Sample.checkout_env
                                         Sample.cart_request Sample.shop))))
  = [Some "cs_1"; Some "cs_1"] /\
  exists user addr o session_id url,
    getUser Sample.checkout_env = Some user /\
    shippingAddressSchema_parse
      (CheckoutRequest.shipping_address Sample.cart_request) = inr addr /\
    NextResponse.body
      (fst (Checkout.POST Sample.checkout_env Sample.cart_request Sample.shop))
    = json_checkout session_id url /\
    orders (store (snd (Checkout.POST Sample.checkout_env Sample.cart_request
                                      Sample.shop)))
    = orders (store Sample.shop) ++ [o] /\
    Order.id o = uuid_generate_v4 Sample.checkout_env /\
    Order.user_id o = Some (User.id user) /\
    User.email user = Some (Order.email o) /\
    Order.status o = pending /\
    Order.stripe_payment_intent o = None /\
    Order.shipping_address o = addr /\
    Order.stripe_session_id o =
    match db_error Sample.checkout_env
                   (orders_update_eq_id (mkPatch None (Some session_id) None)
                                        (uuid_generate_v4 Sample.checkout_env))
    with
    | None => Some session_id
    | Some _ => None
    end.
Proof.
  split; [reflexivity|]. split; [reflexivity|].
  exact (@successful_checkout_order_row
           Sample.checkout_env Sample.cart_request Sample.shop eq_refl).
Defined.



(** X13.  A user whose account has no email cannot check out: the
    order insert is refused by [email TEXT NOT NULL], so the request never
    succeeds and no order and no order item is written. *)
Theorem user_without_email_cannot_check_out :
  forall (env : Env) (request : CheckoutRequest.t) (w : World) (user : User.t),
    getUser env = Some user ->
    User.email user = None ->
    NextResponse.status (fst (Checkout.POST env request w)) <> 200 /\
    store (snd (Checkout.POST env request w)) = store w.
Proof.
  intros env request w user U Hnone.
  pose proof (POST_checked env request w) as H.
  destruct (Checkout.POST env request w) as [r w']. cbn [fst snd] in *.
  inversion H as [ | | | user0 addr cart e w0 U0 P C Hne Hp
                   | user0 addr cart r0 w0 U0 P C Hne Hp]; subst;
    try (split; [cbn; discriminate | reflexivity]);
    rewrite U in U0; inversion U0; subst user0;
    inversion Hp; subst; try congruence;
    (split; [cbn; discriminate | reflexivity]).
Qed.

Lemma user_without_email_cannot_check_out_witness :
  getUser Further.env_user_without_email = Some (User.mk "user-2" None) /\
  store (snd (Checkout.POST Further.env_user_without_email Sample.cart_request
                            Sample.shop)) = store Sample.shop.
Proof.
  split; [reflexivity|].
  exact (proj2 (@user_without_email_cannot_check_out
                  Further.env_user_without_email Sample.cart_request
                  Sample.shop (User.mk "user-2" None) eq_refl eq_refl)).
Defined.

(** X14.  A cart whose total does not fit the [INTEGER] column
    [total_amount] cannot be ordered, when the prices and quantities of
    its lines are not negative and at most [2 ^ 53]: the handler's sum is
    then out of the column's range as well, the request ends in the 500
    failure and the store is left as it was. *)
Theorem total_out_of_range_is_refused :
  forall (env : Env) (request : CheckoutRequest.t) (w : World) (user : User.t)
         (cart : list CartLine.t) (rows : list OrderItem.t),
    getUser env = Some user ->
    CheckoutRequest.cart_items request = Some cart ->
    Forall2 (row_for (products (store w)) (uuid_generate_v4 env)) cart rows ->
    Forall plain_row rows ->
    Supabase.fits_int4 (rows_total rows) = false ->
    NextResponse.status (fst (Checkout.POST env request w)) = 500 /\
    store (snd (Checkout.POST env request w)) = store w.
Proof.
  intros env request w user cart rows U C Hrows Hplain Hbig.
  pose proof (POST_checked env request w) as H.
  destruct (Checkout.POST env request w) as [r w']. cbn [fst snd] in *.
  assert (forall rows' total,
             Forall2 (row_for (products (store w)) (uuid_generate_v4 env))
                     cart rows' ->
             double_total rows' = Int total ->
             Supabase.fits_int4 total = true -> False) as Hno.
  { intros rows' total Hrows' Htotal Hfit.
    rewrite (row_for_functional Hrows' Hrows) in Htotal.
    rewrite (large_total_computed Hplain Hbig Htotal) in Hfit.
    discriminate. }
  inversion H as [ U0 | user0 issues U0 P | user0 addr U0 P C0
                 | user0 addr cart0 e w0 U0 P C0 Hne Hp
                 | user0 addr cart0 r0 w0 U0 P C0 Hne Hp]; subst.
  - congruence.
  - now split.
  - exfalso. destruct C0 as [C0 | C0]; rewrite C in C0; [discriminate|].
    inversion C0; subst cart. inversion Hrows; subst.
    cbn in Hbig. discriminate.
  - rewrite C in C0. inversion C0; subst cart0.
    inversion Hp; subst; try (now split); exfalso; eapply Hno; eauto.
  - rewrite C in C0. inversion C0; subst cart0.
    inversion Hp; subst. exfalso; eapply Hno; eauto.
Qed.

Lemma total_out_of_range_is_refused_witness :
  Supabase.fits_int4 3000000000 = false /\
  NextResponse.status
    (fst (Checkout.POST Sample.checkout_env Further.huge_request Sample.shop))
  = 500 /\
  store (snd (Checkout.POST Sample.checkout_env Further.huge_request
                            Sample.shop)) = store Sample.shop.
Proof.
  split; [reflexivity|].
  refine (@total_out_of_range_is_refused
            Sample.checkout_env Further.huge_request Sample.shop Sample.user
            [CartLine.mk "prod-a" 3000000 None]
            [OrderItem.mk "order-2" "prod-a" "Midnight Oud" 1000 3000000]
            eq_refl eq_refl _ _ eq_refl).
  - constructor; [|constructor].
    exists Sample.productA. split; reflexivity.
  - constructor; [|constructor].
    unfold plain_row, exact_limit. cbn. lia.
Defined.

Lemma row_for_quantity (catalog : list Product.t) (order_id : string)
      (cart : list CartLine.t) (rows : list OrderItem.t) (item : CartLine.t) :
  Forall2 (row_for catalog order_id) cart rows ->
  In item cart ->
  exists row, In row rows /\ OrderItem.quantity row = CartLine.quantity item.
Proof.
  induction 1 as [|i r cart rows (product & _ & ->) _ IH]; intros Hin.
  - destruct Hin.
  - destruct Hin as [<- | Hin].
    + eexists. split; [now left | reflexivity].
    + destruct (IH Hin) as (row & Hr & Hq). exists row. split; [now right|auto].
Qed.

(** X15.  A cart line whose quantity is zero or negative never gives a
    successful checkout and never gives order items: the batch insert is
    refused by [CHECK (quantity > 0)] for the whole cart. *)
Theorem non_positive_quantity_is_refused :
  forall (env : Env) (request : CheckoutRequest.t) (w : World)
         (cart : list CartLine.t) (item : CartLine.t),
    CheckoutRequest.cart_items request = Some cart ->
    In item cart ->
    CartLine.quantity item <= 0 ->
    NextResponse.status (fst (Checkout.POST env request w)) <> 200 /\
    order_items (store (snd (Checkout.POST env request w)))
    = order_items (store w).
Proof.
  intros env request w cart item C Hin Hq.
  pose proof (POST_checked env request w) as H.
  destruct (Checkout.POST env request w) as [r w']. cbn [fst snd] in *.
  assert (forall rows,
             Forall2 (row_for (products (store w)) (uuid_generate_v4 env))
                     cart rows ->
             forallb Supabase.order_item_ok rows = true -> False) as Hno.
  { intros rows Hrows Hok.
    destruct (@row_for_quantity _ _ _ _ item Hrows Hin) as (row & Hr & Hrq).
    rewrite forallb_forall in Hok. specialize (Hok row Hr).
    unfold Supabase.order_item_ok in Hok.
    apply andb_true_iff in Hok as [Hok _].
    apply andb_true_iff in Hok as [Hpos _].
    apply Z.ltb_lt in Hpos. lia. }
  inversion H as [ | | | user0 addr cart0 e w0 U0 P C0 Hne Hp
                   | user0 addr cart0 r0 w0 U0 P C0 Hne Hp]; subst;
    try (split; [cbn; discriminate | reflexivity]).
  - rewrite C in C0. inversion C0; subst cart0.
    inversion Hp; subst;
      try (split; [cbn; discriminate | reflexivity]).
    exfalso; eapply Hno; eauto.
  - rewrite C in C0. inversion C0; subst cart0.
    inversion Hp; subst. exfalso; eapply Hno; eauto.
Qed.

Lemma non_positive_quantity_is_refused_witness :
  CartLine.quantity (CartLine.mk "prod-a" 0 None) <= 0 /\
  NextResponse.status
    (fst (Checkout.POST Sample.checkout_env Sample.zero_quantity_request
                        Sample.shop)) <> 200 /\
  order_items (store (snd (Checkout.POST Sample.checkout_env
                                         Sample.zero_quantity_request
                                         Sample.shop)))
  = order_items (store Sample.shop).
Proof.
  split; [cbn; lia|].
  refine (@non_positive_quantity_is_refused
            Sample.checkout_env Sample.zero_quantity_request Sample.shop
            [CartLine.mk "prod-a" 0 None] (CartLine.mk "prod-a" 0 None)
            eq_refl (or_introl eq_refl) _).
  cbn; lia.
Defined.

(** X16.  The store calls of a checkout are, in this order, the
    catalogue lookup for the product ids of the cart, the order insert
    for the user with the total that the handler computed for the rows of
    the cart, the batch insert of these rows and the update that records
    the session the payment processor returned.  A request that is
    rejected before the lookup (no user, an invalid address, no cart or
    an empty one) makes no call; one that fails later has made the first
    one, two or three of the calls and ends in the 500 failure; and all
    four are made only when the processor has opened a session, whose id
    and url are then the 200 response. *)
Theorem checkout_calls_in_order :
  forall (env : Env) (request : CheckoutRequest.t) (w : World),
    (log (snd (Checkout.POST env request w)) = log w /\
     (getUser env = None \/
      (exists e,
          shippingAddressSchema_parse (CheckoutRequest.shipping_address request)
          = inl e) \/
      CheckoutRequest.cart_items request = None \/
      CheckoutRequest.cart_items request = Some []))
    \/
    exists user addr cart,
      getUser env = Some user /\
      shippingAddressSchema_parse (CheckoutRequest.shipping_address request)
      = inr addr /\
      CheckoutRequest.cart_items request = Some cart /\
      cart <> [] /\
      ((log (snd (Checkout.POST env request w)) = log w ++ [select_call cart] /\
        NextResponse.status (fst (Checkout.POST env request w)) = 500)
       \/
       exists rows,
         Forall2 (row_for (products (store w)) (uuid_generate_v4 env))
                 cart rows /\
         ((log (snd (Checkout.POST env request w))
           = log w ++ [select_call cart; insert_call user rows] /\
           NextResponse.status (fst (Checkout.POST env request w)) = 500)
          \/
          (log (snd (Checkout.POST env request w))
           = log w ++ [select_call cart; insert_call user rows;
                       order_items_insert rows] /\
           NextResponse.status (fst (Checkout.POST env request w)) = 500)
          \/
          exists lineItems session,
            Forall2 (line_for (products (store w))) cart lineItems /\
            sessions_create env
              (SessionParams.mk lineItems (User.email user)
                                (uuid_generate_v4 env) (User.id user))
            = inr session /\
            fst (Checkout.POST env request w)
            = NextResponse.json
                (json_checkout (Session.id session) (Session.url session))
                200 /\
            log (snd (Checkout.POST env request w))
            = log w ++ checkout_calls env user cart rows session)).
Proof.
  intros env request w.
  destruct (Z.eq_dec (NextResponse.status (fst (Checkout.POST env request w)))
                     200) as [Hok | Hnot].
  { destruct (POST_success env request w Hok)
      as (user & addr & cart & rows & lineItems & total & email
          & session & U & P & C & Hne & Hrows & Hlines & _ & _ & _ & _
          & _ & Hcreate & ->).
    right. exists user, addr, cart.
    split; [exact U|]. split; [exact P|]. split; [exact C|].
    split; [exact Hne|].
    right. exists rows. split; [exact Hrows|]. right; right.
    exists lineItems, session.
    split; [exact Hlines|]. split; [exact Hcreate|].
    split; reflexivity. }
  pose proof (POST_checked env request w) as H.
  destruct (Checkout.POST env request w) as [r w']. cbn [fst snd] in *.
  inversion H as [ U | user issues U P | user addr U P C
                 | user addr cart e w0 U P C Hne Hp
                 | user addr cart r0 w0 U P C Hne Hp]; subst.
  - left. split; [reflexivity|]. now left.
  - left. split; [reflexivity|]. right; left. eexists. exact P.
  - left. split; [reflexivity|]. right; right. exact C.
  - right. exists user, addr, cart.
    split; [exact U|]. split; [exact P|]. split; [exact C|].
    split; [exact Hne|].
    inversion Hp; subst; cbn [log NextResponse.status NextResponse.json].
    + left. split; reflexivity.
    + left. split; reflexivity.
    + right. exists rows. split; [assumption|]. left. split; reflexivity.
    + right. exists rows. split; [assumption|]. right; left.
      split; reflexivity.
    + right. exists rows. split; [assumption|]. right; left.
      split; reflexivity.
  - inversion Hp; subst. now contradiction Hnot.
Qed.

Example checkout_calls_in_order_example :
  log (snd (Checkout.POST Sample.checkout_env Sample.cart_request Sample.shop))
  = [products_select_in ["prod-a"; "prod-b"];
     orders_insert "user-1" (Int 4500);
     order_items_insert
       [OrderItem.mk "order-2" "prod-a" "Midnight Oud" 1000 2;
        OrderItem.mk "order-2" "prod-b" "Citrus Dawn" 2500 1];
     orders_update_eq_id (mkPatch None (Some "cs_1") None) "order-2"].
Proof. reflexivity. Qed.

(** X17.  A well-formed checkout succeeds.  When the user is
    authenticated and has an email, the address validates, the cart is not
    empty, every line is in the catalogue with a positive quantity and a
    price that is not negative, the quantities, prices and total fit
    [INTEGER], the generated identifier is new, the store answers the four
    calls and the payment processor opens a session, the response is the
    200 success with the id and url of that session, and the store has
    gained exactly the order, with the exact total, and its items. *)
Theorem well_formed_checkout_succeeds :
  forall (env : Env) (request : CheckoutRequest.t) (w : World)
         (user : User.t) (email : string) (addr : ShippingAddress.t)
         (cart : list CartLine.t) (rows : list OrderItem.t)
         (lineItems : list LineItem.t) (session : Session.t),
    getUser env = Some user ->
    User.email user = Some email ->
    shippingAddressSchema_parse (CheckoutRequest.shipping_address request)
    = inr addr ->
    CheckoutRequest.cart_items request = Some cart ->
    cart <> [] ->
    Forall2 (row_for (products (store w)) (uuid_generate_v4 env)) cart rows ->
    Forall2 (line_for (products (store w))) cart lineItems ->
    Forall (fun r => 0 <= OrderItem.product_price r) rows ->
    forallb Supabase.order_item_ok rows = true ->
    Supabase.fits_int4 (rows_total rows) = true ->
    existsb (fun o => String.eqb (Order.id o) (uuid_generate_v4 env))
            (orders (store w)) = false ->
    db_error env (select_call cart) = None ->
    db_error env (insert_call user rows) = None ->
    db_error env (order_items_insert rows) = None ->
    sessions_create env
      (SessionParams.mk lineItems (User.email user) (uuid_generate_v4 env)
                        (User.id user)) = inr session ->
    Checkout.POST env request w =
    (NextResponse.json
       (json_checkout (Session.id session) (Session.url session)) 200,
     mkWorld (with_order (final_order env user email addr (rows_total rows)
                                      session)
                         rows (store w))
             (log w ++ checkout_calls env user cart rows session)).
Proof.
  intros env request w user email addr cart rows lineItems session
         U Hemail P C Hne Hrows Hlines Hpos Hrange Hfits Fresh Dsel Dins Dit Hs.
  pose proof (exact_total_computed (accepted_rows_plain Hpos Hrange) Hfits)
    as Hexact.
  unfold Checkout.POST, Checkout.try_block. rewrite U, P.
  erewrite bind_run by reflexivity. rewrite C.
  destruct cart as [|item0 cart0]; [contradiction|].
  set (cart := item0 :: cart0) in *.
  unfold Checkout.place_order.
  erewrite bind_run
    by (unfold Supabase.products_in; fold (select_call cart);
        rewrite Dsel; reflexivity).
  erewrite bind_run by reflexivity.
  cbn [Supabase.data Supabase.succeeded].
  pose proof (agree_selection (products (store w)) cart) as Hag.
  set (ps := Some (filter _ (products (store w)))) in *.
  destruct (lineItems_for Hag Hrows) as (lineItems' & Hlines' & Hrun).
  assert (lineItems' = lineItems) as ->.
  { clear - Hlines Hlines'. revert lineItems' Hlines'.
    induction Hlines as [|i l c ls (p & R & ->) _ IH]; intros ls' H'.
    - now inversion H'.
    - inversion H' as [|? l' ? ls'' (p' & R' & ->) Hr']; subst.
      rewrite R in R'. inversion R'; subst p'. now rewrite (IH _ Hr'). }
  erewrite bind_run by apply Hrun.
  erewrite bind_run by (apply (total_run Hag Hrows)).
  fold (double_total rows).
  erewrite bind_run
    by (rewrite Hemail;
        apply (@orders_insert_accepts
                 env _ _ _ _ _ _ (Supabase.logged (select_call cart) w)
                 Dins Hexact Hfits Fresh)).
  erewrite bind_run by reflexivity.
  cbn [Supabase.data Supabase.succeeded].
  set (o := Supabase.new_order env (User.id user) email (rows_total rows)
                               pending addr) in *.
  erewrite bind_run by (apply (orderItems_run o _ Hag Hrows)).
  erewrite bind_run
    by (unfold Supabase.order_items_insert_all; rewrite Dit, Hrange;
        reflexivity).
  erewrite bind_run by reflexivity.
  change (Order.id o) with (uuid_generate_v4 env).
  rewrite Hs.
  erewrite bind_run by reflexivity.
  match goal with
  | |- context [bind (Supabase.orders_update ?e ?p ?i) _ ?w3] =>
      destruct (orders_update_run e p i w3) as [a Hup]
  end.
  erewrite bind_run by exact Hup.
  unfold ret, Supabase.logged, Supabase.with_order_items, Supabase.with_orders.
  cbn [store log products orders order_items cart_items].
  rewrite <- !app_assoc. cbn [app].
  change (mkStore (products (store w)) (orders (store w) ++ [o])
                  (order_items (store w) ++ rows)
                  (cart_items (store w)))
    with (with_order o rows (store w)).
  fold (session_patch session).
  change (uuid_generate_v4 env) with (Order.id o) at 1.
  rewrite update_effect_new by exact Fresh.
  reflexivity.
Qed.

Lemma well_formed_checkout_succeeds_witness :
  getUser Sample.checkout_env = Some Sample.user /\
  shippingAddressSchema_parse
    (CheckoutRequest.shipping_address Sample.cart_request)
  = inr Sample.address /\
  NextResponse.status
    (fst (Checkout.POST Sample.checkout_env Sample.cart_request Sample.shop))
  = 200.
Proof.
  split; [reflexivity|]. split; [reflexivity|].
  refine (f_equal (fun p => NextResponse.status (fst p))
            (@well_formed_checkout_succeeds
               Sample.checkout_env Sample.cart_request Sample.shop
               Sample.user "ada@example.org" Sample.address
               [CartLine.mk "prod-a" 2 (Some 1); CartLine.mk "prod-b" 1 None]
               [OrderItem.mk "order-2" "prod-a" "Midnight Oud" 1000 2;
                OrderItem.mk "order-2" "prod-b" "Citrus Dawn" 2500 1]
               [LineItem.mk "usd" "Midnight Oud" "A rich, woody fragrance"
                            ["a.png"] 1000 2;
                LineItem.mk "usd" "Citrus Dawn" "Fresh and invigorating"
                            ["b.png"] 2500 1]
               (Session.mk "cs_1" "https://pay.example/cs_1")
               eq_refl eq_refl eq_refl eq_refl _ _ _ _
               eq_refl eq_refl eq_refl eq_refl eq_refl eq_refl eq_refl)).
  - discriminate.
  - constructor; [|constructor; [|constructor]].
    + exists Sample.productA. split; reflexivity.
    + exists Sample.productB. split; reflexivity.
  - constructor; [|constructor; [|constructor]].
    + exists Sample.productA. split; reflexivity.
    + exists Sample.productB. split; reflexivity.
  - repeat constructor; discriminate.
Defined.

(** X18.  Checkout and webhook fit together.  After a successful
    checkout, the delivery of the "checkout.session.completed" event that
    carries the metadata the checkout attached (the new order's id and the
    user's id), with the store calls succeeding, turns exactly that order
    from pending to completed with its total unchanged, records the
    payment intent, leaves the order items as the checkout wrote them, and
    removes exactly the cart rows of that user. *)
Theorem checkout_then_completion :
  forall (env env' : Env) (request : CheckoutRequest.t)
         (delivery : WebhookRequest.t) (w : World) (user : User.t)
         (signature : string) (event : Event.t),
    NextResponse.status (fst (Checkout.POST env request w)) = 200 ->
    getUser env = Some user ->
    uuid_generate_v4 env <> EmptyString ->
    User.id user <> EmptyString ->
    truthy (WebhookRequest.stripe_signature delivery) = Some signature ->
    constructEvent env' (WebhookRequest.body delivery) signature
                   (STRIPE_WEBHOOK_SECRET env') = inr event ->
    Event.type event = "checkout.session.completed" ->
    EventObject.metadata (Event.object event)
    = Some (Metadata.mk (Some (uuid_generate_v4 env)) (Some (User.id user))) ->
    no_db_error env' ->
    exists o1 o2,
      orders (store (snd (Checkout.POST env request w)))
      = orders (store w) ++ [o1] /\
      orders (store (snd (Webhook.POST env' delivery
                                       (snd (Checkout.POST env request w)))))
      = orders (store w) ++ [o2] /\
      Order.status o1 = pending /\
      Order.status o2 = completed /\
      same_fixed_columns o1 o2 /\
      Order.stripe_payment_intent o2
      = EventObject.payment_intent (Event.object event) /\
      order_items (store (snd (Webhook.POST env' delivery
                                            (snd (Checkout.POST env request w)))))
      = order_items (store (snd (Checkout.POST env request w))) /\
      forall c,
        In c (cart_items
                (store (snd (Webhook.POST env' delivery
                                          (snd (Checkout.POST env request w))))))
        <-> In c (cart_items (store w)) /\
            CartItem.user_id c <> Some (User.id user).
Proof.
  intros env env' request delivery w user signature event
         Hok U Hid Huid Hsig Hev Hty Hmeta Hdb.
  destruct (POST_success env request w Hok)
    as (user0 & addr & cart & rows & lineItems & total & email & session
        & U0 & P & C & Hne & Hrows & Hlines & Htotal & Hfits & Hrange
        & Hemail & Fresh & Hs & ->).
  rewrite U in U0. inversion U0; subst user0. clear U0.
  assert (signed_as env' delivery event) as S by (exists signature; now split).
  rewrite (POST_accepted _ S). cbn [snd store].
  rewrite dispatch_effect_completed by exact Hty.
  set (o1 := final_order env user email addr total session).
  assert (Order.id o1 = uuid_generate_v4 env /\ Order.status o1 = pending)
    as [Ho1 Hst1]
      by (unfold o1, final_order; cbv zeta; destruct (db_error env _);
          now split).
  assert (forall s, s <> EmptyString -> truthy (Some s) = Some s) as Htruthy.
  { intros s Hs'. cbn. destruct (String.eqb s EmptyString) eqn:E;
      [apply String.eqb_eq in E; contradiction | reflexivity]. }
  unfold completed_effect, Webhook.metadata_order_id, Webhook.metadata_user_id.
  rewrite Hmeta. cbn [Metadata.order_id Metadata.user_id].
  rewrite (Htruthy _ Hid), (Htruthy _ Huid). cbv zeta.
  assert (update_effect env' (Webhook.completed_patch (Event.object event))
                        (uuid_generate_v4 env) (with_order o1 rows (store w))
          = with_order (Supabase.apply_patch
                          env' (Webhook.completed_patch (Event.object event)) o1)
                       rows (store w)) as ->.
  { rewrite <- Ho1 in Fresh |- *.
    rewrite update_effect_new by exact Fresh. now rewrite Hdb. }
  unfold delete_effect. rewrite Hdb.
  cbn [with_order Supabase.with_cart_items orders order_items cart_items
       products].
  exists o1, (Supabase.apply_patch env' (Webhook.completed_patch
                                           (Event.object event)) o1).
  split; [reflexivity|]. split; [reflexivity|]. split; [exact Hst1|].
  split; [reflexivity|]. split; [now apply apply_patch_fixed|].
  split; [reflexivity|]. split; [reflexivity|].
  intros c. split.
  - intros Hin. apply filter_In in Hin as [Hin Hf]. split; [exact Hin|].
    intros Hc. rewrite Hc in Hf. cbn in Hf.
    now rewrite String.eqb_refl in Hf.
  - intros [Hin Hne']. apply filter_In. split; [exact Hin|].
    destruct (CartItem.user_id c) as [u|]; cbn; [|reflexivity].
    destruct (String.eqb u (User.id user)) eqn:E; [|reflexivity].
    apply String.eqb_eq in E. subst u. now contradiction Hne'.
Qed.

Lemma checkout_then_completion_witness :
  NextResponse.status
    (fst (Checkout.POST Sample.checkout_env Sample.cart_request Sample.shop))
  = 200 /\
  map Order.status
      (orders (store (snd (Webhook.POST
                             (Sample.env_at 200 Further.completion_of_checkout)
                             Sample.signed_request
                             (snd (Checkout.POST Sample.checkout_env
                                                 Sample.cart_request
                                                 Sample.shop))))))
  = [completed; completed] /\
  exists o1 o2,
    orders (store (snd (Checkout.POST Sample.checkout_env Sample.cart_request
                                      Sample.shop)))
    = orders (store Sample.shop) ++ [o1] /\
    orders (store (snd (Webhook.POST
                          (Sample.env_at 200 Further.completion_of_checkout)
                          Sample.signed_request
                          (snd (Checkout.POST Sample.checkout_env
                                              Sample.cart_request Sample.shop)))))
    = orders (store Sample.shop) ++ [o2] /\
    Order.status o1 = pending /\
    Order.status o2 = completed.
Proof.
  split; [reflexivity|]. split; [reflexivity|].
  assert (uuid_generate_v4 Sample.checkout_env <> EmptyString) as H1
      by (cbn; discriminate).
  assert (User.id Sample.user <> EmptyString) as H2 by (cbn; discriminate).
  assert (no_db_error (Sample.env_at 200 Further.completion_of_checkout)) as H3
      by (intros op; reflexivity).
  destruct (@checkout_then_completion
              Sample.checkout_env
              (Sample.env_at 200 Further.completion_of_checkout)
              Sample.cart_request Sample.signed_request Sample.shop Sample.user
              "sig-ok" Further.completion_of_checkout
              eq_refl eq_refl H1 H2 eq_refl eq_refl eq_refl eq_refl H3)
    as (o1 & o2 & E1 & E2 & S1 & S2 & _).
  exists o1, o2. repeat split; assumption.
Defined.

(* ===================================================================== *)
(** ** [shippingAddressSchema]                                            *)
(* ===================================================================== *)

Lemma z_string_min1_inr (path : string) (v : JsField) (s : string) :
  z_string_min1 path v = inr s <-> v = JString s /\ nonempty s = true.
Proof.
  unfold z_string_min1, nonempty. split.
  - destruct v as [|s0|]; try discriminate.
    destruct (String.eqb s0 EmptyString) eqn:E; [discriminate|].
    intros H. inversion H; subst. now rewrite E.
  - intros [-> H]. destruct (String.eqb s EmptyString); [discriminate|reflexivity].
Qed.

Lemma z_string_optional_inr (path : string) (v : JsField) (o : option string) :
  z_string_optional path v = inr o <-> v = optional_field o.
Proof.
  unfold z_string_optional, optional_field. split.
  - destruct v; intros H; inversion H; reflexivity.
  - intros ->. now destruct o.
Qed.

Lemma parse_inr (a : RawAddress.t) (addr : ShippingAddress.t) :
  shippingAddressSchema_parse (Some a) = inr addr ->
  z_string_min1 "full_name" (RawAddress.full_name a)
  = inr (ShippingAddress.full_name addr) /\
  z_string_min1 "address_line1" (RawAddress.address_line1 a)
  = inr (ShippingAddress.address_line1 addr) /\
  z_string_optional "address_line2" (RawAddress.address_line2 a)
  = inr (ShippingAddress.address_line2 addr) /\
  z_string_min1 "city" (RawAddress.city a) = inr (ShippingAddress.city addr) /\
  z_string_min1 "state" (RawAddress.state a)
  = inr (ShippingAddress.state addr) /\
  z_string_min1 "postal_code" (RawAddress.postal_code a)
  = inr (ShippingAddress.postal_code addr) /\
  z_string_min1 "country" (RawAddress.country a)
  = inr (ShippingAddress.country addr) /\
  z_string_optional "phone" (RawAddress.phone a)
  = inr (ShippingAddress.phone addr).
Proof.
  unfold shippingAddressSchema_parse. cbv zeta.
  destruct (z_string_min1 "full_name" _), (z_string_min1 "address_line1" _),
    (z_string_optional "address_line2" _), (z_string_min1 "city" _),
    (z_string_min1 "state" _), (z_string_min1 "postal_code" _),
    (z_string_min1 "country" _), (z_string_optional "phone" _);
    intros H; inversion H; subst; cbn; repeat split.
Qed.

Lemma parse_accepts_nothing_else (x : option RawAddress.t)
      (addr : ShippingAddress.t) :
  shippingAddressSchema_parse x = inr addr ->
  required_present addr = true /\ x = Some (raw_of addr).
Proof.
  destruct x as [a|]; [|discriminate]. intros H.
  destruct (@parse_inr _ _ H) as (H1 & H2 & H3 & H4 & H5 & H6 & H7 & H8).
  apply z_string_min1_inr in H1 as [E1 N1], H2 as [E2 N2], H4 as [E4 N4],
    H5 as [E5 N5], H6 as [E6 N6], H7 as [E7 N7].
  apply z_string_optional_inr in H3, H8.
  split.
  - unfold required_present. now rewrite N1, N2, N4, N5, N6, N7.
  - destruct a; cbn in *; subst. reflexivity.
Qed.

(** X19.  [shippingAddressSchema.parse] accepts exactly the objects
    whose six required fields are non-empty strings and whose two optional
    fields are strings or absent, and returns their content unchanged:
    parsing gives [addr] if and only if the input is the JSON object of
    [addr] and the required fields of [addr] are not empty.  In
    particular a validated address parses to itself. *)
Theorem parse_accepts_exactly_complete_addresses :
  forall (x : option RawAddress.t) (addr : ShippingAddress.t),
    shippingAddressSchema_parse x = inr addr <->
    x = Some (raw_of addr) /\ required_present addr = true.
Proof.
  intros x addr. split.
  - intros H. destruct (parse_accepts_nothing_else _ H) as [Hreq Hx].
    now split.
  - intros [-> H]. unfold required_present in H.
    repeat (apply andb_true_iff in H as [H ?]).
    unfold shippingAddressSchema_parse, raw_of. cbv zeta.
    cbn [RawAddress.full_name RawAddress.address_line1 RawAddress.address_line2
         RawAddress.city RawAddress.state RawAddress.postal_code
         RawAddress.country RawAddress.phone].
    rewrite !(proj2 (z_string_min1_inr _ _ _)) by (split; [reflexivity|assumption]).
    rewrite !(proj2 (z_string_optional_inr _ _ _)) by reflexivity.
    now destruct addr.
Qed.

(** X20.  An order row added by a checkout, whether the checkout then
    succeeds or fails, carries the address that validation returned: its
    six required fields are not empty. *)
Theorem new_order_has_a_complete_address :
  forall (env : Env) (request : CheckoutRequest.t) (w : World) (o : Order.t),
    orders (store (snd (Checkout.POST env request w))) = orders (store w) ++ [o] ->
    shippingAddressSchema_parse (CheckoutRequest.shipping_address request)
    = inr (Order.shipping_address o) /\
    required_present (Order.shipping_address o) = true.
Proof.
  intros env request w o Ho.
  assert (shippingAddressSchema_parse (CheckoutRequest.shipping_address request)
          = inr (Order.shipping_address o)) as P0;
    [|split; [exact P0|];
      now apply (parse_accepts_nothing_else _ P0)].
  pose proof (POST_checked env request w) as H.
  destruct (Checkout.POST env request w) as [r w']. cbn [fst snd] in *.
  assert (forall l : list Order.t, l = l ++ [o] -> False) as Hlen.
  { intros l E. apply (f_equal (@length _)) in E.
    rewrite length_app in E. cbn in E. lia. }
  inversion H as [ | | | user addr cart e w0 U P C Hne Hp
                   | user addr cart r0 w0 U P C Hne Hp]; subst;
    try (exfalso; now apply (Hlen _ Ho)).
  - inversion Hp; subst; cbn in Ho;
      try (exfalso; now apply (Hlen _ Ho));
      apply app_inv_head in Ho; inversion Ho; subst o; exact P.
  - inversion Hp as [ | | | | | rows total email session o' D Hrows E Htotal Hfits
                                Hrange Ho'];
      subst. cbn in Ho. apply app_inv_head in Ho. inversion Ho; subst o'.
    destruct Ho' as [-> | ->]; exact P.
Qed.

Lemma new_order_has_a_complete_address_witness :
  orders (store (snd (Checkout.POST Further.env_processor_down
                                    Sample.cart_request Sample.shop)))
  = orders (store Sample.shop)
    ++ [Supabase.new_order Further.env_processor_down "user-1"
                           "ada@example.org" 4500 pending Sample.address] /\
  required_present Sample.address = true.
Proof.
  split; [reflexivity|].
  exact (proj2 (@new_order_has_a_complete_address
                  Further.env_processor_down Sample.cart_request Sample.shop
                  (Supabase.new_order Further.env_processor_down "user-1"
                                      "ada@example.org" 4500 pending
                                      Sample.address)
                  eq_refl)).
Defined.

(* ===================================================================== *)
(** ** The guest session identifier                                       *)
(* ===================================================================== *)

Lemma truthy_Some (x : option string) (s : string) :
  truthy x = Some s -> x = Some s /\ s <> EmptyString.
Proof.
  unfold truthy. destruct x as [s0|]; [|discriminate].
  destruct (String.eqb s0 EmptyString) eqn:E; [discriminate|].
  intros H. inversion H; subst. split; [reflexivity|].
  now apply String.eqb_neq.
Qed.

Lemma generated_is_truthy (e : Utils.Entropy) (b : Utils.Browser) :
  Utils.window b = true ->
  truthy (Some (Utils.generateSessionId e b))
  = Some (Utils.generateSessionId e b).
Proof. intros H. unfold Utils.generateSessionId. now rewrite H. Qed.

Lemma getSessionId_stored (e : Utils.Entropy) (b : Utils.Browser) :
  Utils.window b = true ->
  Utils.window (snd (Utils.getSessionId e b)) = true /\
  truthy (Utils.localStorage (snd (Utils.getSessionId e b)) "guest_session_id")
  = Some (fst (Utils.getSessionId e b)).
Proof.
  intros H. unfold Utils.getSessionId. rewrite H. cbn [negb].
  destruct (truthy (Utils.localStorage b "guest_session_id")) as [s|] eqn:T.
  - now split.
  - cbn [fst snd Utils.window Utils.localStorage]. split; [reflexivity|].
    unfold Utils.setItem. rewrite String.eqb_refl.
    now apply generated_is_truthy.
Qed.

(** X21.  In the browser the guest session identifier is stable: once
    [getSessionId] has been called, every later call returns the same
    identifier, whatever the time and the random draw, and leaves the
    browser storage as it is. *)
Theorem session_id_is_stable :
  forall (e e' : Utils.Entropy) (b : Utils.Browser),
    Utils.window b = true ->
    Utils.getSessionId e' (snd (Utils.getSessionId e b))
    = (fst (Utils.getSessionId e b), snd (Utils.getSessionId e b)).
Proof.
  intros e e' b H.
  destruct (getSessionId_stored e b H) as [Hw Hs].
  unfold Utils.getSessionId at 1. now rewrite Hw, Hs.
Qed.

Lemma session_id_is_stable_witness :
  Utils.window Furthermore.browser = true /\
  fst (Utils.getSessionId (Utils.mkEntropy "1800000000000" "zzzzzzzzz")
                          (snd (Utils.getSessionId Furthermore.entropy
                                                   Furthermore.browser)))
  = "session_1700000000000_k3j9x0q1z".
Proof.
  split; [reflexivity|].
  exact (f_equal fst
           (@session_id_is_stable Furthermore.entropy
              (Utils.mkEntropy "1800000000000" "zzzzzzzzz")
              Furthermore.browser eq_refl)).
Defined.

(** X22.  In the browser [getSessionId] never returns the empty string,
    what it returns is what the storage holds under [guest_session_id]
    afterwards, and no other key of the storage is changed; a stored empty
    string counts as absent and is replaced. *)
Theorem session_id_is_stored_and_not_empty :
  forall (e : Utils.Entropy) (b : Utils.Browser),
    Utils.window b = true ->
    fst (Utils.getSessionId e b) <> EmptyString /\
    Utils.localStorage (snd (Utils.getSessionId e b)) "guest_session_id"
    = Some (fst (Utils.getSessionId e b)) /\
    forall key,
      key <> "guest_session_id" ->
      Utils.localStorage (snd (Utils.getSessionId e b)) key
      = Utils.localStorage b key.
Proof.
  intros e b H.
  destruct (getSessionId_stored e b H) as [_ Hs].
  apply truthy_Some in Hs as [Hs Hne].
  split; [exact Hne|]. split; [exact Hs|].
  intros key Hkey. unfold Utils.getSessionId. rewrite H. cbn [negb].
  destruct (truthy (Utils.localStorage b "guest_session_id")); [reflexivity|].
  cbn [snd Utils.localStorage]. unfold Utils.setItem.
  apply String.eqb_neq in Hkey. now rewrite Hkey.
Qed.

Lemma session_id_is_stored_and_not_empty_witness :
  Utils.window
    (Utils.mkBrowser true (fun k => if String.eqb k "guest_session_id"
                                    then Some EmptyString else None)) = true /\
  fst (Utils.getSessionId
         Furthermore.entropy
         (Utils.mkBrowser true (fun k => if String.eqb k "guest_session_id"
                                         then Some EmptyString else None)))
  <> EmptyString.
Proof.
  split; [reflexivity|].
  exact (proj1 (@session_id_is_stored_and_not_empty
                  Furthermore.entropy
                  (Utils.mkBrowser true
                     (fun k => if String.eqb k "guest_session_id"
                               then Some EmptyString else None))
                  eq_refl)).
Defined.



(* ===================================================================== *)
(** ** The cart badge                                                     *)
(* ===================================================================== *)

Lemma filter_filter_implied {A : Type} (f g : A -> bool) (l : list A) :
  (forall x, f x = true -> g x = true) ->
  filter f (filter g l) = filter f l.
Proof.
  intros Hfg. induction l as [|a l IH]; cbn; [reflexivity|].
  destruct (g a) eqn:G; cbn.
  - now rewrite IH.
  - destruct (f a) eqn:F; [|exact IH]. apply Hfg in F. congruence.
Qed.

Lemma cartCount_from (items : list CartItem.t) (start : Z) :
  fold_left (fun sum item => sum + CartItem.quantity item) items start
  = start + Navbar.cartCount (Some items).
Proof.
  unfold Navbar.cartCount. revert start.
  induction items as [|c items IH]; intros start; cbn [fold_left].
  - lia.
  - rewrite IH, (IH (0 + CartItem.quantity c)). lia.
Qed.

(** X24.  Under the constraint [CHECK (quantity > 0)] of [cart_items],
    the cart badge is never negative, counts at least one per row, and
    shows 0 exactly when the query returned no row. *)
Theorem cart_badge_is_zero_only_for_an_empty_cart :
  forall (items : list CartItem.t),
    Forall (fun c => 0 < CartItem.quantity c) items ->
    Z.of_nat (length items) <= Navbar.cartCount (Some items) /\
    (Navbar.cartCount (Some items) = 0 <-> items = []).
Proof.
  intros items Hpos.
  assert (Z.of_nat (length items) <= Navbar.cartCount (Some items)) as Hle.
  { induction Hpos as [|c items Hc _ IH]; [reflexivity|].
    unfold Navbar.cartCount in *. cbn [fold_left length].
    rewrite cartCount_from. unfold Navbar.cartCount. lia. }
  split; [exact Hle|]. split.
  - intros H0. destruct items as [|c items]; [reflexivity|].
    cbn [length] in Hle. lia.
  - intros ->. reflexivity.
Qed.

Lemma cart_badge_is_zero_only_for_an_empty_cart_witness :
  Forall (fun c => 0 < CartItem.quantity c)
         [Sample.cart_row "prod-a"; Furthermore.guest_row] /\
  Z.of_nat 2
  <= Navbar.cartCount (Some [Sample.cart_row "prod-a"; Furthermore.guest_row]).
Proof.
  assert (Forall (fun c => 0 < CartItem.quantity c)
                 [Sample.cart_row "prod-a"; Furthermore.guest_row]) as H
      by (repeat constructor).
  split; [exact H|].
  exact (proj1 (@cart_badge_is_zero_only_for_an_empty_cart
                  [Sample.cart_row "prod-a"; Furthermore.guest_row] H)).
Defined.

(** X25.  After the delivery of a "checkout.session.completed" event
    whose metadata carries an order_id and the id of the signed-in user,
    with the delete call succeeding, the cart query of that user returns no
    row and the badge shows 0. *)
Theorem cart_badge_is_zero_after_completion :
  forall (env : Env) (request : WebhookRequest.t) (w : World)
         (signature : string) (event : Event.t) (orderId : string)
         (user : User.t) (sessionId : string) (failed : bool),
    truthy (WebhookRequest.stripe_signature request) = Some signature ->
    constructEvent env (WebhookRequest.body request) signature
                   (STRIPE_WEBHOOK_SECRET env) = inr event ->
    Event.type event = "checkout.session.completed" ->
    truthy (Webhook.metadata_order_id (Event.object event)) = Some orderId ->
    truthy (Webhook.metadata_user_id (Event.object event))
    = Some (User.id user) ->
    db_error env (cart_items_delete_eq_user_id (User.id user)) = None ->
    Navbar.queryFn (Some user) sessionId failed
                   (store (snd (Webhook.POST env request w))) = [] /\
    Navbar.cartCount
      (Some (Navbar.queryFn (Some user) sessionId failed
                            (store (snd (Webhook.POST env request w))))) = 0.
Proof.
  intros env request w signature event orderId user sessionId failed
         Hsig Hev Hty Hid Hu Ddel.
  assert (Navbar.queryFn (Some user) sessionId failed
                         (store (snd (Webhook.POST env request w))) = []) as E;
    [|now rewrite E].
  assert (signed_as env request event) as S by (exists signature; now split).
  rewrite (POST_accepted w S). cbn [snd store].
  rewrite dispatch_effect_completed by exact Hty.
  unfold completed_effect. rewrite Hid, Hu. cbv zeta.
  unfold Navbar.queryFn. destruct failed; [reflexivity|].
  apply filter_none. intros c Hin.
  apply (delete_effect_clears _ _ _ Ddel) in Hin.
  destruct (CartItem.user_id c) as [owner|] eqn:O; cbn.
  - destruct (String.eqb owner (User.id user)) eqn:E.
    + apply String.eqb_eq in E. subst owner. contradiction.
    + apply andb_false_r.
  - apply andb_false_r.
Qed.

Lemma cart_badge_is_zero_after_completion_witness :
  Navbar.cartCount
    (Some (Navbar.queryFn (Some Sample.user) EmptyString false
                          (store Sample.before_delivery))) = 1 /\
  Navbar.cartCount
    (Some (Navbar.queryFn (Some Sample.user) EmptyString false
                          (store Sample.after_first_delivery))) = 0.
Proof.
  split; [reflexivity|].
  exact (proj2 (@cart_badge_is_zero_after_completion
                  (Sample.env_at 100 Sample.completed_event)
                  Sample.signed_request Sample.before_delivery "sig-ok"
                  Sample.completed_event "order-1" Sample.user EmptyString false
                  eq_refl eq_refl eq_refl eq_refl eq_refl eq_refl)).
Defined.

(** X26.  No webhook delivery changes what a guest sees: the rows that
    the cart query returns for a visitor who is not signed in, and so the
    badge, are the same before and after any delivery. *)
Theorem guest_cart_is_unaffected_by_webhooks :
  forall (env : Env) (request : WebhookRequest.t) (w : World)
         (sessionId : string) (failed : bool),
    Navbar.queryFn None sessionId failed
                   (store (snd (Webhook.POST env request w)))
    = Navbar.queryFn None sessionId failed (store w).
Proof.
  intros env request w sessionId failed.
  destruct (signature_cases env request) as [Hbad | [event Hok]].
  - now destruct (POST_rejected w Hbad) as [message ->].
  - rewrite (POST_accepted w Hok). cbn [snd store].
    unfold Navbar.queryFn. destruct failed; [reflexivity|].
    destruct (dispatch_effect_cart env event (store w))
      as [-> | (userId & _ & _ & ->)]; [reflexivity|].
    unfold delete_effect. destruct (db_error env _); [reflexivity|].
    cbn [cart_items Supabase.with_cart_items].
    apply filter_filter_implied. intros c Hc.
    apply andb_true_iff in Hc as [Hview _].
    unfold Navbar.may_view in Hview. cbn [option_map] in Hview.
    destruct (CartItem.user_id c); [discriminate | reflexivity].
Qed.

(* ===================================================================== *)
(** ** [createCheckoutSession] of [lib/stripe.ts]                         *)
(* ===================================================================== *)

Lemma lib_lineItems_inr (items : list Lib.JoinedItem) (ls : list LineItem.t) :
  Lib.lineItems items = inr ls ->
  length ls = length items /\
  lines_total ls = joined_total items /\
  Forall (fun i => Lib.product i <> None) items.
Proof.
  revert ls. induction items as [|i items IH]; intros ls H; cbn in H.
  - inversion H. repeat split. constructor.
  - unfold Lib.lineItem in H. destruct (Lib.product i) as [p|] eqn:P;
      [|discriminate].
    destruct (Lib.lineItems items) as [e|ls']; [discriminate|].
    inversion H; subst ls. destruct (IH ls' eq_refl) as (Hlen & Htot & Hall).
    repeat split.
    + cbn. now rewrite Hlen.
    + unfold lines_total, joined_total in *. cbn [fold_right].
      rewrite P. cbn. now rewrite Htot.
    + constructor; [congruence | exact Hall].
Qed.

(** X27.  When [createCheckoutSession] returns a session, every cart
    item had its product, and the processor was asked for one line per
    item whose amount, the sum of [unit_amount * quantity], is the sum over
    the cart of product price times quantity; the metadata carries the
    user id and the shipping address, and no order id. *)
Theorem lib_session_charges_the_cart_total :
  forall (create : Lib.Params -> string + Session.t) (userId email : string)
         (items : list Lib.JoinedItem) (shippingAddress : string)
         (session : Session.t),
    Lib.createCheckoutSession create userId email items shippingAddress
    = inr session ->
    exists ls,
      create (Lib.mkParams ls email userId shippingAddress) = inr session /\
      length ls = length items /\
      lines_total ls = joined_total items /\
      Forall (fun i => Lib.product i <> None) items.
Proof.
  intros create userId email items shippingAddress session H.
  unfold Lib.createCheckoutSession in H.
  destruct (Lib.lineItems items) as [e|ls] eqn:L; [discriminate|].
  destruct (create _) as [message|s] eqn:C; [discriminate|].
  inversion H; subst s. exists ls. split; [exact C|].
  now apply lib_lineItems_inr.
Qed.

Lemma lib_session_charges_the_cart_total_witness :
  Lib.createCheckoutSession (fun _ => inr (Session.mk "cs_9" "https://pay/9"))
                            "user-1" "ada@example.org" Furthermore.joined_cart
                            "{}"
  = inr (Session.mk "cs_9" "https://pay/9") /\
  joined_total Furthermore.joined_cart = 4500 /\
  exists ls,
    length ls = length Furthermore.joined_cart /\
    lines_total ls = joined_total Furthermore.joined_cart.
Proof.
  split; [reflexivity|]. split; [reflexivity|].
  destruct (@lib_session_charges_the_cart_total
              (fun _ => inr (Session.mk "cs_9" "https://pay/9"))
              "user-1" "ada@example.org" Furthermore.joined_cart "{}"
              (Session.mk "cs_9" "https://pay/9") eq_refl)
    as (ls & _ & Hlen & Htot & _).
  exists ls. split; assumption.
Defined.

(** X28.  [createCheckoutSession] fails with a [TypeError], whatever
    the processor would answer, as soon as one cart item comes without its
    product. *)
Theorem lib_missing_product_throws :
  forall (create : Lib.Params -> string + Session.t) (userId email : string)
         (items : list Lib.JoinedItem) (shippingAddress : string)
         (item : Lib.JoinedItem),
    In item items ->
    Lib.product item = None ->
    Lib.createCheckoutSession create userId email items shippingAddress
    = inl TypeError.
Proof.
  intros create userId email items shippingAddress item Hin Hnone.
  unfold Lib.createCheckoutSession.
  assert (Lib.lineItems items = inl TypeError) as ->; [|reflexivity].
  induction items as [|i items IH]; [destruct Hin|].
  cbn [Lib.lineItems]. unfold Lib.lineItem at 1.
  destruct (Lib.product i) as [p|] eqn:P; [|reflexivity].
  destruct Hin as [-> | Hin]; [congruence|].
  now rewrite (IH Hin).
Qed.

Lemma lib_missing_product_throws_witness :
  Lib.product (Lib.mkJoined 1 None) = None /\
  Lib.createCheckoutSession (fun _ => inr (Session.mk "cs_9" "https://pay/9"))
                            "user-1" "ada@example.org"
                            [Lib.mkJoined 2 (Some Sample.productA);
                             Lib.mkJoined 1 None] "{}"
  = inl TypeError.
Proof.
  split; [reflexivity|].
  exact (@lib_missing_product_throws
           (fun _ => inr (Session.mk "cs_9" "https://pay/9"))
           "user-1" "ada@example.org"
           [Lib.mkJoined 2 (Some Sample.productA); Lib.mkJoined 1 None] "{}"
           (Lib.mkJoined 1 None) (or_intror (or_introl eq_refl)) eq_refl).
Defined.
